(** * SunoGenerateMusic: the submit / poll / extract / materialize pipeline

    A shallow embedding of [suno/generate_music.py] (class
    [SunoGenerateMusic]) and the properties of its asynchronous job
    lifecycle.

    Layout:
    - [Py]: the Python values the node manipulates (parsed JSON, floats,
      strings) with the handful of built-in operations the source calls;
    - [Exc]: exceptions and the class tests of the [except] clauses;
    - [Eff]: a state-and-exception monad over the node's output store and a
      trace of the calls made to external collaborators;
    - [Suno]: the methods of the class, in source order;
    - [Obs], [Sample], [Blocks]: the vocabulary of the statements, sample
      nodes and worlds, and the blocks of [_process];
    - the properties of the pipeline, then further properties of each
      method. *)

From Stdlib Require Import ZArith String Ascii List Bool Floats Lia DecimalString.
From stdpp Require Import base option list gmap strings.

#[local] Set Warnings "-inexact-float,-register-all".
#[local] Open Scope string_scope.
#[local] Open Scope Z_scope.
#[local] Open Scope list_scope.

(* ===================================================================== *)
(** ** Python values *)
(* ===================================================================== *)

Module Py.

(** Values produced by [response.json()] and stored in request payloads.
    [PInt] is Python's unbounded [int]; [PFloat] a binary64 [float]; a
    [dict] is its list of items in insertion order. *)
Inductive pyval : Type :=
| PNone
| PBool (b : bool)
| PInt (z : Z)
| PFloat (f : float)
| PStr (s : string)
| PList (l : list pyval)
| PDict (items : list (string * pyval)).

(** [bool(v)]: the truth value tested by [if v], [not v] and [v or d]. *)
Definition float_truthy (f : float) : bool := negb (PrimFloat.eqb f 0%float).

Definition str_truthy (s : string) : bool :=
  match s with EmptyString => false | String _ _ => true end.

Definition truthy (v : pyval) : bool :=
  match v with
  | PNone => false
  | PBool b => b
  | PInt z => negb (z =? 0)
  | PFloat f => float_truthy f
  | PStr s => str_truthy s
  | PList l => match l with [] => false | _ :: _ => true end
  | PDict d => match d with [] => false | _ :: _ => true end
  end.

(** [a or b] *)
Definition py_or (a b : pyval) : pyval := if truthy a then a else b.

(** [s or ""] for a string parameter that may be [None]. *)
Definition str_or_empty (s : option string) : string := default "" s.

(** [type(v).__name__], as it appears in the messages of [AttributeError]
    and [TypeError]. *)
Definition type_name (v : pyval) : string :=
  match v with
  | PNone => "NoneType"
  | PBool _ => "bool"
  | PInt _ => "int"
  | PFloat _ => "float"
  | PStr _ => "str"
  | PList _ => "list"
  | PDict _ => "dict"
  end.

(** [v == n] against a small non-negative [int] literal (200 in the
    source): numbers compare by value, [True]/[False] are the integers 1
    and 0, anything else is unequal. *)
Definition eq_int (v : pyval) (n : Z) : bool :=
  match v with
  | PInt z => z =? n
  | PFloat f => PrimFloat.eqb f (PrimFloat.of_uint63 (Uint63.of_Z n))
  | PBool b => (if b then 1 else 0) =? n
  | _ => false
  end.

(** [v == "literal"] *)
Definition eq_str (v : pyval) (s : string) : bool :=
  match v with
  | PStr t => String.eqb t s
  | _ => false
  end.

(** [v in [s1, ..., sn]] for a list of string literals. *)
Definition in_strs (v : pyval) (l : list string) : bool :=
  existsb (eq_str v) l.

(** Lookup in the items of a [dict]; the first item with the key. *)
Fixpoint dict_lookup (k : string) (d : list (string * pyval)) : option pyval :=
  match d with
  | [] => None
  | (k', v) :: d' => if String.eqb k k' then Some v else dict_lookup k d'
  end.

(** [d[k] = v]: overwrite in place, or append a new item at the end. *)
Fixpoint dict_set (k : string) (v : pyval) (d : list (string * pyval))
  : list (string * pyval) :=
  match d with
  | [] => [(k, v)]
  | (k', v') :: d' =>
      if String.eqb k k' then (k', v) :: d' else (k', v') :: dict_set k v d'
  end.

(** [isinstance(v, dict)] and [isinstance(v, list)] *)
Definition is_dict (v : pyval) : bool :=
  match v with PDict _ => true | _ => false end.

Definition is_list (v : pyval) : bool :=
  match v with PList _ => true | _ => false end.

(** ** Strings

    A Python [str] is modelled by a [string] whose characters stand for code
    points below 256, so that [len] is [String.length]. *)

(** [c.isspace()] on that range. *)
Definition isspace (c : ascii) : bool :=
  let n := Z.of_N (N_of_ascii c) in
  ((9 <=? n) && (n <=? 13)) || ((28 <=? n) && (n <=? 32))
  || (n =? 133) || (n =? 160).

Fixpoint lstrip (s : string) : string :=
  match s with
  | EmptyString => EmptyString
  | String c s' => if isspace c then lstrip s' else s
  end.

Fixpoint rstrip (s : string) : string :=
  match s with
  | EmptyString => EmptyString
  | String c s' =>
      match rstrip s' with
      | EmptyString => if isspace c then EmptyString else String c EmptyString
      | r => String c r
      end
  end.

(** [s.strip()] *)
Definition strip (s : string) : string := rstrip (lstrip s).

(** [len(s)] *)
Definition len (s : string) : Z := Z.of_nat (String.length s).

(** [str(n)] for an [int]. *)
Definition str_of_int (n : Z) : string := NilZero.string_of_int (Z.to_int n).

(** [s[:n]] *)
Definition str_prefix (n : nat) (s : string) : string := substring 0 n s.

(** The line feed of ["\n".join(...)]. *)
Definition newline : string := String "010"%char EmptyString.

(** [sep.join(l)] *)
Definition join (sep : string) (l : list string) : string := String.concat sep l.

End Py.

(* ===================================================================== *)
(** ** Exceptions *)
(* ===================================================================== *)

Module Exc.

(** The exception classes that can reach the handlers of the node.  The
    [requests] classes are listed with their place in the hierarchy:
    [ConnectTimeout] and [ReadTimeout] derive from [Timeout]; all of them,
    and the [JSONDecodeError] of [requests.exceptions], derive from
    [RequestException].  [OtherException] stands for any other subclass of
    [Exception]. *)
Inductive exc_class : Type :=
| ValueError
| RuntimeError
| TypeError
| AttributeError
| KeyError
| OtherException
| RequestException
| ConnectionError
| HTTPError
| JSONDecodeError
| Timeout
| ConnectTimeout
| ReadTimeout.

(** An exception: its class and [str(e)]. *)
Record exn : Type := Exn { exc_type : exc_class; exc_str : string }.

#[global] Instance exc_class_eq_dec : EqDecision exc_class.
Proof. solve_decision. Defined.

#[global] Instance exn_eq_dec : EqDecision exn.
Proof. solve_decision. Defined.

(** [isinstance(e, requests.exceptions.Timeout)] *)
Definition is_Timeout (c : exc_class) : bool :=
  match c with
  | Timeout | ConnectTimeout | ReadTimeout => true
  | _ => false
  end.

(** [isinstance(e, requests.exceptions.RequestException)] *)
Definition is_RequestException (c : exc_class) : bool :=
  match c with
  | RequestException | ConnectionError | HTTPError | JSONDecodeError
  | Timeout | ConnectTimeout | ReadTimeout => true
  | _ => false
  end.

(** A call either returns or raises. *)
Inductive result (A : Type) : Type :=
| Ok (a : A)
| Raise (e : exn).
#[global] Arguments Ok {A} a.
#[global] Arguments Raise {A} e.

Definition raises {A} (r : result A) : Prop :=
  match r with Ok _ => False | Raise _ => True end.

(** [v.get(key, default)]: defined on a [dict] only. *)
Definition py_get (v : Py.pyval) (key : string) (dflt : Py.pyval)
  : result Py.pyval :=
  match v with
  | Py.PDict d => Ok (default dflt (Py.dict_lookup key d))
  | _ => Raise (Exn AttributeError
           ("'" +:+ Py.type_name v +:+ "' object has no attribute 'get'"))
  end.

(** [len(v)] on a value. *)
Definition py_len (v : Py.pyval) : result Z :=
  match v with
  | Py.PStr s => Ok (Py.len s)
  | Py.PList l => Ok (Z.of_nat (length l))
  | Py.PDict d => Ok (Z.of_nat (length d))
  | _ => Raise (Exn TypeError
           ("object of type '" +:+ Py.type_name v +:+ "' has no len()"))
  end.

(** [v[:n]] on a value: a prefix of a string or list; a [dict] cannot be
    indexed by a slice. *)
Definition py_prefix (n : nat) (v : Py.pyval) : result Py.pyval :=
  match v with
  | Py.PStr s => Ok (Py.PStr (Py.str_prefix n s))
  | Py.PList l => Ok (Py.PList (take n l))
  | Py.PDict _ => Raise (Exn TypeError "unhashable type: 'slice'")
  | _ => Raise (Exn TypeError
           ("'" +:+ Py.type_name v +:+ "' object is not subscriptable"))
  end.

End Exc.

(* ===================================================================== *)
(** ** The node, its collaborators and the effect monad *)
(* ===================================================================== *)

Module Eff.
Import Py Exc.

(** [AudioUrlArtifact(value=..., name=...)] / [ImageUrlArtifact(...)]. *)
Record artifact : Type := Artifact { art_value : pyval; art_name : option string }.

(** What an output slot of [parameter_output_values] can hold. *)
Inductive outval : Type :=
| OVal (v : pyval)
| OAudio (a : artifact)
| OImage (a : artifact).

(** The input parameters read by [get_parameter_value], typed as their
    [Parameter] declarations in [__init__]; [None] is an unset value. *)
Record parameters : Type := Parameters {
  custom_mode : option bool;
  model : option string;
  prompt : option string;
  style : option string;
  title : option string;
  instrumental : option bool;
  vocal_gender : option string;
  negative_tags : option string;
  style_weight : option float;
  weirdness_constraint : option float;
  audio_weight : option float;
}.

(** [self]: the node name, its inputs and its output store. *)
Record node : Type := Node {
  name : string;
  params : parameters;
  parameter_output_values : gmap string outval;
}.

(** An HTTP response as far as the node looks at it: the status code tested
    by [raise_for_status] (with the message of the [HTTPError] it would
    raise), the outcome of [.json()] and the body [.content]. *)
Record response : Type := Response {
  status_code : Z;
  http_error_str : string;
  json : result pyval;
  content : list Byte.byte;
}.

(** Calls that leave the node, in the order they are made. *)
Inductive event : Type :=
| EGetSecret (key : string)
| EPost (url : string) (authorization : string) (body : list (string * pyval))
        (timeout : Z)
| ESleep (seconds : Z)
| EGetStatus (url : string) (authorization : string) (task_id : pyval)
             (timeout : Z)
| EDownload (url : pyval) (timeout : Z)
| ETime
| ESaveStatic (data : list Byte.byte) (filename : string)
| ESetParameter (param : string) (value : string).

(** The external collaborators: Python built-ins whose result is not
    computed here, the secrets manager, the remote API behind [requests],
    the clock and the static files manager.  Calls that can be repeated
    within a run are indexed, so that each call may have its own outcome:
    [requests_get_status] by the polling attempt (from 0), the others by the
    number of events that precede the call. *)
Record World : Type := {
  py_repr : pyval -> string;
  py_round2 : float -> float;
  get_secret : string -> option string;
  requests_post : string -> list (string * pyval) -> result response;
  requests_get_status : nat -> result response;
  requests_get : nat -> pyval -> result response;
  time_time : nat -> Z;
  save_static_file : nat -> list Byte.byte -> string -> result string;
}.

(** The machine state: the node and the trace of external calls so far. *)
Record state : Type := State { self : node; trace : list event }.

Definition now (st : state) : nat := length (trace st).

(** Computations that read and update the state and may raise.  The state
    reached when an exception is raised is kept: an [except] clause sees
    every assignment made before the [raise]. *)
Definition M (A : Type) : Type := state -> result A * state.

Definition ret {A} (a : A) : M A := fun st => (Ok a, st).

Definition raise {A} (e : exn) : M A := fun st => (Raise e, st).

Definition bind {A B} (m : M A) (k : A -> M B) : M B :=
  fun st =>
    match m st with
    | (Ok a, st') => k a st'
    | (Raise e, st') => (Raise e, st')
    end.

(** [try: body  except ...: handler(e)]; the handler decides by class
    whether it re-raises. *)
Definition try_except {A} (body : M A) (handler : exn -> M A) : M A :=
  fun st =>
    match body st with
    | (Ok a, st') => (Ok a, st')
    | (Raise e, st') => handler e st'
    end.

Definition lift {A} (r : result A) : M A := fun st => (r, st).

Definition emit (e : event) : M unit :=
  fun st => (Ok tt, State (self st) (trace st ++ [e])).

Definition get_state : M state := fun st => (Ok st, st).

Definition get_self : M node := fun st => (Ok (self st), st).

(** [self.parameter_output_values[slot] = v] *)
Definition set_output (slot : string) (v : outval) : M unit :=
  fun st =>
    let n := self st in
    (Ok tt,
     State (Node (name n) (params n) (<[slot := v]> (parameter_output_values n)))
           (trace st)).

Declare Scope eff_scope.
Delimit Scope eff_scope with eff.
Notation "x <- m ;; k" := (bind m (fun x => k))
  (at level 100, m at next level, right associativity) : eff_scope.
Notation "m ;; k" := (bind m (fun _ => k))
  (at level 100, right associativity) : eff_scope.

End Eff.

(* ===================================================================== *)
(** ** class SunoGenerateMusic *)
(* ===================================================================== *)

(** The methods are given in the order of the source.  Left out: the
    parameter declarations of [__init__] (their types are those of
    [parameters]), the visibility toggles ([_initialize_parameter_visibility],
    [after_value_set]), the generator [process] that hands [_process] to the
    host, and [_log], which writes to the logger under
    [suppress(Exception)], never raises and touches neither the outputs nor
    the collaborators.  [set_parameter_value("status", ...)] is the host's
    method; it is recorded as an [ESetParameter] event. *)
Module Suno.
Import Py Exc Eff.
#[local] Open Scope eff_scope.

(** *** Class constants *)

Definition SERVICE_NAME : string := "Suno API".
Definition API_KEY_NAME : string := "SUNO_API_KEY".
Definition API_BASE_URL : string := "https://api.sunoapi.org/api/v1".

Definition POLLING_INTERVAL : Z := 10.
Definition MAX_POLLING_ATTEMPTS : nat := 36.
Definition DEFAULT_TIMEOUT : Z := 30.

Definition MODELS : list string := ["V5"; "V4_5PLUS"; "V4_5"; "V4"; "V3_5"].

Definition PROMPT_LIMITS_CUSTOM : list (string * Z) :=
  [("V3_5", 3000); ("V4", 3000); ("V4_5", 5000); ("V4_5PLUS", 5000); ("V5", 5000)].
Definition PROMPT_LIMIT_SIMPLE : Z := 500.

Definition STYLE_LIMITS : list (string * Z) :=
  [("V3_5", 200); ("V4", 200); ("V4_5", 1000); ("V4_5PLUS", 1000); ("V5", 1000)].

Definition TITLE_LIMIT : Z := 80.

(** [table.get(model, dflt)] on the two limit tables; [model] may be
    [None], which is no key of either. *)
Fixpoint limit_get (table : list (string * Z)) (key : option string) (dflt : Z) : Z :=
  match table with
  | [] => dflt
  | (k, v) :: table' =>
      match key with
      | Some m => if String.eqb m k then v else limit_get table' key dflt
      | None => dflt
      end
  end.

(** [f"{model}"] for the optional string parameter. *)
Definition str_of_opt (o : option string) : string := default "None" o.

(** [bool(b)] for an optional flag. *)
Definition flag (b : option bool) : bool := default false b.

Definition pyval_of_flag (b : option bool) : pyval :=
  match b with Some x => PBool x | None => PNone end.

Definition pyval_of_opt_str (s : option string) : pyval :=
  match s with Some x => PStr x | None => PNone end.

(** *** validate_before_node_run *)

Definition validate_before_node_run (self : node) : option (list exn) :=
  let p := params self in
  let exceptions : list exn := [] in
  let custom_mode := custom_mode p in
  let instrumental := instrumental p in
  let model := model p in
  let exceptions :=
    if flag custom_mode then
      let style := str_or_empty (style p) in
      let title := str_or_empty (title p) in
      let prompt := str_or_empty (prompt p) in
      let exceptions :=
        if negb (str_truthy (strip style)) then
          exceptions ++ [Exn ValueError
            (name self +:+ ": Style is required in Custom Mode")]
        else exceptions in
      let exceptions :=
        if negb (str_truthy (strip title)) then
          exceptions ++ [Exn ValueError
            (name self +:+ ": Title is required in Custom Mode")]
        else exceptions in
      let exceptions :=
        if negb (flag instrumental) && negb (str_truthy (strip prompt)) then
          exceptions ++ [Exn ValueError
            (name self +:+
             ": Prompt/Lyrics required in Custom Mode when not instrumental")]
        else exceptions in
      let exceptions :=
        if str_truthy prompt then
          let prompt_limit := limit_get PROMPT_LIMITS_CUSTOM model 3000 in
          if prompt_limit <? len prompt then
            exceptions ++ [Exn ValueError
              (name self +:+ ": Prompt exceeds " +:+ str_of_int prompt_limit
               +:+ " character limit for " +:+ str_of_opt model
               +:+ " (current: " +:+ str_of_int (len prompt) +:+ " characters)")]
          else exceptions
        else exceptions in
      let exceptions :=
        if str_truthy style then
          let style_limit := limit_get STYLE_LIMITS model 200 in
          if style_limit <? len style then
            exceptions ++ [Exn ValueError
              (name self +:+ ": Style exceeds " +:+ str_of_int style_limit
               +:+ " character limit for " +:+ str_of_opt model
               +:+ " (current: " +:+ str_of_int (len style) +:+ " characters)")]
          else exceptions
        else exceptions in
      let exceptions :=
        if str_truthy title && (TITLE_LIMIT <? len title) then
          exceptions ++ [Exn ValueError
            (name self +:+ ": Title exceeds " +:+ str_of_int TITLE_LIMIT
             +:+ " character limit (current: " +:+ str_of_int (len title)
             +:+ " characters)")]
        else exceptions in
      exceptions
    else
      let prompt := str_or_empty (prompt p) in
      let exceptions :=
        if negb (str_truthy (strip prompt)) then
          exceptions ++ [Exn ValueError
            (name self +:+ ": Prompt is required in Simple Mode")]
        else exceptions in
      let exceptions :=
        if PROMPT_LIMIT_SIMPLE <? len prompt then
          exceptions ++ [Exn ValueError
            (name self +:+ ": Prompt exceeds " +:+ str_of_int PROMPT_LIMIT_SIMPLE
             +:+ " character limit in Simple Mode (current: "
             +:+ str_of_int (len prompt) +:+ " characters)")]
        else exceptions in
      exceptions in
  match exceptions with
  | [] => None
  | _ :: _ => Some exceptions
  end.

(** *** _set_safe_defaults *)

Definition _set_safe_defaults : M unit :=
  set_output "status" (OVal (PStr "error"));;
  set_output "task_id" (OVal PNone);;
  set_output "audio_track_1" (OVal PNone);;
  set_output "audio_track_2" (OVal PNone);;
  set_output "cover_image" (OVal PNone);;
  set_output "generated_title" (OVal (PStr ""));;
  set_output "tags" (OVal (PStr ""));;
  set_output "lyrics" (OVal (PStr ""));;
  set_output "result_details" (OVal (PStr "Generation failed")).

Section WithWorld.

Variable w : World.

(** [str(v)] / [f"{v}"]: a string is itself, any other value prints as its
    [repr]. *)
Definition py_str (v : pyval) : string :=
  match v with
  | PStr s => s
  | _ => py_repr w v
  end.

(** *** _validate_api_key *)

Definition _validate_api_key : M string :=
  emit (EGetSecret API_KEY_NAME);;
  match get_secret w API_KEY_NAME with
  | Some api_key =>
      if str_truthy api_key then ret api_key
      else raise (Exn ValueError
             ("Missing " +:+ API_KEY_NAME +:+
              ". Please configure your Suno API key in Settings > Secrets."))
  | None =>
      raise (Exn ValueError
             ("Missing " +:+ API_KEY_NAME +:+
              ". Please configure your Suno API key in Settings > Secrets."))
  end.

(** *** _build_payload *)

(** The test [if weight and weight != 0.65] on a weight parameter. *)
Definition weight_is_sent (weight : option float) : bool :=
  match weight with
  | Some x => float_truthy x && negb (PrimFloat.eqb x 0.65%float)
  | None => false
  end.

(** [if weight and weight != 0.65: payload[key] = round(weight, 2)] *)
Definition add_weight (key : string) (weight : option float)
    (payload : list (string * pyval)) : list (string * pyval) :=
  match weight with
  | Some x =>
      if float_truthy x && negb (PrimFloat.eqb x 0.65%float)
      then dict_set key (PFloat (py_round2 w x)) payload
      else payload
  | None => payload
  end.

Definition _build_payload (self : node) : list (string * pyval) :=
  let p := params self in
  let custom_mode := custom_mode p in
  let model := model p in
  let instrumental := instrumental p in
  let payload :=
    [("customMode", pyval_of_flag custom_mode);
     ("instrumental", pyval_of_flag instrumental);
     ("model", pyval_of_opt_str model);
     ("callBackUrl", PStr "https://example.com/callback")] in
  let prompt := str_or_empty (prompt p) in
  let payload :=
    if str_truthy (strip prompt)
    then dict_set "prompt" (PStr (strip prompt)) payload else payload in
  let payload :=
    if flag custom_mode then
      let style := str_or_empty (style p) in
      let title := str_or_empty (title p) in
      let payload :=
        if str_truthy (strip style)
        then dict_set "style" (PStr (strip style)) payload else payload in
      let payload :=
        if str_truthy (strip title)
        then dict_set "title" (PStr (strip title)) payload else payload in
      payload
    else payload in
  let negative_tags := str_or_empty (negative_tags p) in
  let payload :=
    if str_truthy (strip negative_tags)
    then dict_set "negativeTags" (PStr (strip negative_tags)) payload
    else payload in
  let payload :=
    match vocal_gender p with
    | Some g =>
        if str_truthy g && negb (String.eqb g "auto")
        then dict_set "vocalGender" (PStr g) payload else payload
    | None => payload
    end in
  let payload := add_weight "styleWeight" (style_weight p) payload in
  let payload := add_weight "weirdnessConstraint" (weirdness_constraint p) payload in
  let payload := add_weight "audioWeight" (audio_weight p) payload in
  payload.

(** *** _submit_task *)

(** [response.raise_for_status()] *)
Definition raise_for_status (r : response) : M unit :=
  if (400 <=? status_code r) && (status_code r <? 600)
  then raise (Exn HTTPError (http_error_str r))
  else ret tt.

(** [f"Bearer {api_key}"], the [Authorization] header of both API calls. *)
Definition bearer (api_key : string) : string := "Bearer " +:+ api_key.

(** [requests.post(f"{API_BASE_URL}/generate", json=payload, ...)] *)
Definition requests_post_generate (api_key : string)
    (payload : list (string * pyval)) : M response :=
  let url := API_BASE_URL +:+ "/generate" in
  emit (EPost url (bearer api_key) payload DEFAULT_TIMEOUT);;
  lift (requests_post w url payload).

Definition _submit_task (api_key : string) : M pyval :=
  self <- get_self;;
  let payload := _build_payload self in
  try_except
    (response <- requests_post_generate api_key payload;;
     raise_for_status response;;
     response_data <- lift (json response);;
     code <- lift (py_get response_data "code" PNone);;
     if negb (eq_int code 200) then
       error_msg <- lift (py_get response_data "msg" (PStr "Unknown error"));;
       raise (Exn RuntimeError ("API returned error: " +:+ py_str error_msg))
     else
       ret response_data)
    (fun e =>
       if is_Timeout (exc_type e) then
         raise (Exn RuntimeError
                  ("Request timed out after " +:+ str_of_int DEFAULT_TIMEOUT
                   +:+ " seconds"))
       else if is_RequestException (exc_type e) then
         raise (Exn RuntimeError ("Request failed: " +:+ exc_str e))
       else raise e).

(** *** _poll_for_completion *)

Definition FAILED_STATUSES : list string :=
  ["CREATE_TASK_FAILED"; "GENERATE_AUDIO_FAILED"; "CALLBACK_EXCEPTION";
   "SENSITIVE_WORD_ERROR"].

(** [requests.get(query_url, headers=headers, params={"taskId": task_id},
    timeout=DEFAULT_TIMEOUT)] on the given attempt. *)
Definition requests_get_record_info (task_id : pyval) (api_key : string)
    (attempt : nat) : M response :=
  let query_url := API_BASE_URL +:+ "/generate/record-info" in
  emit (EGetStatus query_url (bearer api_key) task_id DEFAULT_TIMEOUT);;
  lift (requests_get_status w attempt).

(** The body of the [for attempt in range(MAX_POLLING_ATTEMPTS)] loop.
    [Some status_data] is the [return status_data] of the source; [None]
    falls through to the next iteration. *)
Definition poll_attempt (task_id : pyval) (api_key : string) (attempt : nat)
  : M (option pyval) :=
  emit (ESleep POLLING_INTERVAL);;
  try_except
    (response <- requests_get_record_info task_id api_key attempt;;
     raise_for_status response;;
     status_data <- lift (json response);;
     code <- lift (py_get status_data "code" PNone);;
     if negb (eq_int code 200) then
       error_msg <- lift (py_get status_data "msg" (PStr "Unknown error"));;
       raise (Exn RuntimeError ("API returned error: " +:+ py_str error_msg))
     else
       data <- lift (py_get status_data "data" (PDict []));;
       task_status <- lift (py_get data "status" (PStr ""));;
       let status_msg :=
         "Status: " +:+ py_str task_status +:+ " ("
         +:+ str_of_int (Z.of_nat attempt + 1) +:+ "/"
         +:+ str_of_int (Z.of_nat MAX_POLLING_ATTEMPTS) +:+ ")" in
       emit (ESetParameter "status" status_msg);;
       if eq_str task_status "SUCCESS" then
         ret (Some status_data)
       else if in_strs task_status FAILED_STATUSES then
         error_msg <- lift (py_get data "errorMessage"
                              (PStr ("Task failed with status: "
                                     +:+ py_str task_status)));;
         raise (Exn RuntimeError ("Generation failed: " +:+ py_str error_msg))
       else
         ret None)
    (fun e =>
       if is_RequestException (exc_type e) then ret None else raise e).

Definition poll_timeout : exn :=
  Exn RuntimeError
    ("Task did not complete within "
     +:+ str_of_int (Z.of_nat MAX_POLLING_ATTEMPTS * POLLING_INTERVAL)
     +:+ " seconds. "
     +:+ "The task may still be processing - check back with the task_id later.").

(** The [for] loop over the remaining attempts, then the [raise] after it. *)
Fixpoint poll_loop (task_id : pyval) (api_key : string) (attempts : list nat)
  : M pyval :=
  match attempts with
  | [] => raise poll_timeout
  | attempt :: attempts' =>
      r <- poll_attempt task_id api_key attempt;;
      match r with
      | Some status_data => ret status_data
      | None => poll_loop task_id api_key attempts'
      end
  end.

Definition _poll_for_completion (task_id : pyval) (api_key : string) : M pyval :=
  poll_loop task_id api_key (seq 0 MAX_POLLING_ATTEMPTS).

(** *** _extract_track_data *)

(** The [track] dict built for each entry of [sunoData]; its keys are
    fixed, so it is a record. *)
Record track : Type := Track {
  tr_audio_url : pyval;
  tr_image_url : pyval;
  tr_title : pyval;
  tr_duration : pyval;
  tr_tags : pyval;
  tr_prompt : pyval;
  tr_model_name : pyval;
}.

(** The seven [item.get(...)] of one iteration. *)
Definition track_of_item (item : pyval) : result track :=
  match item with
  | PDict d =>
      let get key := default PNone (dict_lookup key d) in
      Ok (Track (get "audioUrl") (get "imageUrl") (get "title")
                (get "duration") (get "tags") (get "prompt")
                (get "modelName"))
  | _ => Raise (Exn AttributeError
           ("'" +:+ type_name item +:+ "' object has no attribute 'get'"))
  end.

(** [for item in suno_data: ...] appending to [tracks]. *)
Fixpoint extract_items (suno_data : list pyval) (tracks : list track)
  : result (list track) :=
  match suno_data with
  | [] => Ok tracks
  | item :: suno_data' =>
      match track_of_item item with
      | Ok track =>
          if truthy (tr_audio_url track)
          then extract_items suno_data' (tracks ++ [track])
          else extract_items suno_data' tracks
      | Raise e => Raise e
      end
  end.

Definition _extract_track_data (response_data : pyval) : result (list track) :=
  let tracks : list track := [] in
  match py_get response_data "data" (PDict []) with
  | Raise e => Raise e
  | Ok data =>
      if negb (is_dict data) then Ok tracks else
      match py_get data "response" (PDict []) with
      | Raise e => Raise e
      | Ok response =>
          if negb (is_dict response) then Ok tracks else
          match py_get response "sunoData" (PList []) with
          | Raise e => Raise e
          | Ok suno_data =>
              match suno_data with
              | PList items => extract_items items tracks
              | _ => Ok tracks
              end
          end
      end
  end.

(** *** _download_bytes_from_url *)

(** [requests.get(url, timeout=timeout)]; the outcome is the world's for
    the call made at this point of the run. *)
Definition requests_get_url (url : pyval) (timeout : Z) : M response :=
  st <- get_state;;
  emit (EDownload url timeout);;
  lift (requests_get w (now st) url).

Definition _download_bytes_from_url (url : pyval) : M (option (list Byte.byte)) :=
  try_except
    (resp <- requests_get_url url 120;;
     raise_for_status resp;;
     ret (Some (content resp)))
    (fun _ => ret None).

(** *** _save_audio_from_url, _save_image_from_url *)

(** [int(time.time())] *)
Definition int_time : M Z :=
  st <- get_state;;
  emit ETime;;
  ret (time_time w (now st)).

(** [GriptapeNodes.StaticFilesManager().save_static_file(data, filename)] *)
Definition static_files_save (data : list Byte.byte) (filename : string)
  : M string :=
  st <- get_state;;
  emit (ESaveStatic data filename);;
  lift (save_static_file w (now st) data filename).

(** [not data] on [bytes | None] *)
Definition no_bytes (data : option (list Byte.byte)) : bool :=
  match data with
  | None | Some [] => true
  | Some (_ :: _) => false
  end.

Definition _save_audio_from_url (audio_url : pyval) (track_index : Z)
  : M artifact :=
  try_except
    (audio_bytes <- _download_bytes_from_url audio_url;;
     if no_bytes audio_bytes then
       ret (Artifact audio_url None)
     else
       t <- int_time;;
       let filename :=
         "suno_track" +:+ str_of_int track_index +:+ "_" +:+ str_of_int t
         +:+ ".mp3" in
       saved_url <- static_files_save (default [] audio_bytes) filename;;
       ret (Artifact (PStr saved_url) (Some filename)))
    (fun _ => ret (Artifact audio_url None)).

Definition _save_image_from_url (image_url : pyval) : M artifact :=
  try_except
    (image_bytes <- _download_bytes_from_url image_url;;
     if no_bytes image_bytes then
       ret (Artifact image_url None)
     else
       t <- int_time;;
       let filename := "suno_cover_" +:+ str_of_int t +:+ ".jpeg" in
       saved_url <- static_files_save (default [] image_bytes) filename;;
       ret (Artifact (PStr saved_url) (Some filename)))
    (fun _ => ret (Artifact image_url None)).

(** *** _process *)

(** The [for i, track in enumerate(tracks, 1)] loop that appends the
    per-track lines; [n] is [len(tracks)] of the whole list. *)
Fixpoint track_detail_lines (i n : Z) (tracks : list track)
    (result_lines : list string) : list string :=
  match tracks with
  | [] => result_lines
  | track :: tracks' =>
      let result_lines :=
        result_lines ++
        [str_of_int i +:+ ". Duration: " +:+ py_str (tr_duration track) +:+ "s"] in
      let result_lines :=
        result_lines ++ ["   Audio: " +:+ py_str (tr_audio_url track)] in
      let result_lines :=
        if i <? n then result_lines ++ [""] else result_lines in
      track_detail_lines (i + 1) n tracks' result_lines
  end.

(** "Build detailed result message": the [result_lines] list; [track0] is
    [tracks[0]].  The check mark is one code point in the source and its
    three UTF-8 bytes here. *)
Definition build_result_lines (task_id : pyval) (track0 : track)
    (tracks : list track) : result (list string) :=
  let n := Z.of_nat (length tracks) in
  let line1 := "✓ Generated " +:+ str_of_int n +:+ " track variation(s)" in
  let line2 := "Title: " +:+ py_str (tr_title track0) in
  let line3 := "Tags: " +:+ py_str (tr_tags track0) in
  match py_len (tr_prompt track0) with
  | Raise e => Raise e
  | Ok l =>
      let lyrics :=
        if 50 <? l then
          match py_prefix 50 (tr_prompt track0) with
          | Ok pre => Ok ("Lyrics: " +:+ py_str pre +:+ "...")
          | Raise e => Raise e
          end
        else Ok ("Lyrics: " +:+ py_str (tr_prompt track0)) in
      match lyrics with
      | Raise e => Raise e
      | Ok line4 =>
          let result_lines :=
            [line1; line2; line3; line4;
             "Task ID: " +:+ py_str task_id;
             "Model: " +:+ py_str (tr_model_name track0);
             "";
             "Track Details:"] in
          Ok (track_detail_lines 1 n tracks result_lines)
      end
  end.

Definition _process : M unit :=
  _set_safe_defaults;;
  try_except
    (api_key <- _validate_api_key;;
     emit (ESetParameter "status" "Submitting task...");;
     submission_response <- _submit_task api_key;;
     data <- lift (py_get submission_response "data" (PDict []));;
     task_id <- lift (py_get data "taskId" PNone);;
     if negb (truthy task_id) then
       raise (Exn RuntimeError "No task ID returned from API")
     else
       set_output "task_id" (OVal task_id);;
       emit (ESetParameter "status" "Generating music...");;
       completion_response <- _poll_for_completion task_id api_key;;
       tracks <- lift (_extract_track_data completion_response);;
       match tracks with
       | [] => raise (Exn RuntimeError "No tracks in completed response")
       | track1 :: others =>
           audio_artifact_1 <- _save_audio_from_url (tr_audio_url track1) 1;;
           set_output "audio_track_1" (OAudio audio_artifact_1);;
           (if truthy (tr_image_url track1) then
              cover_artifact <- _save_image_from_url (tr_image_url track1);;
              set_output "cover_image" (OImage cover_artifact)
            else ret tt);;
           set_output "generated_title"
             (OVal (py_or (tr_title track1) (PStr "Untitled")));;
           set_output "tags" (OVal (py_or (tr_tags track1) (PStr "")));;
           set_output "lyrics" (OVal (py_or (tr_prompt track1) (PStr "")));;
           match others with
           | track2 :: _ =>
               audio_artifact_2 <- _save_audio_from_url (tr_audio_url track2) 2;;
               set_output "audio_track_2" (OAudio audio_artifact_2)
           | [] => ret tt
           end;;
           set_output "status" (OVal (PStr "complete"));;
           result_lines <- lift (build_result_lines task_id track1 tracks);;
           set_output "result_details" (OVal (PStr (join newline result_lines)))
       end)
    (fun e =>
       _set_safe_defaults;;
       let error_msg := exc_str e in
       set_output "result_details" (OVal (PStr ("ERROR: " +:+ error_msg)));;
       self <- get_self;;
       raise (Exn RuntimeError (name self +:+ ": " +:+ error_msg))).

End WithWorld.

End Suno.

(* ===================================================================== *)
(** ** Vocabulary of the properties *)
(* ===================================================================== *)

Module Obs.
Import Py Exc Eff Suno.

(** The HTTP status does not make [raise_for_status] raise. *)
Definition http_ok (r : response) : bool :=
  negb ((400 <=? status_code r) && (status_code r <? 600)).

(** What one reply to a status query shows of the remote job: the payload
    and its [data.status], when the reply is an HTTP success whose body is
    an envelope with [code] 200 and a [data] object (or none). *)
Definition observation (r : result response) : option (pyval * pyval) :=
  match r with
  | Ok resp =>
      if http_ok resp then
        match json resp with
        | Ok (PDict sd) =>
            if eq_int (default PNone (dict_lookup "code" sd)) 200 then
              match default (PDict []) (dict_lookup "data" sd) with
              | PDict d =>
                  Some (PDict sd, default (PStr "") (dict_lookup "status" d))
              | _ => None
              end
            else None
        | _ => None
        end
      else None
  | Raise _ => None
  end.

(** A status after which polling goes on: PENDING, TEXT_SUCCESS,
    FIRST_SUCCESS and any other value that is neither SUCCESS nor one of
    the four failures. *)
Definition non_terminal (task_status : pyval) : bool :=
  negb (eq_str task_status "SUCCESS") && negb (in_strs task_status FAILED_STATUSES).

Definition in_progress (r : result response) : bool :=
  match observation r with
  | Some (_, s) => non_terminal s
  | None => false
  end.

(** The payload of a reply observed with status SUCCESS. *)
Definition succeeded (r : result response) : option pyval :=
  match observation r with
  | Some (payload, s) => if eq_str s "SUCCESS" then Some payload else None
  | None => None
  end.

(** The query failed with a [RequestException]: [requests.get] raised one
    (connection error, timeout, ...) or the reply has an error status and
    [raise_for_status] raises [HTTPError]. *)
Definition request_failed (r : result response) : bool :=
  match r with
  | Raise e => is_RequestException (exc_type e)
  | Ok resp => negb (http_ok resp)
  end.

(** Polling goes on after the reply. *)
Definition continues (r : result response) : bool :=
  in_progress r || request_failed r.

(** The reply is an HTTP success carrying an envelope ([dict]) whose
    [code] is not 200; the result is the value of [msg], if any. *)
Definition rejected (r : result response) : option (option pyval) :=
  match r with
  | Ok resp =>
      if http_ok resp then
        match json resp with
        | Ok (PDict sd) =>
            if eq_int (default PNone (dict_lookup "code" sd)) 200 then None
            else Some (dict_lookup "msg" sd)
        | _ => None
        end
      else None
  | Raise _ => None
  end.

(** The two calls of one polling attempt, as they appear in the trace. *)
Definition poll_calls (task_id : pyval) (api_key : string) : list event :=
  [ESleep 10;
   EGetStatus "https://api.sunoapi.org/api/v1/generate/record-info"
              ("Bearer " +:+ api_key) task_id 30].

(** [n] attempts, one after the other. *)
Fixpoint poll_calls_n (task_id : pyval) (api_key : string) (n : nat) : list event :=
  match n with
  | O => []
  | S n' => poll_calls task_id api_key ++ poll_calls_n task_id api_key n'
  end.

(** Sleeps and status queries, out of a trace. *)
Definition is_poll_call (e : event) : bool :=
  match e with
  | ESleep _ | EGetStatus _ _ _ _ => true
  | _ => false
  end.

Definition status_queries (evs : list event) : nat :=
  length (List.filter (fun e => match e with EGetStatus _ _ _ _ => true | _ => false end) evs).

(** The value of an output slot. *)
Definition output (st : state) (slot : string) : option outval :=
  parameter_output_values (self st) !! slot.

(** The failure baseline of the nine output slots, with the summary
    [details]. *)
Definition failure_baseline (st : state) (details : string) : Prop :=
  output st "status" = Some (OVal (PStr "error"))
  /\ output st "task_id" = Some (OVal PNone)
  /\ output st "audio_track_1" = Some (OVal PNone)
  /\ output st "audio_track_2" = Some (OVal PNone)
  /\ output st "cover_image" = Some (OVal PNone)
  /\ output st "generated_title" = Some (OVal (PStr ""))
  /\ output st "tags" = Some (OVal (PStr ""))
  /\ output st "lyrics" = Some (OVal (PStr ""))
  /\ output st "result_details" = Some (OVal (PStr details)).

(** Blank after trimming. *)
Definition blank (s : string) : bool := negb (str_truthy (strip s)).

(** The progress message of an attempt. *)
Definition status_msg_of (w : World) (attempt : nat) (task_status : pyval) : string :=
  "Status: " +:+ py_str w task_status +:+ " ("
  +:+ str_of_int (Z.of_nat attempt + 1) +:+ "/"
  +:+ str_of_int (Z.of_nat MAX_POLLING_ATTEMPTS) +:+ ")".

(** [st'] is reached from [st] by a run of the node: same name, same
    inputs, and a trace that only grew. *)
Definition reaches (st st' : state) : Prop :=
  name (self st') = name (self st)
  /\ params (self st') = params (self st)
  /\ exists evs, trace st' = trace st ++ evs.

(** A computation that, whatever its outcome, only writes output slots and
    appends to the trace. *)
Definition stable {A} (m : M A) : Prop := forall st, reaches st (snd (m st)).

(** The bytes a download started after [t] events obtains: none when
    [requests.get] raises or the reply has an error status. *)
Definition downloaded (w : World) (t : nat) (url : pyval)
  : option (list Byte.byte) :=
  match requests_get w t url with
  | Ok resp => if http_ok resp then Some (content resp) else None
  | Raise _ => None
  end.

(** What the materializer is expected to return for a download started
    after [t] events and saved under [filename]: the stored copy when the
    download gave bytes and the storage accepted them, the remote URL
    otherwise. *)
Definition materialized (w : World) (t : nat) (url : pyval) (filename : string)
  : artifact :=
  match downloaded w t url with
  | Some (b :: data) =>
      match save_static_file w (t + 2) (b :: data) filename with
      | Ok saved_url => Artifact (PStr saved_url) (Some filename)
      | Raise _ => Artifact url None
      end
  | Some [] | None => Artifact url None
  end.

(** The reply of the remote API to the submission of the node's request. *)
Definition submission_reply (w : World) (self : node) : result response :=
  requests_post w "https://api.sunoapi.org/api/v1/generate" (_build_payload w self).

(** The [POST] of a submission, as it appears in the trace. *)
Definition submission_call (w : World) (self : node) (api_key : string) : event :=
  EPost "https://api.sunoapi.org/api/v1/generate" ("Bearer " +:+ api_key)
        (_build_payload w self) 30.

(** The envelope's [code] is the success value 200. *)
Definition code_is_200 (envelope : list (string * pyval)) : bool :=
  eq_int (default PNone (dict_lookup "code" envelope)) 200.

(** [[e]] when the rule is violated, nothing otherwise. *)
Definition violation (violated : bool) (e : exn) : list exn :=
  if violated then [e] else [].

(** The track record of a [sunoData] entry that is an object. *)
Definition track_of_fields (d : list (string * pyval)) : track :=
  let get key := default PNone (dict_lookup key d) in
  Track (get "audioUrl") (get "imageUrl") (get "title") (get "duration")
        (get "tags") (get "prompt") (get "modelName").

(** The entry is an object with an audio URL. *)
Definition has_audio_url (d : list (string * pyval)) : bool :=
  truthy (default PNone (dict_lookup "audioUrl" d)).

End Obs.

(* ===================================================================== *)
(** ** Sample nodes and worlds *)
(* ===================================================================== *)

Module Sample.
Import Py Exc Eff Suno Obs.

(** A [repr] good enough for the scalars of the samples. *)
Definition sample_repr (v : pyval) : string :=
  match v with
  | PNone => "None"
  | PBool true => "True"
  | PBool false => "False"
  | PInt z => str_of_int z
  | PStr s => "'" +:+ s +:+ "'"
  | _ => "..."
  end.

Definition default_parameters : parameters :=
  {| custom_mode := Some false; model := Some "V5"; prompt := Some "a calm piano tune";
     style := Some ""; title := Some ""; instrumental := Some false;
     vocal_gender := Some "auto"; negative_tags := Some "";
     style_weight := Some 0.65%float; weirdness_constraint := Some 0.65%float;
     audio_weight := Some 0.65%float |}.

Definition sample_node : node :=
  {| name := "Suno"; params := default_parameters; parameter_output_values := ∅ |}.

Definition start : state := {| self := sample_node; trace := [] |}.

(** A status reply: HTTP 200, envelope code 200, [data.status = status]. *)
Definition status_payload (status : string) : pyval :=
  PDict [("code", PInt 200); ("msg", PStr "success");
         ("data", PDict [("taskId", PStr "abc123"); ("status", PStr status)])].

Definition ok_response (body : pyval) : result response :=
  Ok {| status_code := 200; http_error_str := ""; json := Ok body; content := [] |}.

Definition unreachable : result response :=
  Raise (Exn ConnectionError "Connection refused").

(** A world without credential, where every call fails. *)
Definition offline : World :=
  {| py_repr := sample_repr;
     py_round2 := fun x => x;
     get_secret := fun _ => None;
     requests_post := fun _ _ => unreachable;
     requests_get_status := fun _ => unreachable;
     requests_get := fun _ _ => unreachable;
     time_time := fun _ => 1700000000;
     save_static_file := fun _ _ _ => Raise (Exn OtherException "storage unavailable") |}.

(** A world with a credential where only the status endpoint answers. *)
Definition polling (replies : nat -> result response) : World :=
  {| py_repr := sample_repr;
     py_round2 := fun x => x;
     get_secret := fun _ => Some "key";
     requests_post := fun _ _ => unreachable;
     requests_get_status := replies;
     requests_get := fun _ _ => unreachable;
     time_time := fun _ => 1700000000;
     save_static_file := fun _ _ _ => Raise (Exn OtherException "storage unavailable") |}.

(** The job is PENDING on the first two queries and SUCCESS from the third. *)
Definition pending_pending_success : World :=
  polling (fun attempt =>
             if (attempt <? 2)%nat then ok_response (status_payload "PENDING")
             else ok_response (status_payload "SUCCESS")).

(** The job stays PENDING for ever. *)
Definition always_pending : World :=
  polling (fun _ => ok_response (status_payload "PENDING")).

(** The first query cannot connect; the job is done by the second. *)
Definition flaky : World :=
  polling (fun attempt =>
             if (attempt <? 1)%nat then unreachable
             else ok_response (status_payload "SUCCESS")).

(** The status endpoint answers HTTP 200 with an error envelope. *)
Definition rejecting : World :=
  polling (fun _ =>
             ok_response (PDict [("code", PInt 401); ("msg", PStr "Unauthorized")])).

(** An accepted submission: envelope code 200 with [data.taskId]. *)
Definition accepted_payload : pyval :=
  PDict [("code", PInt 200); ("msg", PStr "success");
         ("data", PDict [("taskId", PStr "abc123")])].

(** A completed instrumental job: two entries with an audio URL and no
    [prompt] field. *)
Definition instrumental_payload : pyval :=
  PDict [("code", PInt 200); ("msg", PStr "success");
         ("data",
          PDict [("taskId", PStr "abc123"); ("status", PStr "SUCCESS");
                 ("response",
                  PDict [("sunoData",
                          PList [PDict [("audioUrl", PStr "https://cdn.example/a1.mp3");
                                        ("imageUrl", PStr "https://cdn.example/a1.jpeg");
                                        ("title", PStr "Calm");
                                        ("duration", PInt 198);
                                        ("tags", PStr "piano");
                                        ("modelName", PStr "chirp-v5")];
                                 PDict [("audioUrl", PStr "https://cdn.example/a2.mp3");
                                        ("title", PStr "Calm");
                                        ("duration", PInt 201);
                                        ("tags", PStr "piano");
                                        ("modelName", PStr "chirp-v5")]])])])].

(** Every collaborator works: the submission is accepted, the job is done
    at the first query, downloads give bytes and the storage keeps them. *)
Definition all_good : World :=
  {| py_repr := sample_repr;
     py_round2 := fun x => x;
     get_secret := fun _ => Some "key";
     requests_post := fun _ _ => ok_response accepted_payload;
     requests_get_status := fun _ => ok_response instrumental_payload;
     requests_get := fun _ _ =>
       Ok {| status_code := 200; http_error_str := ""; json := Ok PNone;
             content := [Byte.x49; Byte.x44; Byte.x33] |};
     time_time := fun _ => 1700000000;
     save_static_file := fun _ _ filename =>
       Ok ("http://localhost/static/" +:+ filename) |}.

(** The submission is accepted but the envelope carries no task id. *)
Definition no_task_id : World :=
  {| py_repr := sample_repr;
     py_round2 := fun x => x;
     get_secret := fun _ => Some "key";
     requests_post := fun _ _ =>
       ok_response (PDict [("code", PInt 200); ("msg", PStr "success")]);
     requests_get_status := fun _ => unreachable;
     requests_get := fun _ _ => unreachable;
     time_time := fun _ => 1700000000;
     save_static_file := fun _ _ _ => Raise (Exn OtherException "storage unavailable") |}.

(** The submission times out. *)
Definition submission_times_out : World :=
  {| py_repr := sample_repr;
     py_round2 := fun x => x;
     get_secret := fun _ => Some "key";
     requests_post := fun _ _ => Raise (Exn ReadTimeout "Read timed out.");
     requests_get_status := fun _ => unreachable;
     requests_get := fun _ _ => unreachable;
     time_time := fun _ => 1700000000;
     save_static_file := fun _ _ _ => Raise (Exn OtherException "storage unavailable") |}.

(** A weight slider moved to its lower end. *)
Definition zero_style_weight : node :=
  {| name := "Suno";
     params :=
       {| custom_mode := Some false; model := Some "V5";
          prompt := Some "a calm piano tune";
          style := Some ""; title := Some ""; instrumental := Some false;
          vocal_gender := Some "auto"; negative_tags := Some "";
          style_weight := Some 0%float; weirdness_constraint := Some 0.65%float;
          audio_weight := Some 0.3%float |};
     parameter_output_values := ∅ |}.

(** A completion payload whose track list holds a [null] entry. *)
Definition null_entry_payload : pyval :=
  PDict [("code", PInt 200);
         ("data",
          PDict [("status", PStr "SUCCESS");
                 ("response", PDict [("sunoData", PList [PNone])])])].

(** One entry with an audio URL and one without. *)
Definition one_of_two_payload : pyval :=
  PDict [("code", PInt 200);
         ("data",
          PDict [("status", PStr "SUCCESS");
                 ("response",
                  PDict [("sunoData",
                          PList [PDict [("audioUrl", PStr "https://cdn.example/a1.mp3");
                                        ("title", PStr "Calm")];
                                 PDict [("title", PStr "Calm")]])])])].

(** Custom mode with a style of spaces and no title. *)
Definition custom_blank : node :=
  {| name := "Suno";
     params :=
       {| custom_mode := Some true; model := Some "V5";
          prompt := Some "la la la";
          style := Some "   "; title := None; instrumental := Some false;
          vocal_gender := Some "auto"; negative_tags := Some "";
          style_weight := Some 0.65%float; weirdness_constraint := Some 0.65%float;
          audio_weight := Some 0.65%float |};
     parameter_output_values := ∅ |}.

(** [c * n] *)
Fixpoint repeat_char (c : ascii) (n : nat) : string :=
  match n with
  | O => EmptyString
  | S n' => String c (repeat_char c n')
  end.

(** Simple mode with a prompt of 501 characters. *)
Definition simple_long : node :=
  {| name := "Suno";
     params :=
       {| custom_mode := Some false; model := Some "V5";
          prompt := Some (repeat_char "a" 501);
          style := Some ""; title := Some ""; instrumental := Some false;
          vocal_gender := Some "auto"; negative_tags := Some "";
          style_weight := Some 0.65%float; weirdness_constraint := Some 0.65%float;
          audio_weight := Some 0.65%float |};
     parameter_output_values := ∅ |}.

(** The submission is answered with an error envelope. *)
Definition rejecting_submission : World :=
  {| py_repr := sample_repr;
     py_round2 := fun x => x;
     get_secret := fun _ => Some "key";
     requests_post := fun _ _ =>
       ok_response (PDict [("code", PInt 429); ("msg", PStr "Insufficient credits")]);
     requests_get_status := fun _ => unreachable;
     requests_get := fun _ _ => unreachable;
     time_time := fun _ => 1700000000;
     save_static_file := fun _ _ _ => Raise (Exn OtherException "storage unavailable") |}.

(** A job with lyrics that is done at the second query. *)
Definition sung_payload : pyval :=
  PDict [("code", PInt 200); ("msg", PStr "success");
         ("data",
          PDict [("taskId", PStr "abc123"); ("status", PStr "SUCCESS");
                 ("response",
                  PDict [("sunoData",
                          PList [PDict [("audioUrl", PStr "https://cdn.example/a1.mp3");
                                        ("imageUrl", PStr "https://cdn.example/a1.jpeg");
                                        ("title", PStr "Calm");
                                        ("duration", PInt 198);
                                        ("tags", PStr "piano");
                                        ("prompt", PStr "la la");
                                        ("modelName", PStr "chirp-v5")];
                                 PDict [("audioUrl", PStr "https://cdn.example/a2.mp3");
                                        ("duration", PInt 201)]])])])].

Definition end_to_end : World :=
  {| py_repr := sample_repr;
     py_round2 := fun x => x;
     get_secret := fun _ => Some "key";
     requests_post := fun _ _ => ok_response accepted_payload;
     requests_get_status := fun attempt =>
       if (attempt <? 1)%nat then ok_response (status_payload "PENDING")
       else ok_response sung_payload;
     requests_get := fun _ _ =>
       Ok {| status_code := 200; http_error_str := ""; json := Ok PNone;
             content := [Byte.x49; Byte.x44; Byte.x33] |};
     time_time := fun _ => 1700000000;
     save_static_file := fun _ _ filename =>
       Ok ("http://localhost/static/" +:+ filename) |}.

(** A job reported SUCCESS whose entries carry no audio URL. *)
Definition silent_payload : pyval :=
  PDict [("code", PInt 200); ("msg", PStr "success");
         ("data",
          PDict [("taskId", PStr "abc123"); ("status", PStr "SUCCESS");
                 ("response",
                  PDict [("sunoData",
                          PList [PDict [("title", PStr "Calm")];
                                 PDict [("audioUrl", PStr "")]])])])].

Definition no_valid_tracks : World :=
  {| py_repr := sample_repr;
     py_round2 := fun x => x;
     get_secret := fun _ => Some "key";
     requests_post := fun _ _ => ok_response accepted_payload;
     requests_get_status := fun _ => ok_response silent_payload;
     requests_get := fun _ _ => unreachable;
     time_time := fun _ => 1700000000;
     save_static_file := fun _ _ _ => Raise (Exn OtherException "storage unavailable") |}.

(** The job fails at the second query, with and without a reason. *)
Definition failing (data : pyval) : World :=
  polling (fun attempt =>
             if (attempt <? 1)%nat then ok_response (status_payload "PENDING")
             else ok_response (PDict [("code", PInt 200); ("data", data)])).

Definition failed_with_reason : pyval :=
  PDict [("status", PStr "SENSITIVE_WORD_ERROR");
         ("errorMessage", PStr "Lyrics contain prohibited words")].

Definition failed_without_reason : pyval :=
  PDict [("status", PStr "GENERATE_AUDIO_FAILED")].

(** Custom mode, instrumental, without lyrics. *)
Definition custom_instrumental : node :=
  {| name := "Suno";
     params :=
       {| custom_mode := Some true; model := Some "V9";
          prompt := None;
          style := Some " ambient, slow "; title := Some "Dawn";
          instrumental := Some true;
          vocal_gender := Some "f"; negative_tags := Some " drums ";
          style_weight := Some 0.65%float; weirdness_constraint := Some 0.65%float;
          audio_weight := Some 0.65%float |};
     parameter_output_values := ∅ |}.

(** The submission is accepted and the job never leaves PENDING. *)
Definition never_done : World :=
  {| py_repr := sample_repr;
     py_round2 := fun x => x;
     get_secret := fun _ => Some "key";
     requests_post := fun _ _ => ok_response accepted_payload;
     requests_get_status := fun _ => ok_response (status_payload "PENDING");
     requests_get := fun _ _ => unreachable;
     time_time := fun _ => 1700000000;
     save_static_file := fun _ _ _ => Raise (Exn OtherException "storage unavailable") |}.

(** Custom mode with three rules violated: no style, lyrics of spaces
    for a sung track and a title of 81 characters. *)
Definition custom_three_faults : node :=
  {| name := "Suno";
     params :=
       {| custom_mode := Some true; model := Some "V4";
          prompt := Some "  ";
          style := None; title := Some (repeat_char "t" 81);
          instrumental := Some false;
          vocal_gender := Some "auto"; negative_tags := Some "";
          style_weight := Some 0.65%float; weirdness_constraint := Some 0.65%float;
          audio_weight := Some 0.65%float |};
     parameter_output_values := ∅ |}.

(** The submission is answered HTTP 200 with a body that is no JSON. *)
Definition unparseable_body : World :=
  {| py_repr := sample_repr;
     py_round2 := fun x => x;
     get_secret := fun _ => Some "key";
     requests_post := fun _ _ =>
       Ok {| status_code := 200; http_error_str := "";
             json := Raise (Exn JSONDecodeError
                              "Expecting value: line 1 column 1 (char 0)");
             content := [] |};
     requests_get_status := fun _ => unreachable;
     requests_get := fun _ _ => unreachable;
     time_time := fun _ => 1700000000;
     save_static_file := fun _ _ _ => Raise (Exn OtherException "storage unavailable") |}.

(** The submission is accepted and the envelope carries an empty task id. *)
Definition empty_task_id : World :=
  {| py_repr := sample_repr;
     py_round2 := fun x => x;
     get_secret := fun _ => Some "key";
     requests_post := fun _ _ =>
       ok_response (PDict [("code", PInt 200); ("msg", PStr "success");
                           ("data", PDict [("taskId", PStr "")])]);
     requests_get_status := fun _ => unreachable;
     requests_get := fun _ _ => unreachable;
     time_time := fun _ => 1700000000;
     save_static_file := fun _ _ _ => Raise (Exn OtherException "storage unavailable") |}.

End Sample.

(* ===================================================================== *)
(** ** The blocks of [_process] *)
(* ===================================================================== *)

(** [_process] is one method in the source.  Its [except] clause, the part
    of its [try] block that follows the extraction of the tracks, and the
    part that follows the submission are named here so that statements can
    speak of them; [_process] is their composition, by computation. *)
Module Blocks.
Import Py Exc Eff Suno Obs.
#[local] Open Scope eff_scope.

(** The [except Exception as e] clause. *)
Definition process_handler (e : exn) : M unit :=
  _set_safe_defaults;;
  let error_msg := exc_str e in
  set_output "result_details" (OVal (PStr ("ERROR: " +:+ error_msg)));;
  self <- get_self;;
  raise (Exn RuntimeError (name self +:+ ": " +:+ error_msg)).

(** From [if not tracks] to the end of the [try] block. *)
Definition process_tracks (w : World) (task_id : pyval) (tracks : list track)
  : M unit :=
  match tracks with
  | [] => raise (Exn RuntimeError "No tracks in completed response")
  | track1 :: others =>
      audio_artifact_1 <- _save_audio_from_url w (tr_audio_url track1) 1;;
      set_output "audio_track_1" (OAudio audio_artifact_1);;
      (if truthy (tr_image_url track1) then
         cover_artifact <- _save_image_from_url w (tr_image_url track1);;
         set_output "cover_image" (OImage cover_artifact)
       else ret tt);;
      set_output "generated_title"
        (OVal (py_or (tr_title track1) (PStr "Untitled")));;
      set_output "tags" (OVal (py_or (tr_tags track1) (PStr "")));;
      set_output "lyrics" (OVal (py_or (tr_prompt track1) (PStr "")));;
      match others with
      | track2 :: _ =>
          audio_artifact_2 <- _save_audio_from_url w (tr_audio_url track2) 2;;
          set_output "audio_track_2" (OAudio audio_artifact_2)
      | [] => ret tt
      end;;
      set_output "status" (OVal (PStr "complete"));;
      result_lines <- lift (build_result_lines w task_id track1 tracks);;
      set_output "result_details" (OVal (PStr (join newline result_lines)))
  end.

(** From [self.parameter_output_values["task_id"] = task_id] to the end of
    the [try] block. *)
Definition process_generation (w : World) (task_id : pyval) (api_key : string)
  : M unit :=
  set_output "task_id" (OVal task_id);;
  emit (ESetParameter "status" "Generating music...");;
  completion_response <- _poll_for_completion w task_id api_key;;
  tracks <- lift (_extract_track_data completion_response);;
  process_tracks w task_id tracks.

(** The [try] block. *)
Definition process_body (w : World) : M unit :=
  api_key <- _validate_api_key w;;
  emit (ESetParameter "status" "Submitting task...");;
  submission_response <- _submit_task w api_key;;
  data <- lift (py_get submission_response "data" (PDict []));;
  task_id <- lift (py_get data "taskId" PNone);;
  if negb (truthy task_id) then
    raise (Exn RuntimeError "No task ID returned from API")
  else process_generation w task_id api_key.

(** A computation that leaves the node alone: it writes no output slot. *)
Definition quiet {A} (m : M A) : Prop := forall st, self (snd (m st)) = self st.

(** The keys of a [dict], in order. *)
Definition keys (d : list (string * pyval)) : list string := map fst d.

(** The external calls of one materialization: the download, then, when
    it gave bytes, the clock and the storage. *)
Definition save_calls (w : World) (t : nat) (url : pyval) (filename : string)
  : list event :=
  EDownload url 120 ::
  match downloaded w t url with
  | Some (b :: data) => [ETime; ESaveStatic (b :: data) filename]
  | Some [] | None => []
  end.

(** The file names of the stored copies. *)
Definition audio_filename (w : World) (t : nat) (track_index : Z) : string :=
  "suno_track" +:+ str_of_int track_index +:+ "_"
  +:+ str_of_int (time_time w (t + 1)) +:+ ".mp3".

Definition image_filename (w : World) (t : nat) : string :=
  "suno_cover_" +:+ str_of_int (time_time w (t + 1)) +:+ ".jpeg".

(** The URLs downloaded, out of a trace. *)
Fixpoint downloads (evs : list event) : list pyval :=
  match evs with
  | [] => []
  | EDownload url _ :: evs' => url :: downloads evs'
  | _ :: evs' => downloads evs'
  end.

(** The calls to the remote API and to the storage, out of a trace: all
    events but the secrets lookup, the clock and the progress reports. *)
Definition is_remote_call (e : event) : bool :=
  match e with
  | EPost _ _ _ _ | EGetStatus _ _ _ _ | EDownload _ _ | ESaveStatic _ _ => true
  | _ => false
  end.

(** The rules of custom mode and of simple mode, on the values the
    validation reads. *)
Definition custom_rules (style title prompt : string) (instrumental : bool)
    (model : option string) : bool :=
  negb (blank style) && negb (blank title)
  && (instrumental || negb (blank prompt))
  && (len prompt <=? limit_get PROMPT_LIMITS_CUSTOM model 3000)
  && (len style <=? limit_get STYLE_LIMITS model 200)
  && (len title <=? 80).

Definition simple_rules (prompt : string) : bool :=
  negb (blank prompt) && (len prompt <=? 500).

(** Every external call the computation adds to the trace satisfies [P]. *)
Definition emits (P : event -> bool) {A} (m : M A) : Prop :=
  forall st, exists evs,
    trace (snd (m st)) = trace st ++ evs /\ forallb P evs = true.

(** What was stored, out of a trace. *)
Fixpoint stored (evs : list event) : list (list Byte.byte * string) :=
  match evs with
  | [] => []
  | ESaveStatic data filename :: evs' => (data, filename) :: stored evs'
  | _ :: evs' => stored evs'
  end.

(** The submissions, out of a trace. *)
Definition is_post (e : event) : bool :=
  match e with EPost _ _ _ _ => true | _ => false end.

Definition is_download_or_store (e : event) : bool :=
  match e with EDownload _ _ | ESaveStatic _ _ => true | _ => false end.

(** The calls that can follow an accepted submission: no secrets lookup
    and no [POST]. *)
Definition after_submission (e : event) : bool :=
  match e with
  | ESleep _ | EGetStatus _ _ _ _ | ESetParameter _ _
  | EDownload _ _ | ETime | ESaveStatic _ _ => true
  | EGetSecret _ | EPost _ _ _ _ => false
  end.

(** The calls of the polling loop. *)
Definition is_polling (e : event) : bool :=
  match e with
  | ESleep _ | EGetStatus _ _ _ _ | ESetParameter _ _ => true
  | _ => false
  end.

(** The credential and the task id of a run whose submission is
    accepted: a non-empty secret, an HTTP success, an envelope with [code]
    200 and a [data] object with a truthy [taskId]. *)
Definition accepted_task (w : World) (self : node) : option (string * pyval) :=
  match get_secret w API_KEY_NAME with
  | Some key =>
      if str_truthy key then
        match submission_reply w self with
        | Ok resp =>
            if http_ok resp then
              match json resp with
              | Ok (PDict d) =>
                  if code_is_200 d then
                    match default (PDict []) (dict_lookup "data" d) with
                    | PDict dd =>
                        match dict_lookup "taskId" dd with
                        | Some task_id =>
                            if truthy task_id then Some (key, task_id) else None
                        | None => None
                        end
                    | _ => None
                    end
                  else None
              | _ => None
              end
            else None
        | Raise _ => None
        end
      else None
  | None => None
  end.

(** The URLs [_process] has to fetch for a list of tracks: the audio of
    the first, its cover if it has one, the audio of the second. *)
Definition urls_to_fetch (tracks : list track) : list pyval :=
  match tracks with
  | [] => []
  | track1 :: others =>
      tr_audio_url track1
      :: (if truthy (tr_image_url track1) then [tr_image_url track1] else [])
      ++ match others with
         | track2 :: _ => [tr_audio_url track2]
         | [] => []
         end
  end.

(** The events of a materialization. *)
Definition is_materialization (e : event) : bool :=
  match e with
  | EDownload _ _ | ETime | ESaveStatic _ _ => true
  | _ => false
  end.

(** The message of the generation error a reply gives rise to: the reply
    is observed with one of the four failure statuses; the message is
    [data.errorMessage] when the key is there, a text naming the status
    otherwise. *)
Definition generation_error (w : World) (r : result response) : option string :=
  match observation r with
  | Some (PDict sd, s) =>
      if negb (eq_str s "SUCCESS") && in_strs s FAILED_STATUSES then
        match default (PDict []) (dict_lookup "data" sd) with
        | PDict d =>
            Some (py_str w (default (PStr ("Task failed with status: " +:+ py_str w s))
                                    (dict_lookup "errorMessage" d)))
        | _ => None
        end
      else None
  | _ => None
  end.

(** The [data] of a reply that is an HTTP success with an envelope of
    [code] 200 whose [data] is present and is no object. *)
Definition malformed_data (r : result response) : option pyval :=
  match r with
  | Ok resp =>
      if http_ok resp then
        match json resp with
        | Ok (PDict sd) =>
            if eq_int (default PNone (dict_lookup "code" sd)) 200 then
              match dict_lookup "data" sd with
              | Some (PDict _) | None => None
              | Some v => Some v
              end
            else None
        | _ => None
        end
      else None
  | Raise _ => None
  end.

End Blocks.

(* ===================================================================== *)
(** ** Properties *)
(* ===================================================================== *)

Import Py Exc Eff Suno Obs.
#[local] Open Scope eff_scope.

#[local] Arguments in_strs : simpl never.
#[local] Arguments eq_str : simpl never.
#[local] Arguments eq_int : simpl never.
#[local] Arguments str_of_int : simpl never.

(** *** The monad *)

Lemma bind_ok {A B} (m : M A) (k : A -> M B) st a st' :
  m st = (Ok a, st') -> bind m k st = k a st'.
Proof. unfold bind. intros ->. reflexivity. Qed.

Lemma bind_raise {A B} (m : M A) (k : A -> M B) st e st' :
  m st = (Raise e, st') -> bind m k st = (Raise e, st').
Proof. unfold bind. intros ->. reflexivity. Qed.

Lemma try_except_ok {A} (body : M A) handler st a st' :
  body st = (Ok a, st') -> try_except body handler st = (Ok a, st').
Proof. unfold try_except. intros ->. reflexivity. Qed.

Lemma try_except_raise {A} (body : M A) handler st e st' :
  body st = (Raise e, st') -> try_except body handler st = handler e st'.
Proof. unfold try_except. intros ->. reflexivity. Qed.

(** Unfolds the monad down to matches on the outcomes of the world. *)
Ltac run :=
  unfold requests_get_record_info, requests_post_generate, requests_get_url,
    int_time, static_files_save, raise_for_status,
    bind, try_except, ret, raise, lift, emit, get_state, get_self, set_output, now;
  cbn [fst snd self trace].

(** *** One polling attempt *)

Lemma http_ok_raise_for_status r st :
  http_ok r = true -> raise_for_status r st = (Ok tt, st).
Proof.
  unfold http_ok, raise_for_status. intros H.
  destruct ((400 <=? status_code r) && (status_code r <? 600)); [done|reflexivity].
Qed.

Lemma poll_attempt_request_failed w task_id api_key attempt st :
  request_failed (requests_get_status w attempt) = true ->
  poll_attempt w task_id api_key attempt st
  = (Ok None, State (self st) (trace st ++ poll_calls task_id api_key)).
Proof.
  unfold request_failed, poll_attempt, http_ok. run.
  destruct (requests_get_status w attempt) as [resp|e]; intros H.
  - destruct ((400 <=? status_code resp) && (status_code resp <? 600)); [|done].
    cbn. rewrite <- app_assoc. reflexivity.
  - cbn. rewrite H, <- app_assoc. reflexivity.
Qed.

Lemma observation_inv r payload s :
  observation r = Some (payload, s) ->
  exists resp sd d,
    r = Ok resp /\ http_ok resp = true /\ json resp = Ok (PDict sd)
    /\ payload = PDict sd
    /\ eq_int (default PNone (dict_lookup "code" sd)) 200 = true
    /\ default (PDict []) (dict_lookup "data" sd) = PDict d
    /\ s = default (PStr "") (dict_lookup "status" d).
Proof.
  unfold observation. intros H.
  destruct r as [resp|e]; [|done].
  destruct (http_ok resp) eqn:Hok; [|done].
  destruct (json resp) as [[| | | | |l|sd]|e] eqn:Hj; try done.
  destruct (eq_int _ 200) eqn:Hc; [|done].
  destruct (default (PDict []) (dict_lookup "data" sd)) as [| | | | | |d] eqn:Hd; try done.
  injection H as <- <-. exists resp, sd, d. done.
Qed.

Lemma poll_attempt_observed w task_id api_key attempt st payload s :
  observation (requests_get_status w attempt) = Some (payload, s) ->
  poll_attempt w task_id api_key attempt st
  = let st' := State (self st)
                 (trace st ++ poll_calls task_id api_key
                  ++ [ESetParameter "status" (status_msg_of w attempt s)]) in
    if eq_str s "SUCCESS" then (Ok (Some payload), st')
    else if in_strs s FAILED_STATUSES then
      match payload with
      | PDict sd =>
          match default (PDict []) (dict_lookup "data" sd) with
          | PDict d =>
              (Raise (Exn RuntimeError
                 ("Generation failed: " +:+
                  py_str w (default (PStr ("Task failed with status: " +:+ py_str w s))
                                    (dict_lookup "errorMessage" d)))), st')
          | _ => (Ok None, st')
          end
      | _ => (Ok None, st')
      end
    else (Ok None, st').
Proof.
  intros H. apply observation_inv in H as (resp & sd & d & Hr & Hok & Hj & -> & Hc & Hd & ->).
  unfold poll_attempt. run. rewrite Hr.
  unfold http_ok in Hok.
  destruct ((400 <=? status_code resp) && (status_code resp <? 600)); [done|].
  cbn. rewrite Hj. cbn. rewrite Hc. cbn. rewrite Hd. cbn.
  fold (status_msg_of w attempt (default (PStr "") (dict_lookup "status" d))).
  rewrite <- !app_assoc. cbn.
  destruct (eq_str _ "SUCCESS"); [reflexivity|].
  destruct (in_strs _ FAILED_STATUSES); cbn; reflexivity.
Qed.

Lemma poll_attempt_in_progress w task_id api_key attempt st :
  in_progress (requests_get_status w attempt) = true ->
  exists msg,
    poll_attempt w task_id api_key attempt st
    = (Ok None,
       State (self st)
         (trace st ++ poll_calls task_id api_key ++ [ESetParameter "status" msg])).
Proof.
  unfold in_progress, non_terminal.
  destruct (observation _) as [[payload s]|] eqn:Hobs; [|done].
  intros [H1 H2]%andb_prop. rewrite (poll_attempt_observed _ _ _ _ _ _ _ Hobs).
  apply negb_true_iff in H1, H2. cbn zeta. rewrite H1, H2. eauto.
Qed.

Lemma poll_attempt_succeeded w task_id api_key attempt st payload :
  succeeded (requests_get_status w attempt) = Some payload ->
  exists msg,
    poll_attempt w task_id api_key attempt st
    = (Ok (Some payload),
       State (self st)
         (trace st ++ poll_calls task_id api_key ++ [ESetParameter "status" msg])).
Proof.
  unfold succeeded.
  destruct (observation _) as [[p s]|] eqn:Hobs; [|done].
  destruct (eq_str s "SUCCESS") eqn:Hs; [|done]. intros [= ->].
  rewrite (poll_attempt_observed _ _ _ _ _ _ _ Hobs). cbn zeta. rewrite Hs. eauto.
Qed.

Lemma poll_attempt_rejected w task_id api_key attempt st msg :
  rejected (requests_get_status w attempt) = Some msg ->
  poll_attempt w task_id api_key attempt st
  = (Raise (Exn RuntimeError
       ("API returned error: " +:+ py_str w (default (PStr "Unknown error") msg))),
     State (self st) (trace st ++ poll_calls task_id api_key)).
Proof.
  unfold rejected, poll_attempt, http_ok. run.
  destruct (requests_get_status w attempt) as [resp|e]; [|done].
  destruct ((400 <=? status_code resp) && (status_code resp <? 600)); [done|].
  cbn. destruct (json resp) as [[| | | | |l|sd]|e]; try done.
  cbn. destruct (eq_int _ 200); [done|]. intros [= <-].
  cbn. rewrite <- app_assoc. reflexivity.
Qed.

(** Whatever the reply, an attempt sleeps once, queries once and leaves the
    node as it was; a returned payload was observed with status SUCCESS. *)
Lemma poll_attempt_shape w task_id api_key attempt st :
  exists evs,
    snd (poll_attempt w task_id api_key attempt st)
    = State (self st) (trace st ++ poll_calls task_id api_key ++ evs)
    /\ List.filter is_poll_call evs = []
    /\ forall payload,
         fst (poll_attempt w task_id api_key attempt st) = Ok (Some payload) ->
         succeeded (requests_get_status w attempt) = Some payload.
Proof.
  unfold poll_attempt, succeeded, observation, http_ok. run.
  destruct (requests_get_status w attempt) as [resp|e]; cbn.
  2:{ exists []. rewrite <- app_assoc.
      destruct (is_RequestException (exc_type e)); cbn; done. }
  destruct ((400 <=? status_code resp) && (status_code resp <? 600)); cbn.
  { exists []. rewrite <- app_assoc. done. }
  destruct (json resp) as [sd|e]; cbn.
  2:{ exists []. rewrite <- app_assoc.
      destruct (is_RequestException (exc_type e)); cbn; done. }
  destruct sd as [| | | | |l|sd]; cbn;
    try (exists []; rewrite <- app_assoc; done).
  destruct (eq_int _ 200); cbn.
  2:{ exists []. rewrite <- app_assoc. done. }
  destruct (default (PDict []) (dict_lookup "data" sd)) as [| | | | | |d]; cbn;
    try (exists []; rewrite <- app_assoc; done).
  eexists [ESetParameter "status" _]. rewrite <- !app_assoc.
  destruct (eq_str _ "SUCCESS") eqn:Hs; cbn.
  { split; [reflexivity|]. split; [reflexivity|]. intros p [= <-]. reflexivity. }
  destruct (in_strs _ FAILED_STATUSES); cbn; done.
Qed.

Lemma poll_attempt_continues w task_id api_key attempt st :
  continues (requests_get_status w attempt) = true ->
  exists evs,
    poll_attempt w task_id api_key attempt st
    = (Ok None, State (self st) (trace st ++ evs))
    /\ List.filter is_poll_call evs = poll_calls task_id api_key.
Proof.
  unfold continues. intros [H|H]%orb_prop.
  - destruct (poll_attempt_in_progress w task_id api_key attempt st H) as [msg ->].
    eexists. split; [reflexivity|reflexivity].
  - rewrite (poll_attempt_request_failed _ _ _ _ _ H).
    eexists. split; [reflexivity|reflexivity].
Qed.

(** *** The polling loop *)

Lemma poll_calls_n_snoc task_id api_key n :
  poll_calls_n task_id api_key n ++ poll_calls task_id api_key
  = poll_calls_n task_id api_key (S n).
Proof.
  induction n as [|n IH]; [reflexivity|].
  change (poll_calls_n task_id api_key (S n))
    with (poll_calls task_id api_key ++ poll_calls_n task_id api_key n).
  rewrite <- app_assoc, IH. reflexivity.
Qed.

Lemma status_queries_poll_calls_n task_id api_key n :
  status_queries (poll_calls_n task_id api_key n) = n.
Proof.
  unfold status_queries. induction n as [|n IH]; [reflexivity|].
  cbn. f_equal. exact IH.
Qed.

(** As long as the replies let polling continue, the loop moves to the next
    attempt, each time after one sleep and one query. *)
Lemma poll_loop_skip w task_id api_key k : forall a m st,
  (forall i, (i < k)%nat -> continues (requests_get_status w (a + i)) = true) ->
  exists evs,
    poll_loop w task_id api_key (seq a (k + m)) st
    = poll_loop w task_id api_key (seq (a + k) m)
        (State (self st) (trace st ++ evs))
    /\ List.filter is_poll_call evs = poll_calls_n task_id api_key k.
Proof.
  induction k as [|k IH]; intros a m st Hk.
  - exists []. rewrite Nat.add_0_r, app_nil_r. destruct st; done.
  - assert (H0 : continues (requests_get_status w a) = true).
    { rewrite <- (Nat.add_0_r a). apply Hk. lia. }
    destruct (poll_attempt_continues w task_id api_key a st H0) as (evs0 & Hrun & Hf0).
    destruct (IH (S a) m (State (self st) (trace st ++ evs0))) as (evs1 & Hrest & Hf1).
    { intros i Hi. replace (S a + i)%nat with (a + S i)%nat by lia. apply Hk. lia. }
    exists (evs0 ++ evs1). split.
    + cbn [Nat.add seq poll_loop]. rewrite (bind_ok _ _ _ _ _ Hrun).
      rewrite Hrest. cbn [self trace]. rewrite app_assoc.
      replace (S a + k)%nat with (a + S k)%nat by lia. reflexivity.
    + rewrite List.filter_app, Hf0, Hf1. reflexivity.
Qed.

(** Whatever the replies: the node is left alone, the calls of the loop
    are [n] times a sleep followed by a query for some [n] within the
    budget, and a payload is returned only if it was observed with status
    SUCCESS. *)
Lemma poll_loop_shape w task_id api_key : forall attempts st,
  exists n evs,
    (n <= length attempts)%nat
    /\ snd (poll_loop w task_id api_key attempts st)
       = State (self st) (trace st ++ evs)
    /\ List.filter is_poll_call evs = poll_calls_n task_id api_key n
    /\ forall payload,
         fst (poll_loop w task_id api_key attempts st) = Ok payload ->
         exists attempt,
           In attempt attempts
           /\ succeeded (requests_get_status w attempt) = Some payload.
Proof.
  induction attempts as [|a l IH]; intros st.
  - exists O, []. cbn. rewrite app_nil_r. destruct st; done.
  - destruct (poll_attempt_shape w task_id api_key a st) as (evs0 & Hst & Hf0 & Hsucc).
    cbn [poll_loop]. unfold bind.
    destruct (poll_attempt w task_id api_key a st) as [[[payload|]|e] st1];
      cbn [fst snd] in *; subst st1.
    + exists 1%nat, (poll_calls task_id api_key ++ evs0).
      split; [cbn; lia|]. split; [reflexivity|]. split.
      * rewrite List.filter_app, Hf0. reflexivity.
      * intros p [= <-]. exists a. split; [left; reflexivity|]. apply Hsucc. reflexivity.
    + destruct (IH (State (self st) (trace st ++ poll_calls task_id api_key ++ evs0)))
        as (n & evs1 & Hn & Hst1 & Hf1 & Hret).
      exists (S n), ((poll_calls task_id api_key ++ evs0) ++ evs1).
      split; [cbn; lia|]. split.
      { rewrite Hst1. cbn [self trace]. rewrite <- !app_assoc. reflexivity. }
      split.
      { rewrite !List.filter_app, Hf0, Hf1. reflexivity. }
      intros p Hp. destruct (Hret p Hp) as (k & Hin & Hk). exists k. split; [right|]; done.
    + exists 1%nat, (poll_calls task_id api_key ++ evs0).
      split; [cbn; lia|]. split; [reflexivity|]. split.
      * rewrite List.filter_app, Hf0. reflexivity.
      * intros p [=].
Qed.

Lemma status_queries_filter evs :
  status_queries (List.filter is_poll_call evs) = status_queries evs.
Proof.
  unfold status_queries. induction evs as [|e evs IH]; [reflexivity|].
  destruct e; cbn; rewrite ?IH; try reflexivity; cbn; f_equal; exact IH.
Qed.

Lemma poll_timeout_message :
  poll_timeout
  = Exn RuntimeError
      ("Task did not complete within 360 seconds. " +:+
       "The task may still be processing - check back with the task_id later.").
Proof. reflexivity. Qed.

(** The loop returns at the first attempt whose reply is observed with
    status SUCCESS, after as many sleeps and queries as attempts made. *)
Lemma poll_returns_first_success w task_id api_key st k payload :
  (k < MAX_POLLING_ATTEMPTS)%nat ->
  (forall i, (i < k)%nat -> continues (requests_get_status w i) = true) ->
  succeeded (requests_get_status w k) = Some payload ->
  exists evs,
    _poll_for_completion w task_id api_key st
    = (Ok payload, State (self st) (trace st ++ evs))
    /\ List.filter is_poll_call evs = poll_calls_n task_id api_key (S k).
Proof.
  intros Hk Hcont Hsucc. unfold _poll_for_completion.
  replace MAX_POLLING_ATTEMPTS with (k + S (MAX_POLLING_ATTEMPTS - S k))%nat by lia.
  destruct (poll_loop_skip w task_id api_key k O (S (MAX_POLLING_ATTEMPTS - S k)) st)
    as (evs0 & Hskip & Hf0); [exact Hcont|].
  rewrite Hskip. cbn [Nat.add seq poll_loop].
  destruct (poll_attempt_succeeded w task_id api_key k
              (State (self st) (trace st ++ evs0)) payload Hsucc) as (msg & Hrun).
  rewrite (bind_ok _ _ _ _ _ Hrun). cbn [self trace].
  eexists (evs0 ++ _). split.
  - unfold ret. rewrite <- app_assoc. reflexivity.
  - rewrite List.filter_app, Hf0. cbn [List.filter is_poll_call poll_calls app].
    apply poll_calls_n_snoc.
Qed.

(** When no attempt of the budget ends the loop, it raises the timeout
    after the last one. *)
Lemma poll_times_out w task_id api_key st :
  (forall i, (i < MAX_POLLING_ATTEMPTS)%nat ->
             continues (requests_get_status w i) = true) ->
  exists evs,
    _poll_for_completion w task_id api_key st
    = (Raise poll_timeout, State (self st) (trace st ++ evs))
    /\ List.filter is_poll_call evs
       = poll_calls_n task_id api_key MAX_POLLING_ATTEMPTS.
Proof.
  intros Hcont. unfold _poll_for_completion.
  destruct (poll_loop_skip w task_id api_key MAX_POLLING_ATTEMPTS O O st)
    as (evs & Hskip & Hf); [exact Hcont|].
  rewrite Nat.add_0_r in Hskip. rewrite Hskip. exists evs. done.
Qed.

(** C1. Polling schedule of [_poll_for_completion].  For every world (every
    sequence of replies to the status queries): the calls of the loop are
    [n <= 36] repetitions of one 10-second sleep followed by one status
    query, and a payload is returned only if it was observed with
    data.status SUCCESS; when the replies before attempt [k < 36] let the
    loop continue and the reply at [k] is observed with status SUCCESS, the
    loop returns that payload after exactly [k + 1] queries; in particular
    the sequence PENDING, PENDING, SUCCESS gives the SUCCESS payload after
    exactly 3 queries; and 36 non-terminal observations give the timeout
    error after exactly 36 queries, whose message says that the task may
    still be processing and to check back with the task id. *)
Theorem poll_for_completion_schedule w task_id api_key st :
  (exists n evs,
     (n <= 36)%nat
     /\ snd (_poll_for_completion w task_id api_key st)
        = State (self st) (trace st ++ evs)
     /\ List.filter is_poll_call evs = poll_calls_n task_id api_key n
     /\ status_queries evs = n
     /\ forall payload,
          fst (_poll_for_completion w task_id api_key st) = Ok payload ->
          exists attempt,
            (attempt < 36)%nat
            /\ succeeded (requests_get_status w attempt) = Some payload)
  /\ (forall k payload,
        (k < 36)%nat ->
        (forall i, (i < k)%nat -> continues (requests_get_status w i) = true) ->
        succeeded (requests_get_status w k) = Some payload ->
        exists evs,
          _poll_for_completion w task_id api_key st
          = (Ok payload, State (self st) (trace st ++ evs))
          /\ List.filter is_poll_call evs = poll_calls_n task_id api_key (S k)
          /\ status_queries evs = S k)
  /\ (forall p0 p1 payload,
        observation (requests_get_status w 0) = Some (p0, PStr "PENDING") ->
        observation (requests_get_status w 1) = Some (p1, PStr "PENDING") ->
        observation (requests_get_status w 2) = Some (payload, PStr "SUCCESS") ->
        exists evs,
          _poll_for_completion w task_id api_key st
          = (Ok payload, State (self st) (trace st ++ evs))
          /\ List.filter is_poll_call evs = poll_calls_n task_id api_key 3
          /\ status_queries evs = 3%nat)
  /\ ((forall i, (i < 36)%nat -> in_progress (requests_get_status w i) = true) ->
      exists evs,
        _poll_for_completion w task_id api_key st
        = (Raise (Exn RuntimeError
             ("Task did not complete within 360 seconds. " +:+
              "The task may still be processing - check back with the task_id later.")),
           State (self st) (trace st ++ evs))
        /\ List.filter is_poll_call evs = poll_calls_n task_id api_key 36
        /\ status_queries evs = 36%nat).
Proof.
  assert (Hfirst : forall k payload,
    (k < 36)%nat ->
    (forall i, (i < k)%nat -> continues (requests_get_status w i) = true) ->
    succeeded (requests_get_status w k) = Some payload ->
    exists evs,
      _poll_for_completion w task_id api_key st
      = (Ok payload, State (self st) (trace st ++ evs))
      /\ List.filter is_poll_call evs = poll_calls_n task_id api_key (S k)
      /\ status_queries evs = S k).
  { intros k payload Hk Hcont Hsucc.
    destruct (poll_returns_first_success w task_id api_key st k payload Hk Hcont Hsucc)
      as (evs & Hrun & Hf).
    exists evs. split; [exact Hrun|]. split; [exact Hf|].
    rewrite <- status_queries_filter, Hf. apply status_queries_poll_calls_n. }
  split; [|split; [exact Hfirst|split]].
  - destruct (poll_loop_shape w task_id api_key (seq 0 MAX_POLLING_ATTEMPTS) st)
      as (n & evs & Hn & Hst & Hf & Hret).
    exists n, evs. rewrite length_seq in Hn.
    split; [exact Hn|]. split; [exact Hst|]. split; [exact Hf|]. split.
    + rewrite <- status_queries_filter, Hf. apply status_queries_poll_calls_n.
    + intros payload Hp. destruct (Hret payload Hp) as (a & Hin & Ha).
      exists a. split; [|exact Ha]. apply in_seq in Hin. unfold MAX_POLLING_ATTEMPTS in Hin. lia.
  - intros p0 p1 payload H0 H1 H2. apply Hfirst; [lia| |].
    + intros i Hi. unfold continues, in_progress.
      destruct i as [|[|i]]; [rewrite H0|rewrite H1|lia]; reflexivity.
    + unfold succeeded. rewrite H2. reflexivity.
  - intros Hall.
    destruct (poll_times_out w task_id api_key st) as (evs & Hrun & Hf).
    { intros i Hi. unfold continues. rewrite (Hall i Hi). reflexivity. }
    exists evs. split; [rewrite Hrun, poll_timeout_message; reflexivity|].
    split; [exact Hf|].
    rewrite <- status_queries_filter, Hf. apply status_queries_poll_calls_n.
Qed.

Lemma poll_for_completion_schedule_witness :
  (exists evs,
     _poll_for_completion Sample.pending_pending_success (PStr "abc123") "key"
       Sample.start
     = (Ok (Sample.status_payload "SUCCESS"),
        State Sample.sample_node ([] ++ evs))
     /\ List.filter is_poll_call evs = poll_calls_n (PStr "abc123") "key" 3
     /\ status_queries evs = 3%nat)
  /\ (exists evs,
        _poll_for_completion Sample.always_pending (PStr "abc123") "key"
          Sample.start
        = (Raise (Exn RuntimeError
             ("Task did not complete within 360 seconds. " +:+
              "The task may still be processing - check back with the task_id later.")),
           State Sample.sample_node ([] ++ evs))
        /\ List.filter is_poll_call evs = poll_calls_n (PStr "abc123") "key" 36
        /\ status_queries evs = 36%nat).
Proof.
  split.
  - apply (proj1 (proj2 (proj2
       (poll_for_completion_schedule Sample.pending_pending_success
          (PStr "abc123") "key" Sample.start)))
       (Sample.status_payload "PENDING") (Sample.status_payload "PENDING")
       (Sample.status_payload "SUCCESS")); reflexivity.
  - apply (proj2 (proj2 (proj2
       (poll_for_completion_schedule Sample.always_pending
          (PStr "abc123") "key" Sample.start)))).
    intros i _. reflexivity.
Defined.

(** C5. A status query that fails with a [RequestException] (the call
    raises one, or the reply has an HTTP error status) is swallowed: the
    attempt ends without result and without error after its sleep and its
    query, the loop goes on with the remaining attempts from there, and
    when every query of the budget fails that way the caller gets the
    timeout, not the request error. *)
Theorem polling_swallows_request_errors w task_id api_key attempt attempts st :
  request_failed (requests_get_status w attempt) = true ->
  poll_attempt w task_id api_key attempt st
  = (Ok None, State (self st) (trace st ++ poll_calls task_id api_key))
  /\ poll_loop w task_id api_key (attempt :: attempts) st
     = poll_loop w task_id api_key attempts
         (State (self st) (trace st ++ poll_calls task_id api_key))
  /\ ((forall i, (i < 36)%nat -> request_failed (requests_get_status w i) = true) ->
      fst (_poll_for_completion w task_id api_key st) = Raise poll_timeout).
Proof.
  intros H. pose proof (poll_attempt_request_failed w task_id api_key attempt st H) as Hrun.
  split; [exact Hrun|]. split.
  - cbn [poll_loop]. rewrite (bind_ok _ _ _ _ _ Hrun). reflexivity.
  - intros Hall. destruct (poll_times_out w task_id api_key st) as (evs & -> & _).
    + intros i Hi. unfold continues. rewrite (Hall i Hi). apply orb_true_r.
    + reflexivity.
Qed.

Lemma polling_swallows_request_errors_witness :
  poll_attempt Sample.flaky (PStr "abc123") "key" 0 Sample.start
  = (Ok None, State Sample.sample_node ([] ++ poll_calls (PStr "abc123") "key"))
  /\ fst (poll_loop Sample.flaky (PStr "abc123") "key" [0; 1]%nat Sample.start)
     = Ok (Sample.status_payload "SUCCESS").
Proof.
  destruct (polling_swallows_request_errors Sample.flaky (PStr "abc123") "key"
              0%nat [1%nat] Sample.start eq_refl) as (H1 & H2 & _).
  split; [exact H1|]. rewrite H2. reflexivity.
Defined.

(** C9. A reply whose envelope has a [code] other than 200 ends the loop on
    that attempt: [_poll_for_completion]'s loop raises a [RuntimeError]
    carrying the envelope's [msg] ("Unknown error" when there is none)
    right after the query, whatever attempts remain; it is not swallowed
    as the request errors are. *)
Theorem polling_rejected_envelope_is_fatal w task_id api_key attempt attempts st msg :
  rejected (requests_get_status w attempt) = Some msg ->
  exists text,
    poll_loop w task_id api_key (attempt :: attempts) st
    = (Raise (Exn RuntimeError ("API returned error: " +:+ text)),
       State (self st) (trace st ++ poll_calls task_id api_key))
    /\ text = match msg with
              | Some (PStr m) => m
              | Some v => py_repr w v
              | None => "Unknown error"
              end
    /\ request_failed (requests_get_status w attempt) = false.
Proof.
  intros H. exists (py_str w (default (PStr "Unknown error") msg)).
  split; [|split].
  - cbn [poll_loop].
    rewrite (bind_raise _ _ _ _ _ (poll_attempt_rejected w task_id api_key attempt st msg H)).
    reflexivity.
  - destruct msg as [[]|]; reflexivity.
  - unfold rejected in H. unfold request_failed.
    destruct (requests_get_status w attempt) as [resp|e]; [|done].
    destruct (http_ok resp); done.
Qed.

Lemma polling_rejected_envelope_is_fatal_witness :
  fst (_poll_for_completion Sample.rejecting (PStr "abc123") "key" Sample.start)
  = Raise (Exn RuntimeError "API returned error: Unauthorized")
  /\ status_queries
       (trace (snd (_poll_for_completion Sample.rejecting (PStr "abc123") "key"
                      Sample.start))) = 1%nat.
Proof.
  destruct (polling_rejected_envelope_is_fatal Sample.rejecting (PStr "abc123") "key"
              0%nat (seq 1 35) Sample.start (Some (PStr "Unauthorized")) eq_refl)
    as (text & Hrun & -> & _).
  unfold _poll_for_completion. change (seq 0 MAX_POLLING_ATTEMPTS) with (0%nat :: seq 1 35).
  rewrite Hrun. split; reflexivity.
Defined.

(** *** What every step of the node leaves alone *)

Lemma reaches_refl st : reaches st st.
Proof. split; [done|]. split; [done|]. exists []. by rewrite app_nil_r. Qed.

Lemma reaches_trans st1 st2 st3 :
  reaches st1 st2 -> reaches st2 st3 -> reaches st1 st3.
Proof.
  intros (Hn1 & Hp1 & evs1 & Ht1) (Hn2 & Hp2 & evs2 & Ht2).
  split; [congruence|]. split; [congruence|].
  exists (evs1 ++ evs2). rewrite Ht2, Ht1, app_assoc. reflexivity.
Qed.

Lemma stable_ret {A} (a : A) : stable (ret a).
Proof. intros st. apply reaches_refl. Qed.

Lemma stable_raise {A} e : stable (@raise A e).
Proof. intros st. apply reaches_refl. Qed.

Lemma stable_lift {A} (r : result A) : stable (lift r).
Proof. intros st. apply reaches_refl. Qed.

Lemma stable_get_state : stable get_state.
Proof. intros st. apply reaches_refl. Qed.

Lemma stable_get_self : stable get_self.
Proof. intros st. apply reaches_refl. Qed.

Lemma stable_emit e : stable (emit e).
Proof. intros st. split; [done|]. split; [done|]. by exists [e]. Qed.

Lemma stable_set_output slot v : stable (set_output slot v).
Proof. intros st. split; [done|]. split; [done|]. exists []. cbn. by rewrite app_nil_r. Qed.

Lemma stable_bind {A B} (m : M A) (k : A -> M B) :
  stable m -> (forall a, stable (k a)) -> stable (bind m k).
Proof.
  intros Hm Hk st. unfold bind. specialize (Hm st).
  destruct (m st) as [[a|e] st1]; cbn [snd] in *; [|exact Hm].
  eapply reaches_trans; [exact Hm|apply Hk].
Qed.

Lemma stable_try_except {A} (body : M A) handler :
  stable body -> (forall e, stable (handler e)) -> stable (try_except body handler).
Proof.
  intros Hm Hh st. unfold try_except. specialize (Hm st).
  destruct (body st) as [[a|e] st1]; cbn [snd] in *; [exact Hm|].
  eapply reaches_trans; [exact Hm|apply Hh].
Qed.

Create HintDb stable discriminated.
#[local] Hint Resolve stable_ret stable_raise stable_lift stable_get_state
  stable_get_self stable_emit stable_set_output : stable.

(** Splits a computation along its binds, handlers and tests. *)
Ltac stable_step :=
  match goal with
  | |- stable (bind _ _) => apply stable_bind; [|intros ?]
  | |- stable (try_except _ _) => apply stable_try_except; [|intros ?]
  | |- stable (if ?b then _ else _) => destruct b
  | |- stable (match ?x with _ => _ end) => destruct x
  | |- stable _ => solve [auto with stable]
  end.

Ltac stable_auto := repeat stable_step.

Lemma stable_set_safe_defaults : stable _set_safe_defaults.
Proof. unfold _set_safe_defaults. stable_auto. Qed.

Lemma stable_raise_for_status r : stable (raise_for_status r).
Proof. unfold raise_for_status. stable_auto. Qed.

#[local] Hint Resolve stable_set_safe_defaults stable_raise_for_status : stable.

Lemma stable_validate_api_key w : stable (_validate_api_key w).
Proof. unfold _validate_api_key. stable_auto. Qed.

Lemma stable_submit_task w api_key : stable (_submit_task w api_key).
Proof. unfold _submit_task, requests_post_generate. stable_auto. Qed.

Lemma stable_poll_attempt w task_id api_key attempt :
  stable (poll_attempt w task_id api_key attempt).
Proof. unfold poll_attempt, requests_get_record_info. stable_auto. Qed.

#[local] Hint Resolve stable_validate_api_key stable_submit_task
  stable_poll_attempt : stable.

Lemma stable_poll_loop w task_id api_key attempts :
  stable (poll_loop w task_id api_key attempts).
Proof.
  induction attempts as [|a l IH]; cbn [poll_loop]; [auto with stable|].
  apply stable_bind; [auto with stable|]. intros [payload|]; auto with stable.
Qed.

Lemma stable_poll_for_completion w task_id api_key :
  stable (_poll_for_completion w task_id api_key).
Proof. apply stable_poll_loop. Qed.

Lemma stable_download_bytes_from_url w url : stable (_download_bytes_from_url w url).
Proof. unfold _download_bytes_from_url, requests_get_url. stable_auto. Qed.

#[local] Hint Resolve stable_poll_for_completion stable_download_bytes_from_url : stable.

Lemma stable_save_audio_from_url w url i : stable (_save_audio_from_url w url i).
Proof. unfold _save_audio_from_url, int_time, static_files_save. stable_auto. Qed.

Lemma stable_save_image_from_url w url : stable (_save_image_from_url w url).
Proof. unfold _save_image_from_url, int_time, static_files_save. stable_auto. Qed.

#[local] Hint Resolve stable_save_audio_from_url stable_save_image_from_url : stable.

Lemma stable_process w : stable (_process w).
Proof. unfold _process. stable_auto. Qed.

(** *** Failure of a run *)

Lemma set_safe_defaults_run st :
  _set_safe_defaults st
  = (Ok tt,
     State (Node (name (self st)) (params (self st))
              (<["result_details" := OVal (PStr "Generation failed")]>
               (<["lyrics" := OVal (PStr "")]>
                (<["tags" := OVal (PStr "")]>
                 (<["generated_title" := OVal (PStr "")]>
                  (<["cover_image" := OVal PNone]>
                   (<["audio_track_2" := OVal PNone]>
                    (<["audio_track_1" := OVal PNone]>
                     (<["task_id" := OVal PNone]>
                      (<["status" := OVal (PStr "error")]>
                       (parameter_output_values (self st))))))))))))
           (trace st)).
Proof. reflexivity. Qed.

(** The [except Exception] clause of [_process], run from any state. *)
Lemma process_handler_baseline st e :
  exists st',
    (_set_safe_defaults;;
     set_output "result_details" (OVal (PStr ("ERROR: " +:+ exc_str e)));;
     self <- get_self;;
     @raise unit (Exn RuntimeError (name self +:+ ": " +:+ exc_str e)))%eff st
    = (Raise (Exn RuntimeError (name (self st) +:+ ": " +:+ exc_str e)), st')
    /\ failure_baseline st' ("ERROR: " +:+ exc_str e)
    /\ trace st' = trace st.
Proof.
  eexists. split.
  - unfold bind at 1. rewrite set_safe_defaults_run. run. reflexivity.
  - split; [|reflexivity].
    unfold failure_baseline, output. cbn [self parameter_output_values].
    repeat split; by simplify_map_eq.
Qed.

(** C2. Every run of [_process] that raises leaves the nine output slots
    at the failure baseline: status "error", task_id, audio_track_1,
    audio_track_2 and cover_image None, generated_title, tags and lyrics
    empty, result_details "ERROR: " followed by the message of the error;
    and what the caller receives is a RuntimeError whose message is the
    node's name, a colon and that message. *)
Theorem process_failure_resets_outputs w st e st' :
  _process w st = (Raise e, st') ->
  exists error_msg,
    e = Exn RuntimeError (name (self st) +:+ ": " +:+ error_msg)
    /\ failure_baseline st' ("ERROR: " +:+ error_msg)
    /\ output st' "status" <> Some (OVal (PStr "complete")).
Proof.
  unfold _process. unfold bind at 1. rewrite set_safe_defaults_run.
  match goal with
  | |- try_except ?body ?handler ?s = _ -> _ =>
      pose proof (fun H : stable body => H s) as Hstable;
      unfold try_except; destruct (body s) as [[[]|e0] st1] eqn:Hbody
  end; [intros [=]|].
  intros Hrun.
  destruct (process_handler_baseline st1 e0) as (st2 & Hh & Hbase & _).
  rewrite Hh in Hrun. injection Hrun as <- <-.
  exists (exc_str e0). split; [|split; [exact Hbase|]].
  - f_equal. f_equal.
    destruct Hstable as (Hname & _ & _); [|exact Hname].
    clear. stable_auto.
  - destruct Hbase as (-> & _). intros [=].
Qed.

Lemma process_failure_resets_outputs_witness :
  exists st',
    _process Sample.offline Sample.start
    = (Raise (Exn RuntimeError
         ("Suno: Missing SUNO_API_KEY. " +:+
          "Please configure your Suno API key in Settings > Secrets.")), st')
    /\ failure_baseline st'
         ("ERROR: Missing SUNO_API_KEY. " +:+
          "Please configure your Suno API key in Settings > Secrets.")
    /\ trace st' = [EGetSecret "SUNO_API_KEY"].
Proof.
  exists (snd (_process Sample.offline Sample.start)).
  assert (Hrun : _process Sample.offline Sample.start
                 = (Raise (Exn RuntimeError
                      ("Suno: Missing SUNO_API_KEY. " +:+
                       "Please configure your Suno API key in Settings > Secrets.")),
                    snd (_process Sample.offline Sample.start)))
    by (vm_compute; reflexivity).
  split; [exact Hrun|].
  destruct (process_failure_resets_outputs _ _ _ _ Hrun) as (msg & Hmsg & Hbase & _).
  injection Hmsg as Hmsg. change ("" +:+ msg) with msg in Hmsg. subst msg.
  split; [exact Hbase|]. vm_compute. reflexivity.
Defined.

(** *** Asset materialization *)

Lemma download_bytes_run w url st :
  _download_bytes_from_url w url st
  = (Ok (downloaded w (now st) url),
     State (self st) (trace st ++ [EDownload url 120])).
Proof.
  unfold _download_bytes_from_url, downloaded, http_ok. run.
  destruct (requests_get w (length (trace st)) url) as [resp|e]; [|reflexivity].
  destruct ((400 <=? status_code resp) && (status_code resp <? 600)); reflexivity.
Qed.

(** C7. [_save_audio_from_url] and [_save_image_from_url] never raise.
    Each returns an artifact; it is the artifact of the original URL,
    unchanged, when the download fails or gives no bytes and when the
    static storage refuses the file, and it references the stored copy
    (under the generated file name) only when the download gave bytes and
    the storage accepted them. *)
Theorem save_from_url_falls_back w url track_index st :
  let t := now st in
  let audio_name :=
    "suno_track" +:+ str_of_int track_index +:+ "_"
    +:+ str_of_int (time_time w (t + 1)) +:+ ".mp3" in
  let image_name := "suno_cover_" +:+ str_of_int (time_time w (t + 1)) +:+ ".jpeg" in
  fst (_save_audio_from_url w url track_index st)
  = Ok (materialized w t url audio_name)
  /\ fst (_save_image_from_url w url st) = Ok (materialized w t url image_name)
  /\ (forall filename,
        art_value (materialized w t url filename) = url
        \/ exists data saved_url,
             downloaded w t url = Some data /\ data <> []
             /\ save_static_file w (t + 2) data filename = Ok saved_url
             /\ materialized w t url filename
                = Artifact (PStr saved_url) (Some filename)).
Proof.
  cbn zeta. split; [|split].
  - unfold _save_audio_from_url, try_except. unfold bind at 1.
    rewrite download_bytes_run. unfold materialized.
    destruct (downloaded w (now st) url) as [[|b data]|]; cbn [no_bytes];
      try reflexivity.
    run. rewrite !length_app. cbn [length].
    replace (length (trace st) + 1 + 1)%nat with (length (trace st) + 2)%nat by lia.
    destruct (save_static_file w _ _ _); reflexivity.
  - unfold _save_image_from_url, try_except. unfold bind at 1.
    rewrite download_bytes_run. unfold materialized.
    destruct (downloaded w (now st) url) as [[|b data]|]; cbn [no_bytes];
      try reflexivity.
    run. rewrite !length_app. cbn [length].
    replace (length (trace st) + 1 + 1)%nat with (length (trace st) + 2)%nat by lia.
    destruct (save_static_file w _ _ _); reflexivity.
  - intros filename. unfold materialized.
    destruct (downloaded w (now st) url) as [[|b data]|]; [left; reflexivity| |left; reflexivity].
    destruct (save_static_file w _ _ _) as [saved_url|e] eqn:Hsave; [|left; reflexivity].
    right. exists (b :: data), saved_url. done.
Qed.

(** *** Submission *)

(** The five ways a submission can go, each with the state it leaves. *)
Lemma submit_task_cases w api_key st :
  let after := State (self st) (trace st ++ [submission_call w (self st) api_key]) in
  match submission_reply w (self st) with
  | Raise e =>
      _submit_task w api_key st
      = (Raise (if is_Timeout (exc_type e)
                then Exn RuntimeError "Request timed out after 30 seconds"
                else if is_RequestException (exc_type e)
                     then Exn RuntimeError ("Request failed: " +:+ exc_str e)
                     else e), after)
  | Ok resp =>
      if http_ok resp then
        match json resp with
        | Ok (PDict d) =>
            if code_is_200 d then _submit_task w api_key st = (Ok (PDict d), after)
            else _submit_task w api_key st
                 = (Raise (Exn RuntimeError
                      ("API returned error: " +:+
                       py_str w (default (PStr "Unknown error") (dict_lookup "msg" d)))),
                    after)
        | _ => raises (fst (_submit_task w api_key st))
        end
      else _submit_task w api_key st
           = (Raise (Exn RuntimeError ("Request failed: " +:+ http_error_str resp)),
              after)
  end.
Proof.
  cbn zeta. unfold submission_reply, submission_call, code_is_200, http_ok, _submit_task.
  run. change (API_BASE_URL +:+ "/generate") with "https://api.sunoapi.org/api/v1/generate".
  destruct (requests_post w _ _) as [resp|e].
  - destruct ((400 <=? status_code resp) && (status_code resp <? 600)); cbn; [reflexivity|].
    destruct (json resp) as [[| | | | |l|d]|e]; cbn; try exact I.
    + destruct (eq_int _ 200); cbn; reflexivity.
    + destruct (is_Timeout (exc_type e)); [exact I|].
      destruct (is_RequestException (exc_type e)); exact I.
  - cbn. destruct (is_Timeout (exc_type e)); [reflexivity|].
    destruct (is_RequestException (exc_type e)); reflexivity.
Qed.

Lemma submit_task_state w api_key st :
  snd (_submit_task w api_key st)
  = State (self st) (trace st ++ [submission_call w (self st) api_key]).
Proof.
  unfold submission_call, _submit_task. run.
  change (API_BASE_URL +:+ "/generate") with "https://api.sunoapi.org/api/v1/generate".
  destruct (requests_post w _ _) as [resp|e]; cbn.
  - destruct ((400 <=? status_code resp) && (status_code resp <? 600)); cbn; [reflexivity|].
    destruct (json resp) as [[| | | | |l|d]|e]; cbn; try reflexivity.
    + destruct (negb (eq_int _ 200)); reflexivity.
    + destruct (is_Timeout (exc_type e)); [reflexivity|].
      destruct (is_RequestException (exc_type e)); reflexivity.
  - destruct (is_Timeout (exc_type e)); [reflexivity|].
    destruct (is_RequestException (exc_type e)); reflexivity.
Qed.

(** A reply with an HTTP success status whose body is no JSON object: the
    error of [response.json()] goes through the [except] clauses, and a
    JSON value that is no object has no [get]. *)
Lemma submit_task_body_cases w api_key st resp :
  submission_reply w (self st) = Ok resp ->
  http_ok resp = true ->
  match json resp with
  | Ok (PDict d) => True
  | Ok v =>
      fst (_submit_task w api_key st)
      = Raise (Exn AttributeError
                 ("'" +:+ type_name v +:+ "' object has no attribute 'get'"))
  | Raise e =>
      fst (_submit_task w api_key st)
      = Raise (if is_Timeout (exc_type e)
               then Exn RuntimeError "Request timed out after 30 seconds"
               else if is_RequestException (exc_type e)
                    then Exn RuntimeError ("Request failed: " +:+ exc_str e)
                    else e)
  end.
Proof.
  unfold submission_reply, http_ok, _submit_task. run.
  change (API_BASE_URL +:+ "/generate") with "https://api.sunoapi.org/api/v1/generate".
  intros -> Hok. cbn.
  destruct ((400 <=? status_code resp) && (status_code resp <? 600)); [discriminate|].
  cbn. destruct (json resp) as [[| | | | |l|d]|e]; cbn; try reflexivity; try exact I.
  destruct (is_Timeout (exc_type e)); [reflexivity|].
  destruct (is_RequestException (exc_type e)); reflexivity.
Qed.

Lemma validate_api_key_run w st key :
  get_secret w API_KEY_NAME = Some key ->
  str_truthy key = true ->
  _validate_api_key w st
  = (Ok key, State (self st) (trace st ++ [EGetSecret "SUNO_API_KEY"])).
Proof.
  intros Hsecret Hkey. unfold _validate_api_key. run. rewrite Hsecret, Hkey. reflexivity.
Qed.

(** Polling starts with a sleep and a query carrying the task id, whatever
    follows. *)
Lemma poll_for_completion_first_calls w task_id api_key st :
  exists evs,
    trace (snd (_poll_for_completion w task_id api_key st))
    = trace st ++ poll_calls task_id api_key ++ evs.
Proof.
  unfold _poll_for_completion.
  change (seq 0 MAX_POLLING_ATTEMPTS) with (0%nat :: seq 1 35).
  cbn [poll_loop]. unfold bind.
  destruct (poll_attempt_shape w task_id api_key 0%nat st) as (evs0 & Hst & _).
  destruct (poll_attempt w task_id api_key 0%nat st) as [[[payload|]|e] st1];
    cbn [snd] in *; subst st1; cbn [trace]; eauto.
  destruct (stable_poll_loop w task_id api_key (seq 1 35)
              (State (self st) (trace st ++ poll_calls task_id api_key ++ evs0)))
    as (_ & _ & evs1 & ->).
  exists (evs0 ++ evs1). cbn [trace]. rewrite <- !app_assoc. reflexivity.
Qed.

(** The handler of [_process] adds nothing to the trace. *)
Lemma process_handler_trace st e :
  trace (snd ((_set_safe_defaults;;
               set_output "result_details" (OVal (PStr ("ERROR: " +:+ exc_str e)));;
               self <- get_self;;
               @raise unit (Exn RuntimeError (name self +:+ ": " +:+ exc_str e)))%eff st))
  = trace st.
Proof.
  destruct (process_handler_baseline st e) as (st' & -> & _ & Ht). exact Ht.
Qed.

(** After an accepted submission [_process] takes the task id from
    [data.taskId] of the envelope: without one the run fails, with one the
    polling queries carry it. *)
Lemma process_takes_task_id w st key resp d dd :
  get_secret w API_KEY_NAME = Some key ->
  str_truthy key = true ->
  submission_reply w (self st) = Ok resp ->
  http_ok resp = true ->
  json resp = Ok (PDict d) ->
  code_is_200 d = true ->
  default (PDict []) (dict_lookup "data" d) = PDict dd ->
  match dict_lookup "taskId" dd with
  | None =>
      fst (_process w st)
      = Raise (Exn RuntimeError (name (self st) +:+ ": No task ID returned from API"))
  | Some task_id =>
      truthy task_id = true ->
      exists evs,
        trace (snd (_process w st))
        = trace st
          ++ [EGetSecret "SUNO_API_KEY";
              ESetParameter "status" "Submitting task...";
              submission_call w (self st) key;
              ESetParameter "status" "Generating music..."]
          ++ poll_calls task_id key ++ evs
  end.
Proof.
  intros Hsecret Hkey Hreply Hok Hjson Hcode Hdata.
  destruct (dict_lookup "taskId" dd) as [task_id|] eqn:Htid; [intros Htruthy|];
    unfold _process; unfold bind at 1; rewrite set_safe_defaults_run;
    unfold try_except;
    (erewrite bind_ok by (apply validate_api_key_run; eassumption));
    (erewrite bind_ok by reflexivity);
    match goal with
    | |- context [bind (_submit_task w key) _ ?s] =>
        pose proof (submit_task_cases w key s) as Hs
    end;
    cbn zeta in Hs; cbn [self trace] in Hs;
    change (submission_reply w _) with (submission_reply w (self st)) in Hs;
    change (submission_call w _ key) with (submission_call w (self st) key) in Hs;
    rewrite Hreply, Hok, Hjson, Hcode in Hs;
    (erewrite bind_ok by exact Hs); clear Hs;
    (erewrite bind_ok by reflexivity); rewrite Hdata;
    (erewrite bind_ok by reflexivity); rewrite Htid; cbn [default from_option id].
  - rewrite Htruthy. cbn [negb].
    erewrite bind_ok by reflexivity. erewrite bind_ok by reflexivity.
    cbn [self trace].
    match goal with
    | |- context [bind (_poll_for_completion w task_id key) ?K ?s] =>
        assert (HK : forall p, stable (K p)) by (intros p; stable_auto);
        destruct (poll_for_completion_first_calls w task_id key s) as (evs & Hpoll);
        unfold bind at 1;
        destruct (_poll_for_completion w task_id key s) as [[p|e] st6];
        [specialize (HK p st6); destruct (K p st6) as [[[]|e] st7]|]
    end; cbn [fst snd trace] in *.
    + destruct HK as (_ & _ & evs' & ->). rewrite Hpoll.
      exists (evs ++ evs'). rewrite <- !app_assoc. reflexivity.
    + rewrite process_handler_trace.
      destruct HK as (_ & _ & evs' & ->). rewrite Hpoll.
      exists (evs ++ evs'). rewrite <- !app_assoc. reflexivity.
    + rewrite process_handler_trace. rewrite Hpoll.
      exists evs. rewrite <- !app_assoc. reflexivity.
  - cbn [truthy negb]. unfold raise at 1.
    match goal with
    | |- context [bind _set_safe_defaults _ ?s] =>
        destruct (process_handler_baseline s
                    (Exn RuntimeError "No task ID returned from API"))
          as (st' & Hh & _)
    end.
    cbv beta iota. rewrite Hh. reflexivity.
Qed.

(** The run of [_process] up to the envelope of an accepted submission. *)
Ltac accepted_prefix w st key Hreply Hok Hjson Hcode :=
  unfold _process; unfold bind at 1; rewrite set_safe_defaults_run;
  unfold try_except;
  (erewrite bind_ok by (apply validate_api_key_run; eassumption));
  (erewrite bind_ok by reflexivity);
  match goal with
  | |- context [bind (_submit_task w key) _ ?s] =>
      let Hs := fresh "Hs" in
      pose proof (submit_task_cases w key s) as Hs;
      cbn zeta in Hs; cbn [self trace] in Hs;
      change (submission_reply w _) with (submission_reply w (self st)) in Hs;
      change (submission_call w _ key) with (submission_call w (self st) key) in Hs;
      rewrite Hreply, Hok, Hjson, Hcode in Hs;
      (erewrite bind_ok by exact Hs); clear Hs
  end;
  (erewrite bind_ok by reflexivity).

(** The handler of [_process] on the error [e], whatever the state. *)
Ltac handler_raises e :=
  match goal with
  | |- context [bind _set_safe_defaults _ ?s] =>
      let st' := fresh "st'" in
      let Hh := fresh "Hh" in
      destruct (process_handler_baseline s e) as (st' & Hh & _);
      cbv beta iota; rewrite Hh; reflexivity
  end.

(** After an accepted submission [_process] reads [data.taskId]: a [data]
    that is no object has no [get]; a task id that is absent, [None],
    empty or otherwise falsy ends the run; any other is the one the
    polling queries carry. *)
Lemma process_reads_task_id w st key resp d :
  get_secret w API_KEY_NAME = Some key ->
  str_truthy key = true ->
  submission_reply w (self st) = Ok resp ->
  http_ok resp = true ->
  json resp = Ok (PDict d) ->
  code_is_200 d = true ->
  match default (PDict []) (dict_lookup "data" d) with
  | PDict dd =>
      let task_id := default PNone (dict_lookup "taskId" dd) in
      if truthy task_id then
        exists evs,
          trace (snd (_process w st))
          = trace st
            ++ [EGetSecret "SUNO_API_KEY";
                ESetParameter "status" "Submitting task...";
                submission_call w (self st) key;
                ESetParameter "status" "Generating music..."]
            ++ poll_calls task_id key ++ evs
      else
        fst (_process w st)
        = Raise (Exn RuntimeError
                   (name (self st) +:+ ": No task ID returned from API"))
  | data =>
      fst (_process w st)
      = Raise (Exn RuntimeError
                 (name (self st) +:+ ": '" +:+ type_name data
                  +:+ "' object has no attribute 'get'"))
  end.
Proof.
  intros Hsecret Hkey Hreply Hok Hjson Hcode.
  destruct (default (PDict []) (dict_lookup "data" d)) as [| | | | | |dd] eqn:Hdata.
  7: {
    cbn zeta.
    pose proof (process_takes_task_id w st key resp d dd
                  Hsecret Hkey Hreply Hok Hjson Hcode Hdata) as Ht.
    destruct (dict_lookup "taskId" dd) as [t|] eqn:Htid; cbn [default from_option id].
    - destruct (truthy t) eqn:Htr; [exact (Ht eq_refl)|]. clear Ht.
      accepted_prefix w st key Hreply Hok Hjson Hcode. rewrite Hdata.
      (erewrite bind_ok by reflexivity). rewrite Htid. cbn [default from_option id].
      rewrite Htr. cbn [negb]. unfold raise at 1.
      handler_raises (Exn RuntimeError "No task ID returned from API").
    - exact Ht. }
  all: accepted_prefix w st key Hreply Hok Hjson Hcode; rewrite Hdata;
    (erewrite bind_raise by reflexivity);
    match goal with
    | |- context [set_output "result_details"
                    (OVal (PStr ("ERROR: " +:+ exc_str ?e)))] => handler_raises e
    end.
Qed.

(** C8. [_submit_task] makes one POST with the 30-second timeout,
    whatever follows.  It raises a [RuntimeError] when the call times
    out, when it fails with another request error, when the reply has an
    error HTTP status and when the envelope's [code] is not 200.  It also
    raises when a reply with a good status has a body that is no JSON
    object: the error of [response.json()] is treated like an error of
    the call, and a JSON value that is no object gives an
    [AttributeError].  It raises in exactly these cases, and otherwise
    returns the envelope.  After an accepted envelope [_process] fails
    with "No task ID returned from API" when [data.taskId] is absent,
    [None], empty or otherwise falsy, fails when [data] is there and is no
    object, and otherwise polls with the identifier found in
    [data.taskId]. *)
Theorem submission_errors w api_key st :
  let reply := submission_reply w (self st) in
  let outcome := fst (_submit_task w api_key st) in
  (forall e,
     reply = Raise e -> is_Timeout (exc_type e) = true ->
     _submit_task w api_key st
     = (Raise (Exn RuntimeError "Request timed out after 30 seconds"),
        State (self st) (trace st ++ [submission_call w (self st) api_key])))
  /\ (forall e,
        reply = Raise e -> is_Timeout (exc_type e) = false ->
        is_RequestException (exc_type e) = true ->
        outcome = Raise (Exn RuntimeError ("Request failed: " +:+ exc_str e)))
  /\ (forall resp,
        reply = Ok resp -> http_ok resp = false ->
        outcome = Raise (Exn RuntimeError ("Request failed: " +:+ http_error_str resp)))
  /\ (forall resp d,
        reply = Ok resp -> http_ok resp = true -> json resp = Ok (PDict d) ->
        code_is_200 d = false ->
        outcome
        = Raise (Exn RuntimeError
            ("API returned error: " +:+
             py_str w (default (PStr "Unknown error") (dict_lookup "msg" d)))))
  /\ (forall resp d,
        reply = Ok resp -> http_ok resp = true -> json resp = Ok (PDict d) ->
        code_is_200 d = true ->
        outcome = Ok (PDict d))
  /\ (forall resp e,
        reply = Ok resp -> http_ok resp = true -> json resp = Raise e ->
        outcome
        = Raise (if is_Timeout (exc_type e)
                 then Exn RuntimeError "Request timed out after 30 seconds"
                 else if is_RequestException (exc_type e)
                      then Exn RuntimeError ("Request failed: " +:+ exc_str e)
                      else e))
  /\ (forall resp v,
        reply = Ok resp -> http_ok resp = true -> json resp = Ok v ->
        is_dict v = false ->
        outcome
        = Raise (Exn AttributeError
                   ("'" +:+ type_name v +:+ "' object has no attribute 'get'")))
  /\ (raises outcome <->
      (exists e, reply = Raise e)
      \/ (exists resp, reply = Ok resp
          /\ (http_ok resp = false
              \/ (forall d, json resp <> Ok (PDict d))
              \/ exists d, json resp = Ok (PDict d) /\ code_is_200 d = false)))
  /\ snd (_submit_task w api_key st)
     = State (self st) (trace st ++ [submission_call w (self st) api_key])
  /\ (forall key resp d,
        get_secret w API_KEY_NAME = Some key -> str_truthy key = true ->
        reply = Ok resp -> http_ok resp = true -> json resp = Ok (PDict d) ->
        code_is_200 d = true ->
        match default (PDict []) (dict_lookup "data" d) with
        | PDict dd =>
            let task_id := default PNone (dict_lookup "taskId" dd) in
            if truthy task_id then
              exists evs,
                trace (snd (_process w st))
                = trace st
                  ++ [EGetSecret "SUNO_API_KEY";
                      ESetParameter "status" "Submitting task...";
                      submission_call w (self st) key;
                      ESetParameter "status" "Generating music..."]
                  ++ poll_calls task_id key ++ evs
            else
              fst (_process w st)
              = Raise (Exn RuntimeError
                         (name (self st) +:+ ": No task ID returned from API"))
        | data =>
            fst (_process w st)
            = Raise (Exn RuntimeError
                       (name (self st) +:+ ": '" +:+ type_name data
                        +:+ "' object has no attribute 'get'"))
        end).
Proof.
  cbn zeta. pose proof (submit_task_cases w api_key st) as Hc. cbn zeta in Hc.
  pose proof (submit_task_body_cases w api_key st) as Hb.
  repeat match goal with |- _ /\ _ => split end.
  - intros e He Ht. rewrite He in Hc. rewrite Hc, Ht. reflexivity.
  - intros e He Ht Hr. rewrite He in Hc. rewrite Hc, Ht, Hr. reflexivity.
  - intros resp He Hok. rewrite He, Hok in Hc. rewrite Hc. reflexivity.
  - intros resp d He Hok Hj Hcode. rewrite He, Hok, Hj, Hcode in Hc.
    rewrite Hc. reflexivity.
  - intros resp d He Hok Hj Hcode. rewrite He, Hok, Hj, Hcode in Hc.
    rewrite Hc. reflexivity.
  - intros resp e He Hok Hj. specialize (Hb resp He Hok). rewrite Hj in Hb.
    exact Hb.
  - intros resp v He Hok Hj Hv. specialize (Hb resp He Hok). rewrite Hj in Hb.
    destruct v; try exact Hb. discriminate Hv.
  - split.
    + intros Hraises.
      destruct (submission_reply w (self st)) as [resp|e] eqn:He; [|eauto].
      right. exists resp. split; [reflexivity|].
      destruct (http_ok resp) eqn:Hok; [|left; reflexivity]. right.
      destruct (json resp) as [v|e] eqn:Hj; [|left; intros d; discriminate].
      destruct v as [| | | | | |d]; try (left; intros d'; discriminate).
      right. exists d. split; [reflexivity|].
      destruct (code_is_200 d); [|reflexivity].
      rewrite Hc in Hraises. destruct Hraises.
    + intros [(e & He)|(resp & He & Hcase)]; rewrite He in Hc.
      * rewrite Hc. exact I.
      * destruct (http_ok resp) eqn:Hok; [|rewrite Hc; exact I].
        destruct Hcase as [Hcase|[Hnone|(d & Hj & Hcode)]]; [discriminate| |].
        -- destruct (json resp) as [[| | | | | |d]|e]; try exact Hc.
           destruct (Hnone d eq_refl).
        -- rewrite Hj, Hcode in Hc. rewrite Hc. exact I.
  - apply submit_task_state.
  - intros key resp d. apply process_reads_task_id.
Qed.

Lemma submission_errors_witness :
  _submit_task Sample.submission_times_out "key" Sample.start
  = (Raise (Exn RuntimeError "Request timed out after 30 seconds"),
     State Sample.sample_node
       ([] ++ [submission_call Sample.submission_times_out Sample.sample_node "key"]))
  /\ fst (_process Sample.no_task_id Sample.start)
     = Raise (Exn RuntimeError ("Suno" +:+ ": No task ID returned from API"))
  /\ (exists evs,
        trace (snd (_process Sample.all_good Sample.start))
        = [] ++ [EGetSecret "SUNO_API_KEY";
                 ESetParameter "status" "Submitting task...";
                 submission_call Sample.all_good Sample.sample_node "key";
                 ESetParameter "status" "Generating music..."]
             ++ poll_calls (PStr "abc123") "key" ++ evs)
  /\ fst (_submit_task Sample.rejecting_submission "key" Sample.start)
     = Raise (Exn RuntimeError "API returned error: Insufficient credits")
  /\ fst (_submit_task Sample.unparseable_body "key" Sample.start)
     = Raise (Exn RuntimeError
                "Request failed: Expecting value: line 1 column 1 (char 0)")
  /\ fst (_process Sample.empty_task_id Sample.start)
     = Raise (Exn RuntimeError ("Suno" +:+ ": No task ID returned from API")).
Proof.
  destruct (submission_errors Sample.submission_times_out "key" Sample.start)
    as (Htimeout & _).
  destruct (submission_errors Sample.no_task_id "key" Sample.start)
    as (_ & _ & _ & _ & _ & _ & _ & _ & _ & Hnone).
  destruct (submission_errors Sample.all_good "key" Sample.start)
    as (_ & _ & _ & _ & _ & _ & _ & _ & _ & Hgood).
  destruct (submission_errors Sample.rejecting_submission "key" Sample.start)
    as (_ & _ & _ & Hrejected & _).
  destruct (submission_errors Sample.unparseable_body "key" Sample.start)
    as (_ & _ & _ & _ & _ & Hbody & _).
  destruct (submission_errors Sample.empty_task_id "key" Sample.start)
    as (_ & _ & _ & _ & _ & _ & _ & _ & _ & Hempty).
  split; [|split; [|split; [|split; [|split]]]].
  - exact (Htimeout (Exn ReadTimeout "Read timed out.") eq_refl eq_refl).
  - exact (Hnone "key" _ _ eq_refl eq_refl eq_refl eq_refl eq_refl eq_refl).
  - exact (Hgood "key" _ _ eq_refl eq_refl eq_refl eq_refl eq_refl eq_refl).
  - exact (Hrejected _ _ eq_refl eq_refl eq_refl eq_refl).
  - exact (Hbody _ _ eq_refl eq_refl eq_refl).
  - exact (Hempty "key" _ _ eq_refl eq_refl eq_refl eq_refl eq_refl eq_refl).
Defined.

(** Two runs outside the four causes and the missing identifier.  A reply
    with a good HTTP status whose body is no JSON makes [_submit_task]
    raise although the call did not fail, the status is no error and there
    is no envelope with a [code] other than 200; and an accepted envelope
    whose [data.taskId] is there, as the empty string, makes [_process]
    raise instead of taking the identifier. *)
Lemma submission_raises_outside_listed_causes :
  let reply := submission_reply Sample.unparseable_body Sample.sample_node in
  (raises (fst (_submit_task Sample.unparseable_body "key" Sample.start))
   /\ ~ ((exists e, reply = Raise e)
         \/ (exists resp, reply = Ok resp
             /\ (http_ok resp = false
                 \/ exists d, json resp = Ok (PDict d) /\ code_is_200 d = false))))
  /\ (exists resp d dd,
        submission_reply Sample.empty_task_id Sample.sample_node = Ok resp
        /\ http_ok resp = true
        /\ json resp = Ok (PDict d)
        /\ code_is_200 d = true
        /\ dict_lookup "data" d = Some (PDict dd)
        /\ dict_lookup "taskId" dd = Some (PStr "")
        /\ raises (fst (_process Sample.empty_task_id Sample.start))).
Proof.
  cbn zeta. split; [split|].
  - exact I.
  - intros [(e & He)|(resp & He & [Hok|(d & Hj & _)])].
    + discriminate He.
    + injection He as <-. discriminate Hok.
    + injection He as <-. discriminate Hj.
  - exists {| status_code := 200; http_error_str := "";
              json := Ok (PDict [("code", PInt 200); ("msg", PStr "success");
                                 ("data", PDict [("taskId", PStr "")])]);
              content := [] |},
           [("code", PInt 200); ("msg", PStr "success");
            ("data", PDict [("taskId", PStr "")])],
           [("taskId", PStr "")].
    split; [reflexivity|]. split; [reflexivity|]. split; [reflexivity|].
    split; [reflexivity|]. split; [reflexivity|]. split; [reflexivity|].
    vm_compute. exact I.
Qed.

(** *** A complete run *)

(** The end-to-end scenario: task id "abc123", SUCCESS at the second
    query with two valid entries, both downloads stored. *)
Example process_end_to_end :
  let st' := snd (_process Sample.end_to_end Sample.start) in
  fst (_process Sample.end_to_end Sample.start) = Ok tt
  /\ output st' "status" = Some (OVal (PStr "complete"))
  /\ output st' "task_id" = Some (OVal (PStr "abc123"))
  /\ output st' "audio_track_1"
     = Some (OAudio (Artifact (PStr "http://localhost/static/suno_track1_1700000000.mp3")
                       (Some "suno_track1_1700000000.mp3")))
  /\ output st' "audio_track_2"
     = Some (OAudio (Artifact (PStr "http://localhost/static/suno_track2_1700000000.mp3")
                       (Some "suno_track2_1700000000.mp3")))
  /\ output st' "cover_image"
     = Some (OImage (Artifact (PStr "http://localhost/static/suno_cover_1700000000.jpeg")
                       (Some "suno_cover_1700000000.jpeg")))
  /\ output st' "generated_title" = Some (OVal (PStr "Calm"))
  /\ output st' "lyrics" = Some (OVal (PStr "la la"))
  /\ status_queries (trace st') = 2%nat.
Proof. cbn zeta. unfold output. repeat split; vm_compute; reflexivity. Qed.

(** *** The result summary *)

(** The summary cannot be built when the first track has no lyrics text:
    [len] is taken of [None]. *)
Lemma build_result_lines_without_prompt w task_id track0 tracks :
  tr_prompt track0 = PNone ->
  build_result_lines w task_id track0 tracks
  = Raise (Exn TypeError "object of type 'NoneType' has no len()").
Proof. unfold build_result_lines. intros ->. reflexivity. Qed.

(** C10. There is a run whose completion payload has status SUCCESS and
    whose first valid track has no [prompt] field: the two tracks are
    extracted and their audio is stored, then building the summary raises
    on the length of the absent text, and [_process] ends as a failure with
    every output at the error baseline. *)
Theorem summary_fails_without_prompt :
  exists w st payload track1 track2,
    succeeded (requests_get_status w 0) = Some payload
    /\ _extract_track_data payload = Ok [track1; track2]
    /\ tr_prompt track1 = PNone
    /\ In (ESaveStatic [Byte.x49; Byte.x44; Byte.x33] "suno_track1_1700000000.mp3")
          (trace (snd (_process w st)))
    /\ In (ESaveStatic [Byte.x49; Byte.x44; Byte.x33] "suno_track2_1700000000.mp3")
          (trace (snd (_process w st)))
    /\ build_result_lines w (PStr "abc123") track1 [track1; track2]
       = Raise (Exn TypeError "object of type 'NoneType' has no len()")
    /\ fst (_process w st)
       = Raise (Exn RuntimeError
                  (name (self st) +:+ ": object of type 'NoneType' has no len()"))
    /\ failure_baseline (snd (_process w st))
         "ERROR: object of type 'NoneType' has no len()".
Proof.
  exists Sample.all_good, Sample.start, Sample.instrumental_payload.
  eexists. eexists.
  split; [reflexivity|]. split; [vm_compute; reflexivity|].
  split; [reflexivity|].
  split; [vm_compute; tauto|]. split; [vm_compute; tauto|].
  split; [reflexivity|]. split; [vm_compute; reflexivity|].
  unfold failure_baseline, output. repeat split; vm_compute; reflexivity.
Qed.

(** *** The request payload *)

Lemma dict_lookup_set k k' v d :
  dict_lookup k (dict_set k' v d)
  = if String.eqb k k' then Some v else dict_lookup k d.
Proof.
  induction d as [|[k0 v0] d IH]; cbn [dict_set dict_lookup].
  - destruct (String.eqb k k'); reflexivity.
  - destruct (String.eqb k' k0) eqn:E0; cbn [dict_lookup].
    + apply String.eqb_eq in E0. subst k0.
      destruct (String.eqb k k'); reflexivity.
    + rewrite IH. destruct (String.eqb k k0) eqn:E1; [|reflexivity].
      apply String.eqb_eq in E1. subst k0.
      destruct (String.eqb k k') eqn:E2; [|reflexivity].
      apply String.eqb_eq in E2. subst k'. rewrite String.eqb_refl in E0. discriminate.
Qed.

Lemma dict_lookup_add_weight w k k' weight payload :
  dict_lookup k (add_weight w k' weight payload)
  = if String.eqb k k' && weight_is_sent weight
    then option_map (fun x => PFloat (py_round2 w x)) weight
    else dict_lookup k payload.
Proof.
  unfold add_weight, weight_is_sent. destruct weight as [x|].
  - destruct (float_truthy x && negb (PrimFloat.eqb x 0.65)).
    + rewrite dict_lookup_set. destruct (String.eqb k k'); reflexivity.
    + rewrite andb_false_r. reflexivity.
  - rewrite andb_false_r. reflexivity.
Qed.

(** Each weight key is in the payload exactly when the test on its
    parameter passes, with the rounded value. *)
Lemma build_payload_weight_keys w self :
  dict_lookup "styleWeight" (_build_payload w self)
  = (if weight_is_sent (style_weight (params self))
     then option_map (fun x => PFloat (py_round2 w x)) (style_weight (params self))
     else None)
  /\ dict_lookup "weirdnessConstraint" (_build_payload w self)
     = (if weight_is_sent (weirdness_constraint (params self))
        then option_map (fun x => PFloat (py_round2 w x))
               (weirdness_constraint (params self))
        else None)
  /\ dict_lookup "audioWeight" (_build_payload w self)
     = (if weight_is_sent (audio_weight (params self))
        then option_map (fun x => PFloat (py_round2 w x)) (audio_weight (params self))
        else None).
Proof.
  unfold _build_payload. cbn zeta.
  repeat split; rewrite !dict_lookup_add_weight; cbn [String.eqb Ascii.eqb Bool.eqb andb];
    repeat match goal with
           | |- context [weight_is_sent ?x] => destruct (weight_is_sent x)
           end; try reflexivity;
    repeat match goal with
           | |- context [match ?x with Some _ => _ | None => _ end] => destruct x
           | |- context [if ?b then _ else _] => destruct b
           end;
    rewrite ?dict_lookup_set; reflexivity.
Qed.

(** The part of the weight rule that holds: a weight equal to the default
    0.65 (or unset) is left out, and a weight that is neither zero nor 0.65
    is sent rounded to two decimals. *)
Lemma build_payload_weight_rule w self x :
  style_weight (params self) = Some x ->
  (PrimFloat.eqb x 0.65 = true ->
   dict_lookup "styleWeight" (_build_payload w self) = None)
  /\ (PrimFloat.eqb x 0.65 = false -> PrimFloat.eqb x 0 = false ->
      dict_lookup "styleWeight" (_build_payload w self)
      = Some (PFloat (py_round2 w x))).
Proof.
  intros Hx. destruct (build_payload_weight_keys w self) as (-> & _).
  rewrite Hx. unfold weight_is_sent, float_truthy.
  split; [intros ->|intros -> ->]; cbn; [|reflexivity].
  rewrite andb_false_r. reflexivity.
Qed.

(** A weight of zero is never sent, whichever of the three it is. *)
Lemma build_payload_zero_weight w self :
  (style_weight (params self) = Some 0%float ->
   dict_lookup "styleWeight" (_build_payload w self) = None)
  /\ (weirdness_constraint (params self) = Some 0%float ->
      dict_lookup "weirdnessConstraint" (_build_payload w self) = None)
  /\ (audio_weight (params self) = Some 0%float ->
      dict_lookup "audioWeight" (_build_payload w self) = None).
Proof.
  destruct (build_payload_weight_keys w self) as (H1 & H2 & H3).
  split; [|split]; intros H; [rewrite H1|rewrite H2|rewrite H3]; rewrite H; reflexivity.
Qed.

(** C3 (the code departs from the specification at 0.0). A style weight of 0.0
    lies in [0.0, 1.0] and differs from the default 0.65, yet
    [_build_payload] leaves [styleWeight] out of the payload: the test
    [if style_weight and style_weight != 0.65] is false for zero.  On the
    same node the audio weight 0.3 is sent, rounded, and the weirdness
    constraint, at its default 0.65, is left out. *)
Theorem build_payload_omits_zero_weight w :
  style_weight (params Sample.zero_style_weight) = Some 0%float
  /\ PrimFloat.leb 0 0 = true /\ PrimFloat.leb 0 1 = true
  /\ PrimFloat.eqb 0 0.65 = false
  /\ dict_lookup "styleWeight" (_build_payload w Sample.zero_style_weight) = None
  /\ dict_lookup "weirdnessConstraint" (_build_payload w Sample.zero_style_weight)
     = None
  /\ dict_lookup "audioWeight" (_build_payload w Sample.zero_style_weight)
     = Some (PFloat (py_round2 w 0.3)).
Proof. repeat split; reflexivity. Qed.

(** *** Track extraction *)

Lemma track_of_item_dict d : track_of_item (PDict d) = Ok (track_of_fields d).
Proof. reflexivity. Qed.

(** On entries that are all objects the loop keeps those with an audio
    URL, in the order of the list. *)
Lemma extract_items_objects (entries : list (list (string * pyval))) : forall tracks,
  extract_items (map PDict entries) tracks
  = Ok (tracks ++ map track_of_fields (List.filter has_audio_url entries)).
Proof.
  induction entries as [|d entries IH]; intros tracks; cbn [map extract_items List.filter].
  - rewrite app_nil_r. reflexivity.
  - rewrite track_of_item_dict. unfold has_audio_url at 1.
    change (tr_audio_url (track_of_fields d))
      with (default PNone (dict_lookup "audioUrl" d)).
    destruct (truthy _); rewrite IH; [|reflexivity].
    cbn [map]. rewrite <- app_assoc. reflexivity.
Qed.

(** The three levels above the track list are parsed defensively. *)
Lemma extract_track_data_levels fields :
  let data := default (PDict []) (dict_lookup "data" fields) in
  match data with
  | PDict d =>
      match default (PDict []) (dict_lookup "response" d) with
      | PDict r =>
          match default (PList []) (dict_lookup "sunoData" r) with
          | PList items =>
              _extract_track_data (PDict fields) = extract_items items []
          | _ => _extract_track_data (PDict fields) = Ok []
          end
      | _ => _extract_track_data (PDict fields) = Ok []
      end
  | _ => _extract_track_data (PDict fields) = Ok []
  end.
Proof.
  unfold _extract_track_data. cbn [py_get].
  destruct (default (PDict []) (dict_lookup "data" fields)) as [| | | | | |d];
    cbn [py_get is_dict negb]; try reflexivity.
  destruct (default (PDict []) (dict_lookup "response" d)) as [| | | | | |r];
    cbn [py_get is_dict negb]; try reflexivity.
  destruct (default (PList []) (dict_lookup "sunoData" r)); reflexivity.
Qed.

(** What holds of the claim: absent levels give no track, and a list of
    objects gives the tracks of the entries with an audio URL, in order. *)
Lemma extract_track_data_objects fields d r entries :
  default (PDict []) (dict_lookup "data" fields) = PDict d ->
  default (PDict []) (dict_lookup "response" d) = PDict r ->
  default (PList []) (dict_lookup "sunoData" r) = PList (map PDict entries) ->
  _extract_track_data (PDict fields)
  = Ok (map track_of_fields (List.filter has_audio_url entries)).
Proof.
  intros Hd Hr Hs. pose proof (extract_track_data_levels fields) as H.
  cbn zeta in H. rewrite Hd, Hr, Hs in H. rewrite H. apply extract_items_objects.
Qed.

Lemma extract_track_data_absent :
  _extract_track_data (PDict []) = Ok []
  /\ _extract_track_data (PDict [("data", PNone)]) = Ok []
  /\ _extract_track_data (PDict [("data", PDict [("response", PStr "")])]) = Ok []
  /\ _extract_track_data
       (PDict [("data", PDict [("response", PDict [("sunoData", PNone)])])]) = Ok [].
Proof. repeat split; reflexivity. Qed.

Lemma extract_track_data_one_of_two :
  exists track,
    _extract_track_data Sample.one_of_two_payload = Ok [track]
    /\ tr_audio_url track = PStr "https://cdn.example/a1.mp3".
Proof. eexists. split; reflexivity. Qed.

(** An entry that is no object makes the loop raise, once the objects
    before it are passed. *)
Lemma extract_items_non_object entries item rest : forall tracks,
  is_dict item = false ->
  raises (extract_items (map PDict entries ++ item :: rest) tracks).
Proof.
  induction entries as [|d entries IH]; intros tracks Hitem; cbn [map app extract_items].
  - destruct item; try exact I. discriminate.
  - rewrite track_of_item_dict. destruct (truthy _); apply IH; exact Hitem.
Qed.

(** C4 (the code departs from the specification on a malformed entry). The
    payload [{"code": 200, "data": {"status": "SUCCESS", "response":
    {"sunoData": [null]}}}] is a well-formed JSON object whose track list
    holds an entry that is no object; [_extract_track_data] does not
    degrade to zero tracks on it but raises the [AttributeError] of
    [item.get]. *)
Theorem extract_track_data_raises_on_null_entry :
  _extract_track_data Sample.null_entry_payload
  = Raise (Exn AttributeError "'NoneType' object has no attribute 'get'").
Proof. reflexivity. Qed.

(** *** Validation *)

Lemma append_if_violation (c : bool) (l : list exn) e :
  (if c then l ++ [e] else l) = l ++ violation c e.
Proof. destruct c; cbn; [reflexivity|]. rewrite app_nil_r. reflexivity. Qed.

(** The errors of custom mode: one optional error per rule, in the order
    of the checks. *)
Lemma validate_custom_mode self :
  flag (custom_mode (params self)) = true ->
  let p := params self in
  let style := str_or_empty (style p) in
  let title := str_or_empty (title p) in
  let prompt := str_or_empty (prompt p) in
  let prompt_limit := limit_get PROMPT_LIMITS_CUSTOM (model p) 3000 in
  let style_limit := limit_get STYLE_LIMITS (model p) 200 in
  default [] (validate_before_node_run self)
  = violation (blank style)
      (Exn ValueError (name self +:+ ": Style is required in Custom Mode"))
    ++ violation (blank title)
         (Exn ValueError (name self +:+ ": Title is required in Custom Mode"))
    ++ violation (negb (flag (instrumental p)) && blank prompt)
         (Exn ValueError
            (name self +:+
             ": Prompt/Lyrics required in Custom Mode when not instrumental"))
    ++ violation (str_truthy prompt && (prompt_limit <? len prompt))
         (Exn ValueError
            (name self +:+ ": Prompt exceeds " +:+ str_of_int prompt_limit
             +:+ " character limit for " +:+ str_of_opt (model p)
             +:+ " (current: " +:+ str_of_int (len prompt) +:+ " characters)"))
    ++ violation (str_truthy style && (style_limit <? len style))
         (Exn ValueError
            (name self +:+ ": Style exceeds " +:+ str_of_int style_limit
             +:+ " character limit for " +:+ str_of_opt (model p)
             +:+ " (current: " +:+ str_of_int (len style) +:+ " characters)"))
    ++ violation (str_truthy title && (80 <? len title))
         (Exn ValueError
            (name self +:+ ": Title exceeds " +:+ str_of_int 80
             +:+ " character limit (current: " +:+ str_of_int (len title)
             +:+ " characters)")).
Proof.
  intros Hcustom. cbn zeta. unfold validate_before_node_run, blank. cbn zeta.
  rewrite Hcustom.
  match goal with
  | |- default [] (match ?l with [] => None | _ :: _ => Some ?l end) = _ =>
      transitivity l; [destruct l; reflexivity|]
  end.
  change TITLE_LIMIT with 80.
  destruct (negb (str_truthy (strip (str_or_empty (style (params self))))));
    destruct (negb (str_truthy (strip (str_or_empty (title (params self))))));
    destruct (negb (flag (instrumental (params self)))
              && negb (str_truthy (strip (str_or_empty (prompt (params self))))));
    destruct (str_truthy (str_or_empty (prompt (params self))));
    destruct (limit_get PROMPT_LIMITS_CUSTOM (model (params self)) 3000
              <? len (str_or_empty (prompt (params self))));
    destruct (str_truthy (str_or_empty (style (params self))));
    destruct (limit_get STYLE_LIMITS (model (params self)) 200
              <? len (str_or_empty (style (params self))));
    destruct (str_truthy (str_or_empty (title (params self))) &&
              (80 <? len (str_or_empty (title (params self)))));
    reflexivity.
Qed.

(** The errors of simple mode. *)
Lemma validate_simple_mode self :
  flag (custom_mode (params self)) = false ->
  let prompt := str_or_empty (prompt (params self)) in
  default [] (validate_before_node_run self)
  = violation (blank prompt)
      (Exn ValueError (name self +:+ ": Prompt is required in Simple Mode"))
    ++ violation (500 <? len prompt)
         (Exn ValueError
            (name self +:+ ": Prompt exceeds " +:+ str_of_int 500
             +:+ " character limit in Simple Mode (current: "
             +:+ str_of_int (len prompt) +:+ " characters)")).
Proof.
  intros Hsimple. cbn zeta. unfold validate_before_node_run, blank. cbn zeta.
  rewrite Hsimple.
  match goal with
  | |- default [] (match ?l with [] => None | _ :: _ => Some ?l end) = _ =>
      transitivity l; [destruct l; reflexivity|]
  end.
  change PROMPT_LIMIT_SIMPLE with 500.
  destruct (negb (str_truthy (strip (str_or_empty (prompt (params self))))));
    destruct (500 <? len (str_or_empty (prompt (params self)))); reflexivity.
Qed.

(** [None] is returned exactly when no error was collected. *)
Lemma validate_none_iff self :
  validate_before_node_run self = None
  <-> default [] (validate_before_node_run self) = [].
Proof.
  unfold validate_before_node_run. cbn zeta.
  match goal with
  | |- match ?l with [] => None | _ :: _ => Some ?l end = _ <-> _ => destruct l
  end; cbn; split; congruence.
Qed.

Lemma string_app_inj (s a b : string) : s +:+ a = s +:+ b -> a = b.
Proof.
  induction s as [|c s IH]; [exact (fun H => H)|].
  intros H. apply IH. injection H as H. exact H.
Qed.

Lemma count_violation_same (c : bool) e :
  count_occ exn_eq_dec (violation c e) e = if c then 1%nat else 0%nat.
Proof.
  destruct c; [|reflexivity]. unfold violation.
  rewrite count_occ_cons_eq by reflexivity. reflexivity.
Qed.

Lemma count_violation_other (c : bool) e e' :
  e <> e' -> count_occ exn_eq_dec (violation c e) e' = 0%nat.
Proof.
  intros Hne. destruct c; [|reflexivity]. unfold violation.
  rewrite count_occ_cons_neq by exact Hne. reflexivity.
Qed.

Lemma prompt_limit_bounds model :
  3000 <= limit_get PROMPT_LIMITS_CUSTOM model 3000 <= 5000.
Proof.
  destruct model as [m|]; cbn [limit_get PROMPT_LIMITS_CUSTOM]; [|lia].
  repeat match goal with
         | |- context [if String.eqb m ?k then _ else _] => destruct (String.eqb m k)
         end; lia.
Qed.

Lemma style_limit_bounds model :
  200 <= limit_get STYLE_LIMITS model 200 <= 1000.
Proof.
  destruct model as [m|]; cbn [limit_get STYLE_LIMITS]; [|lia].
  repeat match goal with
         | |- context [if String.eqb m ?k then _ else _] => destruct (String.eqb m k)
         end; lia.
Qed.

Lemma len_nonneg s : 0 <= len s.
Proof. unfold len. lia. Qed.

Lemma len_not_truthy s : str_truthy s = false -> len s = 0.
Proof. destruct s; [reflexivity|discriminate]. Qed.

(** A text longer than a limit is not empty, so that the guard of
    [if text and len(text) > limit] changes nothing. *)
Lemma length_test text limit :
  0 <= limit -> str_truthy text && (limit <? len text) = (limit <? len text).
Proof.
  intros Hl. destruct (str_truthy text) eqn:Ht; [reflexivity|].
  rewrite (len_not_truthy text Ht). symmetry. apply Z.ltb_ge, Hl.
Qed.

(** Two messages of the node differ as soon as their texts after the name
    do. *)
Ltac messages_differ :=
  let H := fresh in
  intros H; injection H as H; apply string_app_inj in H;
  lazy beta iota delta [String.append] in H; discriminate H.

(** C6. [validate_before_node_run] collects one error per violated rule
    and returns them together, without stopping at the first.  In custom
    mode the error "Style is required" occurs exactly once when the style
    is blank after trimming and not at all otherwise, and likewise "Title
    is required" for the title, each whatever the other rules give; in
    simple mode a prompt of more than 500 characters gives the length
    error that names the 500 character limit; and [None] is returned only
    when no rule is violated.  More precisely the errors are, in the order
    of the checks, those of all the violated rules of the mode - six rules
    in custom mode (style, title and, unless instrumental, prompt not
    blank; prompt and style within the limit of the model; title within
    80 characters), two in simple mode (prompt not blank and within 500
    characters) - and the error of a rule occurs once when the rule is
    violated and not at all otherwise; when there is an error the whole
    list is what is returned.  The function is pure: it reads the node and
    calls no collaborator. *)
Theorem validation_collects_errors self :
  let p := params self in
  let errors := default [] (validate_before_node_run self) in
  (flag (custom_mode p) = true ->
   count_occ exn_eq_dec errors
     (Exn ValueError (name self +:+ ": Style is required in Custom Mode"))
   = (if blank (str_or_empty (style p)) then 1 else 0)%nat
   /\ count_occ exn_eq_dec errors
        (Exn ValueError (name self +:+ ": Title is required in Custom Mode"))
      = (if blank (str_or_empty (title p)) then 1 else 0)%nat)
  /\ (flag (custom_mode p) = false ->
      500 < len (str_or_empty (prompt p)) ->
      In (Exn ValueError
            (name self +:+ ": Prompt exceeds 500 character limit in Simple Mode (current: "
             +:+ str_of_int (len (str_or_empty (prompt p))) +:+ " characters)"))
         errors
      /\ validate_before_node_run self = Some errors)
  /\ (validate_before_node_run self = None <-> errors = [])
  /\ (flag (custom_mode p) = true ->
      let style := str_or_empty (style p) in
      let title := str_or_empty (title p) in
      let prompt := str_or_empty (prompt p) in
      let prompt_limit := limit_get PROMPT_LIMITS_CUSTOM (model p) 3000 in
      let style_limit := limit_get STYLE_LIMITS (model p) 200 in
      let rules :=
        [(blank style, name self +:+ ": Style is required in Custom Mode");
         (blank title, name self +:+ ": Title is required in Custom Mode");
         (negb (flag (instrumental p)) && blank prompt,
          name self +:+ ": Prompt/Lyrics required in Custom Mode when not instrumental");
         (prompt_limit <? len prompt,
          name self +:+ ": Prompt exceeds " +:+ str_of_int prompt_limit
          +:+ " character limit for " +:+ str_of_opt (model p)
          +:+ " (current: " +:+ str_of_int (len prompt) +:+ " characters)");
         (style_limit <? len style,
          name self +:+ ": Style exceeds " +:+ str_of_int style_limit
          +:+ " character limit for " +:+ str_of_opt (model p)
          +:+ " (current: " +:+ str_of_int (len style) +:+ " characters)");
         (80 <? len title,
          name self +:+ ": Title exceeds " +:+ str_of_int 80
          +:+ " character limit (current: " +:+ str_of_int (len title)
          +:+ " characters)")] in
      errors = flat_map (fun rule => violation (fst rule) (Exn ValueError (snd rule))) rules
      /\ forall violated msg,
           In (violated, msg) rules ->
           count_occ exn_eq_dec errors (Exn ValueError msg)
           = (if violated then 1 else 0)%nat)
  /\ (flag (custom_mode p) = false ->
      let prompt := str_or_empty (prompt p) in
      let rules :=
        [(blank prompt, name self +:+ ": Prompt is required in Simple Mode");
         (500 <? len prompt,
          name self +:+ ": Prompt exceeds " +:+ str_of_int 500
          +:+ " character limit in Simple Mode (current: "
          +:+ str_of_int (len prompt) +:+ " characters)")] in
      errors = flat_map (fun rule => violation (fst rule) (Exn ValueError (snd rule))) rules
      /\ forall violated msg,
           In (violated, msg) rules ->
           count_occ exn_eq_dec errors (Exn ValueError msg)
           = (if violated then 1 else 0)%nat)
  /\ (errors <> [] -> validate_before_node_run self = Some errors).
Proof.
  cbn zeta. split; [|split; [|split; [|split; [|split]]]].
  - intros Hcustom. rewrite (validate_custom_mode self Hcustom). cbn zeta.
    rewrite !count_occ_app. split.
    + rewrite count_violation_same.
      rewrite !count_violation_other by messages_differ. lia.
    + rewrite count_violation_same.
      rewrite !count_violation_other by messages_differ. lia.
  - intros Hsimple Hlong.
    assert (Hin : In (Exn ValueError
            (name self +:+ ": Prompt exceeds 500 character limit in Simple Mode (current: "
             +:+ str_of_int (len (str_or_empty (prompt (params self)))) +:+ " characters)"))
         (default [] (validate_before_node_run self))).
    { rewrite (validate_simple_mode self Hsimple). cbn zeta.
      apply in_or_app. right.
      apply Z.ltb_lt in Hlong. rewrite Hlong. left. reflexivity. }
    split; [exact Hin|].
    destruct (validate_before_node_run self) as [errs|] eqn:Hv; [reflexivity|].
    destruct Hin.
  - apply validate_none_iff.
  - intros Hcustom. rewrite (validate_custom_mode self Hcustom). cbn zeta.
    pose proof (prompt_limit_bounds (model (params self))) as Hp.
    pose proof (style_limit_bounds (model (params self))) as Hs.
    rewrite !length_test by lia.
    cbn [flat_map fst snd]. rewrite app_nil_r. split; [reflexivity|].
    intros violated msg Hin. cbn [In] in Hin.
    rewrite !count_occ_app.
    repeat (destruct Hin as [[= <- <-]|Hin];
            [rewrite count_violation_same;
             rewrite !count_violation_other by messages_differ;
             rewrite ?Nat.add_0_r; reflexivity|]).
    destruct Hin.
  - intros Hsimple. rewrite (validate_simple_mode self Hsimple). cbn zeta.
    cbn [flat_map fst snd]. rewrite app_nil_r. split; [reflexivity|].
    intros violated msg Hin. cbn [In] in Hin.
    rewrite !count_occ_app.
    repeat (destruct Hin as [[= <- <-]|Hin];
            [rewrite count_violation_same;
             rewrite !count_violation_other by messages_differ;
             rewrite ?Nat.add_0_r; reflexivity|]).
    destruct Hin.
  - destruct (validate_before_node_run self) as [errs|]; [reflexivity|].
    intros H. destruct H. reflexivity.
Qed.

Lemma validation_collects_errors_witness :
  (count_occ exn_eq_dec (default [] (validate_before_node_run Sample.custom_blank))
     (Exn ValueError ("Suno" +:+ ": Style is required in Custom Mode")) = 1%nat
   /\ count_occ exn_eq_dec (default [] (validate_before_node_run Sample.custom_blank))
        (Exn ValueError ("Suno" +:+ ": Title is required in Custom Mode")) = 1%nat)
  /\ In (Exn ValueError
           ("Suno" +:+ ": Prompt exceeds 500 character limit in Simple Mode (current: "
            +:+ "501" +:+ " characters)"))
        (default [] (validate_before_node_run Sample.simple_long))
  /\ validate_before_node_run Sample.custom_blank
     = Some [Exn ValueError "Suno: Style is required in Custom Mode";
             Exn ValueError "Suno: Title is required in Custom Mode"]
  /\ default [] (validate_before_node_run Sample.custom_three_faults)
     = [Exn ValueError "Suno: Style is required in Custom Mode";
        Exn ValueError
          "Suno: Prompt/Lyrics required in Custom Mode when not instrumental";
        Exn ValueError
          "Suno: Title exceeds 80 character limit (current: 81 characters)"]
  /\ default [] (validate_before_node_run Sample.simple_long)
     = [Exn ValueError
          "Suno: Prompt exceeds 500 character limit in Simple Mode (current: 501 characters)"]
  /\ validate_before_node_run Sample.custom_three_faults
     = Some (default [] (validate_before_node_run Sample.custom_three_faults)).
Proof.
  split; [|split; [|split; [reflexivity|split; [|split]]]].
  - exact (proj1 (validation_collects_errors Sample.custom_blank) eq_refl).
  - exact (proj1 (proj1 (proj2 (validation_collects_errors Sample.simple_long))
                    eq_refl eq_refl)).
  - exact (proj1 (proj1 (proj2 (proj2 (proj2
             (validation_collects_errors Sample.custom_three_faults)))) eq_refl)).
  - exact (proj1 (proj1 (proj2 (proj2 (proj2 (proj2
             (validation_collects_errors Sample.simple_long))))) eq_refl)).
  - apply (proj2 (proj2 (proj2 (proj2 (proj2
             (validation_collects_errors Sample.custom_three_faults)))))).
    vm_compute. discriminate.
Defined.

(** Blank after trimming: every character is white space. *)
Lemma lstrip_empty_iff s :
  lstrip s = EmptyString <-> forallb isspace (list_ascii_of_string s) = true.
Proof.
  induction s as [|c s IH]; cbn [lstrip list_ascii_of_string forallb]; [done|].
  destruct (isspace c); cbn [andb]; [exact IH|]. split; discriminate.
Qed.

Lemma rstrip_empty_iff s :
  rstrip s = EmptyString <-> forallb isspace (list_ascii_of_string s) = true.
Proof.
  induction s as [|c s IH]; cbn [rstrip list_ascii_of_string forallb]; [done|].
  destruct (rstrip s) as [|c' r].
  - destruct (isspace c); cbn [andb]; [|split; discriminate].
    split; [intros _; apply IH; reflexivity|reflexivity].
  - split; [discriminate|]. intros [_ H]%andb_prop. apply IH in H. discriminate.
Qed.

Lemma lstrip_all_space s :
  forallb isspace (list_ascii_of_string (lstrip s)) = true ->
  forallb isspace (list_ascii_of_string s) = true.
Proof.
  induction s as [|c s IH]; cbn [lstrip list_ascii_of_string forallb]; [done|].
  destruct (isspace c) eqn:Hc; cbn [andb]; [exact IH|].
  cbn [list_ascii_of_string forallb]. rewrite Hc. discriminate.
Qed.

Lemma blank_spec s :
  blank s = true <-> forallb isspace (list_ascii_of_string s) = true.
Proof.
  unfold blank, strip. split.
  - intros H. apply lstrip_all_space, rstrip_empty_iff.
    destruct (rstrip (lstrip s)); [reflexivity|discriminate].
  - intros H. apply lstrip_empty_iff in H. rewrite H. reflexivity.
Qed.

(* ===================================================================== *)
(** ** Further properties *)
(* ===================================================================== *)

Import Blocks.

(** *** [_process] and its blocks *)

Lemma process_stages w :
  _process w = (_set_safe_defaults;; try_except (process_body w) process_handler)%eff.
Proof. reflexivity. Qed.

Lemma process_handler_run st e :
  exists st',
    process_handler e st
    = (Raise (Exn RuntimeError (name (self st) +:+ ": " +:+ exc_str e)), st')
    /\ failure_baseline st' ("ERROR: " +:+ exc_str e)
    /\ trace st' = trace st.
Proof. apply process_handler_baseline. Qed.

(** *** Computations that write no output slot *)

Lemma quiet_ret {A} (a : A) : quiet (ret a).
Proof. intros st. reflexivity. Qed.

Lemma quiet_raise {A} e : quiet (@raise A e).
Proof. intros st. reflexivity. Qed.

Lemma quiet_lift {A} (r : result A) : quiet (lift r).
Proof. intros st. reflexivity. Qed.

Lemma quiet_get_state : quiet get_state.
Proof. intros st. reflexivity. Qed.

Lemma quiet_get_self : quiet get_self.
Proof. intros st. reflexivity. Qed.

Lemma quiet_emit e : quiet (emit e).
Proof. intros st. reflexivity. Qed.

Lemma quiet_bind {A B} (m : M A) (k : A -> M B) :
  quiet m -> (forall a, quiet (k a)) -> quiet (bind m k).
Proof.
  intros Hm Hk st. unfold bind. specialize (Hm st).
  destruct (m st) as [[a|e] st1]; cbn [snd] in *; [|exact Hm].
  rewrite Hk. exact Hm.
Qed.

Lemma quiet_try_except {A} (body : M A) handler :
  quiet body -> (forall e, quiet (handler e)) -> quiet (try_except body handler).
Proof.
  intros Hm Hh st. unfold try_except. specialize (Hm st).
  destruct (body st) as [[a|e] st1]; cbn [snd] in *; [exact Hm|].
  rewrite Hh. exact Hm.
Qed.

Create HintDb quiet discriminated.
#[local] Hint Resolve quiet_ret quiet_raise quiet_lift quiet_get_state
  quiet_get_self quiet_emit : quiet.

Ltac quiet_step :=
  match goal with
  | |- quiet (bind _ _) => apply quiet_bind; [|intros ?]
  | |- quiet (try_except _ _) => apply quiet_try_except; [|intros ?]
  | |- quiet (if ?b then _ else _) => destruct b
  | |- quiet (match ?x with _ => _ end) => destruct x
  | |- quiet _ => solve [auto with quiet]
  end.

Ltac quiet_auto := repeat quiet_step.

Lemma quiet_raise_for_status r : quiet (raise_for_status r).
Proof. unfold raise_for_status. quiet_auto. Qed.

#[local] Hint Resolve quiet_raise_for_status : quiet.

Lemma quiet_validate_api_key w : quiet (_validate_api_key w).
Proof. unfold _validate_api_key. quiet_auto. Qed.

Lemma quiet_submit_task w api_key : quiet (_submit_task w api_key).
Proof. unfold _submit_task, requests_post_generate. quiet_auto. Qed.

Lemma quiet_poll_attempt w task_id api_key attempt :
  quiet (poll_attempt w task_id api_key attempt).
Proof. unfold poll_attempt, requests_get_record_info. quiet_auto. Qed.

#[local] Hint Resolve quiet_validate_api_key quiet_submit_task
  quiet_poll_attempt : quiet.

Lemma quiet_poll_for_completion w task_id api_key :
  quiet (_poll_for_completion w task_id api_key).
Proof.
  unfold _poll_for_completion. generalize (seq 0 MAX_POLLING_ATTEMPTS).
  induction l as [|a l IH]; cbn [poll_loop]; [auto with quiet|].
  apply quiet_bind; [auto with quiet|]. intros [payload|]; auto with quiet.
Qed.

Lemma quiet_download_bytes_from_url w url : quiet (_download_bytes_from_url w url).
Proof. unfold _download_bytes_from_url, requests_get_url. quiet_auto. Qed.

#[local] Hint Resolve quiet_poll_for_completion quiet_download_bytes_from_url : quiet.

(** *** Materialization, with the state it leaves *)

Lemma save_audio_run w url track_index st :
  _save_audio_from_url w url track_index st
  = (Ok (materialized w (now st) url (audio_filename w (now st) track_index)),
     State (self st)
       (trace st ++ save_calls w (now st) url (audio_filename w (now st) track_index))).
Proof.
  unfold _save_audio_from_url, try_except, audio_filename. unfold bind at 1.
  rewrite download_bytes_run. unfold materialized, save_calls.
  destruct (downloaded w (now st) url) as [[|b data]|]; cbn [no_bytes];
    try reflexivity.
  run. rewrite !length_app. cbn [length].
  replace (length (trace st) + 1 + 1)%nat with (length (trace st) + 2)%nat by lia.
  rewrite <- !app_assoc. cbn [app].
  destruct (save_static_file w _ _ _); reflexivity.
Qed.

Lemma save_image_run w url st :
  _save_image_from_url w url st
  = (Ok (materialized w (now st) url (image_filename w (now st))),
     State (self st)
       (trace st ++ save_calls w (now st) url (image_filename w (now st)))).
Proof.
  unfold _save_image_from_url, try_except, image_filename. unfold bind at 1.
  rewrite download_bytes_run. unfold materialized, save_calls.
  destruct (downloaded w (now st) url) as [[|b data]|]; cbn [no_bytes];
    try reflexivity.
  run. rewrite !length_app. cbn [length].
  replace (length (trace st) + 1 + 1)%nat with (length (trace st) + 2)%nat by lia.
  rewrite <- !app_assoc. cbn [app].
  destruct (save_static_file w _ _ _); reflexivity.
Qed.

(** *** What a computation adds to the trace *)

Section Emits.

Variable P : event -> bool.

Lemma emits_ret {A} (a : A) : emits P (ret a).
Proof. intros st. exists []. by rewrite app_nil_r. Qed.

Lemma emits_raise {A} e : emits P (@raise A e).
Proof. intros st. exists []. by rewrite app_nil_r. Qed.

Lemma emits_lift {A} (r : result A) : emits P (lift r).
Proof. intros st. exists []. by rewrite app_nil_r. Qed.

Lemma emits_get_state : emits P get_state.
Proof. intros st. exists []. by rewrite app_nil_r. Qed.

Lemma emits_get_self : emits P get_self.
Proof. intros st. exists []. by rewrite app_nil_r. Qed.

Lemma emits_set_output slot v : emits P (set_output slot v).
Proof. intros st. exists []. cbn. by rewrite app_nil_r. Qed.

Lemma emits_emit e : P e = true -> emits P (emit e).
Proof. intros He st. exists [e]. cbn. by rewrite He. Qed.

Lemma emits_bind {A B} (m : M A) (k : A -> M B) :
  emits P m -> (forall a, emits P (k a)) -> emits P (bind m k).
Proof.
  intros Hm Hk st. unfold bind. destruct (Hm st) as (evs & Ht & Hp).
  destruct (m st) as [[a|e] st1]; cbn [snd] in *; [|eauto].
  destruct (Hk a st1) as (evs' & Ht' & Hp'). exists (evs ++ evs').
  rewrite Ht', Ht, app_assoc, forallb_app, Hp, Hp'. done.
Qed.

Lemma emits_try_except {A} (body : M A) handler :
  emits P body -> (forall e, emits P (handler e)) -> emits P (try_except body handler).
Proof.
  intros Hm Hh st. unfold try_except. destruct (Hm st) as (evs & Ht & Hp).
  destruct (body st) as [[a|e] st1]; cbn [snd] in *; [eauto|].
  destruct (Hh e st1) as (evs' & Ht' & Hp'). exists (evs ++ evs').
  rewrite Ht', Ht, app_assoc, forallb_app, Hp, Hp'. done.
Qed.

End Emits.

Create HintDb emits discriminated.
#[local] Hint Resolve emits_ret emits_raise emits_lift emits_get_state
  emits_get_self emits_set_output : emits.

Ltac emits_step :=
  match goal with
  | |- emits _ (bind _ _) => apply emits_bind; [|intros ?]
  | |- emits _ (try_except _ _) => apply emits_try_except; [|intros ?]
  | |- emits _ (emit _) => apply emits_emit; reflexivity
  | |- emits _ (if ?b then _ else _) => destruct b
  | |- emits _ (match ?x with _ => _ end) => destruct x
  | |- emits _ _ => solve [auto with emits]
  end.

Ltac emits_auto := repeat emits_step.

Lemma emits_set_safe_defaults P : emits P _set_safe_defaults.
Proof. unfold _set_safe_defaults. emits_auto. Qed.

Lemma emits_raise_for_status P r : emits P (raise_for_status r).
Proof. unfold raise_for_status. emits_auto. Qed.

#[local] Hint Resolve emits_set_safe_defaults emits_raise_for_status : emits.

Lemma emits_process_handler P e : emits P (process_handler e).
Proof. unfold process_handler. emits_auto. Qed.

(** Polling only sleeps, queries the status and reports progress. *)
Lemma emits_poll_for_completion w task_id api_key :
  emits (fun e => match e with
                  | ESleep _ | EGetStatus _ _ _ _ | ESetParameter _ _ => true
                  | _ => false
                  end)
        (_poll_for_completion w task_id api_key).
Proof.
  unfold _poll_for_completion. generalize (seq 0 MAX_POLLING_ATTEMPTS).
  induction l as [|a l IH]; cbn [poll_loop]; [emits_auto|].
  apply emits_bind.
  - unfold poll_attempt, requests_get_record_info. emits_auto.
  - intros [payload|]; [emits_auto|exact IH].
Qed.

(** Materialization only downloads, reads the clock and stores. *)
Lemma emits_save_audio_from_url w url i :
  emits (fun e => match e with
                  | EDownload _ _ | ETime | ESaveStatic _ _ => true
                  | _ => false
                  end)
        (_save_audio_from_url w url i).
Proof.
  unfold _save_audio_from_url, _download_bytes_from_url, requests_get_url,
    int_time, static_files_save.
  emits_auto.
Qed.

Lemma emits_save_image_from_url w url :
  emits (fun e => match e with
                  | EDownload _ _ | ETime | ESaveStatic _ _ => true
                  | _ => false
                  end)
        (_save_image_from_url w url).
Proof.
  unfold _save_image_from_url, _download_bytes_from_url, requests_get_url,
    int_time, static_files_save.
  emits_auto.
Qed.

Lemma emits_weaken (P Q : event -> bool) {A} (m : M A) :
  (forall e, P e = true -> Q e = true) -> emits P m -> emits Q m.
Proof.
  intros HPQ Hm st. destruct (Hm st) as (evs & Ht & Hp). exists evs.
  split; [exact Ht|]. apply forallb_forall. intros e He.
  apply HPQ. rewrite forallb_forall in Hp. apply Hp, He.
Qed.

(** *** Stepping through a [try] block *)

Lemma try_except_bind_ok {A B} (m : M A) (k : A -> M B) handler st a st' :
  m st = (Ok a, st') ->
  try_except (bind m k) handler st = try_except (k a) handler st'.
Proof. intros H. unfold try_except. rewrite (bind_ok _ _ _ _ _ H). reflexivity. Qed.

Lemma try_except_bind_raise {A B} (m : M A) (k : A -> M B) handler st e st' :
  m st = (Raise e, st') ->
  try_except (bind m k) handler st = handler e st'.
Proof. intros H. unfold try_except. rewrite (bind_raise _ _ _ _ _ H). reflexivity. Qed.

Lemma bind_inv_ok {A B} (m : M A) (k : A -> M B) st b st' :
  bind m k st = (Ok b, st') ->
  exists a st1, m st = (Ok a, st1) /\ k a st1 = (Ok b, st').
Proof.
  unfold bind. destruct (m st) as [[a|e] st1]; [eauto|discriminate].
Qed.

Lemma filter_none {A} (P Q : A -> bool) (l : list A) :
  (forall x, Q x = true -> P x = false) ->
  forallb Q l = true -> List.filter P l = [].
Proof.
  intros HPQ. induction l as [|x l IH]; [reflexivity|].
  cbn [forallb List.filter]. intros [Hx Hl]%andb_prop.
  rewrite (HPQ x Hx). apply IH, Hl.
Qed.

(** The state in which the [try] block of [_process] starts. *)
Lemma process_start w st :
  _process w st
  = try_except (process_body w) process_handler (snd (_set_safe_defaults st)).
Proof. rewrite process_stages. unfold bind. rewrite set_safe_defaults_run. reflexivity. Qed.

Lemma validate_api_key_missing w st :
  default "" (get_secret w API_KEY_NAME) = "" ->
  _validate_api_key w st
  = (Raise (Exn ValueError
       ("Missing SUNO_API_KEY. " +:+
        "Please configure your Suno API key in Settings > Secrets.")),
     State (self st) (trace st ++ [EGetSecret "SUNO_API_KEY"])).
Proof.
  intros H. unfold _validate_api_key. run.
  destruct (get_secret w API_KEY_NAME) as [key|]; [|reflexivity].
  cbn in H. subst key. reflexivity.
Qed.

(** X7. Without a credential (no secret, or an empty one) [_process] makes
    no call but the secrets lookup: it raises the configuration error,
    prefixed with the node's name, and leaves the failure baseline. *)
Theorem process_without_credential w st :
  default "" (get_secret w API_KEY_NAME) = "" ->
  exists st',
    _process w st
    = (Raise (Exn RuntimeError
         (name (self st) +:+ ": Missing SUNO_API_KEY. " +:+
          "Please configure your Suno API key in Settings > Secrets.")), st')
    /\ trace st' = trace st ++ [EGetSecret "SUNO_API_KEY"]
    /\ failure_baseline st'
         ("ERROR: Missing SUNO_API_KEY. " +:+
          "Please configure your Suno API key in Settings > Secrets.").
Proof.
  intros Hsecret. rewrite process_start, set_safe_defaults_run. cbn [snd].
  unfold process_body.
  erewrite try_except_bind_raise by (apply validate_api_key_missing; exact Hsecret).
  match goal with
  | |- context [process_handler ?e ?s] =>
      destruct (process_handler_run s e) as (st' & -> & Hbase & Ht)
  end.
  exists st'. split; [reflexivity|]. split; [exact Ht|exact Hbase].
Qed.

Lemma process_without_credential_witness :
  exists st',
    _process Sample.offline Sample.start
    = (Raise (Exn RuntimeError
         ("Suno" +:+ ": Missing SUNO_API_KEY. " +:+
          "Please configure your Suno API key in Settings > Secrets.")), st')
    /\ trace st' = [] ++ [EGetSecret "SUNO_API_KEY"]
    /\ failure_baseline st'
         ("ERROR: Missing SUNO_API_KEY. " +:+
          "Please configure your Suno API key in Settings > Secrets.").
Proof. exact (process_without_credential Sample.offline Sample.start eq_refl). Defined.

Lemma emits_process_tracks w task_id tracks :
  emits after_submission (process_tracks w task_id tracks).
Proof.
  assert (Ha : forall url i, emits after_submission (_save_audio_from_url w url i)).
  { intros url i. eapply emits_weaken; [|apply emits_save_audio_from_url].
    intros []; done. }
  assert (Hi : forall url, emits after_submission (_save_image_from_url w url)).
  { intros url. eapply emits_weaken; [|apply emits_save_image_from_url].
    intros []; done. }
  unfold process_tracks.
  repeat match goal with
         | |- emits _ (_save_audio_from_url _ _ _) => apply Ha
         | |- emits _ (_save_image_from_url _ _) => apply Hi
         | _ => emits_step
         end.
Qed.

Lemma emits_process_generation w task_id api_key :
  emits after_submission (process_generation w task_id api_key).
Proof.
  assert (Hp : emits after_submission (_poll_for_completion w task_id api_key)).
  { eapply emits_weaken; [|apply emits_poll_for_completion]. intros []; done. }
  unfold process_generation.
  repeat match goal with
         | |- emits _ (_poll_for_completion _ _ _) => apply Hp
         | |- emits _ (process_tracks _ _ _) => apply emits_process_tracks
         | _ => emits_step
         end.
Qed.

Lemma process_try_submits_at_most_once w s :
  exists evs,
    trace (snd (try_except (process_body w) process_handler s))
    = trace s ++ EGetSecret "SUNO_API_KEY" :: evs
    /\ (List.filter is_post evs = []
        \/ exists key,
             get_secret w API_KEY_NAME = Some key
             /\ List.filter is_post evs = [submission_call w (self s) key]).
Proof.
  unfold process_body.
  destruct (default "" (get_secret w API_KEY_NAME)) as [|c key'] eqn:Hsecret.
  - erewrite try_except_bind_raise by (apply validate_api_key_missing; exact Hsecret).
    match goal with
    | |- context [process_handler ?e ?s1] =>
        destruct (emits_process_handler after_submission e s1) as (evs & Ht & Hp)
    end.
    rewrite Ht. cbn [trace]. exists evs. rewrite <- app_assoc.
    split; [reflexivity|]. left.
    eapply filter_none; [|exact Hp]. intros []; done.
  - destruct (get_secret w API_KEY_NAME) as [key|] eqn:Hkey; [|discriminate].
    cbn in Hsecret. subst key.
    erewrite try_except_bind_ok by (apply validate_api_key_run; [exact Hkey|reflexivity]).
    erewrite try_except_bind_ok by reflexivity.
    cbn [self trace].
    match goal with
    | |- context [try_except (bind (_submit_task w ?k) ?K) ?h ?s2] =>
        pose proof (submit_task_state w k s2) as Hs;
        assert (HK : forall r, emits after_submission (try_except (K r) h));
        [|destruct (_submit_task w k s2) as [[r|e] st3] eqn:Hsub]
    end.
    + intros r. apply emits_try_except; [|intros e; apply emits_process_handler].
      repeat match goal with
             | |- emits _ (process_generation _ _ _) => apply emits_process_generation
             | _ => emits_step
             end.
    + erewrite try_except_bind_ok by exact Hsub.
      cbn [snd self trace] in Hs. subst st3.
      match goal with
      | |- context [try_except ?body ?h ?s3] =>
          destruct (HK r s3) as (evs & Ht & Hp)
      end.
      rewrite Ht. cbn [trace].
      eexists. rewrite <- !app_assoc. split; [reflexivity|]. right.
      exists (String c key'). split; [reflexivity|]. cbn [app List.filter is_post].
      f_equal. eapply filter_none; [|exact Hp]. intros []; done.
    + erewrite try_except_bind_raise by exact Hsub.
      cbn [snd self trace] in Hs. subst st3.
      match goal with
      | |- context [process_handler ?e0 ?s3] =>
          destruct (emits_process_handler after_submission e0 s3) as (evs & Ht & Hp)
      end.
      rewrite Ht. cbn [trace].
      eexists. rewrite <- !app_assoc. split; [reflexivity|]. right.
      exists (String c key'). split; [reflexivity|]. cbn [app List.filter is_post].
      f_equal. eapply filter_none; [|exact Hp]. intros []; done.
Qed.

(** X19. A run of [_process] looks up the credential before anything
    else and submits at most one job: its calls start with the secrets
    lookup, and either hold no [POST] at all, or exactly one, that of the
    request built from the node's parameters, sent with the credential
    found. *)
Theorem process_submits_at_most_once w st :
  exists evs,
    trace (snd (_process w st)) = trace st ++ EGetSecret "SUNO_API_KEY" :: evs
    /\ (List.filter is_post evs = []
        \/ exists key,
             get_secret w API_KEY_NAME = Some key
             /\ List.filter is_post evs = [submission_call w (self st) key]).
Proof.
  rewrite process_start.
  exact (process_try_submits_at_most_once w (snd (_set_safe_defaults st))).
Qed.

(** The [try] block, started in state [s], after an accepted submission
    that carries a task id. *)
Lemma process_body_enters_generation w s key resp d dd task_id :
  get_secret w API_KEY_NAME = Some key ->
  str_truthy key = true ->
  submission_reply w (self s) = Ok resp ->
  http_ok resp = true ->
  json resp = Ok (PDict d) ->
  code_is_200 d = true ->
  default (PDict []) (dict_lookup "data" d) = PDict dd ->
  dict_lookup "taskId" dd = Some task_id ->
  truthy task_id = true ->
  try_except (process_body w) process_handler s
  = try_except (process_generation w task_id key) process_handler
      (State (self s)
         (trace s ++ [EGetSecret "SUNO_API_KEY";
                      ESetParameter "status" "Submitting task...";
                      submission_call w (self s) key])).
Proof.
  intros Hsecret Hkey Hreply Hok Hjson Hcode Hdata Htid Htruthy.
  unfold process_body.
  erewrite try_except_bind_ok by (apply validate_api_key_run; eassumption).
  erewrite try_except_bind_ok by reflexivity.
  match goal with
  | |- context [bind (_submit_task w key) _] =>
      match goal with
      | |- try_except _ _ ?s2 = _ => pose proof (submit_task_cases w key s2) as Hs
      end
  end.
  cbn zeta in Hs. cbn [self trace] in Hs.
  rewrite Hreply, Hok, Hjson, Hcode in Hs.
  erewrite try_except_bind_ok by exact Hs. clear Hs.
  erewrite try_except_bind_ok by reflexivity. rewrite Hdata.
  erewrite try_except_bind_ok by reflexivity. rewrite Htid.
  cbn [default from_option id]. rewrite Htruthy. cbn [negb self trace].
  rewrite <- !app_assoc. reflexivity.
Qed.

(** The same for [_process]: the block that polls and assembles starts
    from the safe defaults, with the three calls of the submission made. *)
Lemma process_enters_generation w st key resp d dd task_id :
  get_secret w API_KEY_NAME = Some key ->
  str_truthy key = true ->
  submission_reply w (self st) = Ok resp ->
  http_ok resp = true ->
  json resp = Ok (PDict d) ->
  code_is_200 d = true ->
  default (PDict []) (dict_lookup "data" d) = PDict dd ->
  dict_lookup "taskId" dd = Some task_id ->
  truthy task_id = true ->
  _process w st
  = try_except (process_generation w task_id key) process_handler
      (State (self (snd (_set_safe_defaults st)))
         (trace st ++ [EGetSecret "SUNO_API_KEY";
                       ESetParameter "status" "Submitting task...";
                       submission_call w (self st) key])).
Proof.
  intros. rewrite process_start.
  exact (process_body_enters_generation w (snd (_set_safe_defaults st))
           key resp d dd task_id
           ltac:(assumption) ltac:(assumption) ltac:(assumption) ltac:(assumption)
           ltac:(assumption) ltac:(assumption) ltac:(assumption) ltac:(assumption)
           ltac:(assumption)).
Qed.

Lemma accepted_task_inv w self key task_id :
  accepted_task w self = Some (key, task_id) ->
  exists resp d dd,
    get_secret w API_KEY_NAME = Some key /\ str_truthy key = true
    /\ submission_reply w self = Ok resp /\ http_ok resp = true
    /\ json resp = Ok (PDict d) /\ code_is_200 d = true
    /\ default (PDict []) (dict_lookup "data" d) = PDict dd
    /\ dict_lookup "taskId" dd = Some task_id /\ truthy task_id = true.
Proof.
  unfold accepted_task.
  destruct (get_secret w API_KEY_NAME) as [k|] eqn:Hs; [|done].
  destruct (str_truthy k) eqn:Hk; [|done].
  destruct (submission_reply w self) as [resp|e] eqn:Hr; [|done].
  destruct (http_ok resp) eqn:Hok; [|done].
  destruct (json resp) as [[| | | | | |d]|e] eqn:Hj; try done.
  destruct (code_is_200 d) eqn:Hc; [|done].
  destruct (default (PDict []) (dict_lookup "data" d)) as [| | | | | |dd] eqn:Hd; try done.
  destruct (dict_lookup "taskId" dd) as [t|] eqn:Ht; [|done].
  destruct (truthy t) eqn:Htr; [|done].
  intros [= <- <-]. exists resp, d, dd. done.
Qed.

Lemma process_accepted w st key task_id :
  accepted_task w (self st) = Some (key, task_id) ->
  _process w st
  = try_except (process_generation w task_id key) process_handler
      (State (self (snd (_set_safe_defaults st)))
         (trace st ++ [EGetSecret "SUNO_API_KEY";
                       ESetParameter "status" "Submitting task...";
                       submission_call w (self st) key])).
Proof.
  intros (resp & d & dd & H1 & H2 & H3 & H4 & H5 & H6 & H7 & H8 & H9)%accepted_task_inv.
  eapply process_enters_generation; eassumption.
Qed.

(** The handler keeps the trace of the block it guards. *)
Lemma try_except_process_handler_trace (body : M unit) s :
  trace (snd (try_except body process_handler s)) = trace (snd (body s)).
Proof.
  unfold try_except. destruct (body s) as [[u|e] s1]; [reflexivity|].
  destruct (process_handler_run s1 e) as (s2 & -> & _ & Ht). exact Ht.
Qed.

(** *** Downloads *)

Lemma downloads_app evs1 evs2 :
  downloads (evs1 ++ evs2) = downloads evs1 ++ downloads evs2.
Proof.
  induction evs1 as [|e evs1 IH]; [reflexivity|].
  destruct e; cbn [app downloads]; rewrite IH; reflexivity.
Qed.

Lemma stored_app evs1 evs2 : stored (evs1 ++ evs2) = stored evs1 ++ stored evs2.
Proof.
  induction evs1 as [|e evs1 IH]; [reflexivity|].
  destruct e; cbn [app stored]; rewrite IH; reflexivity.
Qed.

Lemma downloads_save_calls w t url filename :
  downloads (save_calls w t url filename) = [url].
Proof. unfold save_calls. destruct (downloaded w t url) as [[|b data]|]; reflexivity. Qed.

Lemma materialization_save_calls w t url filename :
  forallb is_materialization (save_calls w t url filename) = true.
Proof. unfold save_calls. destruct (downloaded w t url) as [[|b data]|]; reflexivity. Qed.

Lemma downloads_none (evs : list event) :
  forallb is_polling evs = true -> downloads evs = [] /\ stored evs = [].
Proof.
  induction evs as [|e evs IH]; [done|].
  cbn [forallb]. intros [He Hevs]%andb_prop. destruct e; try discriminate; cbn; auto.
Qed.

(** A materialization always returns; it leaves the node alone, downloads
    its URL once and adds only calls of materialization. *)
Lemma save_audio_ok w url track_index st :
  exists a evs,
    _save_audio_from_url w url track_index st
    = (Ok a, State (self st) (trace st ++ evs))
    /\ downloads evs = [url] /\ forallb is_materialization evs = true.
Proof.
  rewrite save_audio_run. eexists. eexists. split; [reflexivity|].
  rewrite downloads_save_calls, materialization_save_calls. done.
Qed.

Lemma save_image_ok w url st :
  exists a evs,
    _save_image_from_url w url st = (Ok a, State (self st) (trace st ++ evs))
    /\ downloads evs = [url] /\ forallb is_materialization evs = true.
Proof.
  rewrite save_image_run. eexists. eexists. split; [reflexivity|].
  rewrite downloads_save_calls, materialization_save_calls. done.
Qed.

(** Steps of a block that cannot fail at this point: a call that does not
    touch the world, the materialization of an audio URL alone, and a
    materialization followed by the assignment of its result. *)
Ltac tidy_state := cbn [self name params parameter_output_values trace].

Ltac step_pure := erewrite bind_ok by reflexivity; tidy_state.

Ltac step_audio :=
  match goal with
  | |- context [bind (_save_audio_from_url ?w ?u ?i) _ ?s] =>
      let Hrun := fresh "Hrun" in
      destruct (save_audio_ok w u i s) as (? & ? & Hrun & ? & ?);
      erewrite bind_ok by exact Hrun; clear Hrun; tidy_state
  end.

Ltac step_audio_set :=
  match goal with
  | |- context [bind (bind (_save_audio_from_url ?w ?u ?i) _) _ ?s] =>
      let Hrun := fresh "Hrun" in
      destruct (save_audio_ok w u i s) as (? & ? & Hrun & ? & ?);
      erewrite bind_ok by (erewrite bind_ok by exact Hrun; reflexivity);
      clear Hrun; tidy_state
  end.

Ltac step_image_set :=
  match goal with
  | |- context [bind (bind (_save_image_from_url ?w ?u) _) _ ?s] =>
      let Hrun := fresh "Hrun" in
      destruct (save_image_ok w u s) as (? & ? & Hrun & ? & ?);
      erewrite bind_ok by (erewrite bind_ok by exact Hrun; reflexivity);
      clear Hrun; tidy_state
  end.

(** The last two statements of the block: the summary, which may raise,
    and its assignment. *)
Ltac step_summary :=
  match goal with
  | |- context [bind (lift (build_result_lines ?w ?t ?t1 ?ts)) _ ?s] =>
      let Hb := fresh "Hlines" in
      destruct (build_result_lines w t t1 ts) eqn:Hb;
      [ erewrite bind_ok by reflexivity
      | erewrite bind_raise by reflexivity ]; tidy_state
  end.

(** Whatever its outcome, the assembly of the outputs fetches the URLs of
    [urls_to_fetch], in that order, and adds nothing to the trace but the
    calls of these materializations. *)
Lemma process_tracks_trace w task_id tracks s :
  exists evs,
    trace (snd (process_tracks w task_id tracks s)) = trace s ++ evs
    /\ downloads evs = urls_to_fetch tracks
    /\ forallb is_materialization evs = true.
Proof.
  destruct tracks as [|track1 others].
  { exists []. cbn. rewrite app_nil_r. done. }
  unfold process_tracks, urls_to_fetch.
  step_audio. step_pure.
  destruct (truthy (tr_image_url track1)); [step_image_set|step_pure];
    do 3 step_pure;
    (destruct others as [|track2 others]; [step_pure|step_audio_set]);
    step_pure; step_summary;
    cbn [snd trace set_output self]; eexists;
    (split; [rewrite <- ?app_assoc; reflexivity|]);
    rewrite ?downloads_app, ?forallb_app;
    repeat match goal with H : downloads _ = _ |- _ => rewrite H; clear H end;
    repeat match goal with H : forallb _ _ = _ |- _ => rewrite H; clear H end;
    done.
Qed.

(** X18. Once the submission is accepted and the polling has returned a
    payload, [_process] downloads, one after the other and in this order,
    the audio of the first track, its cover image when it has one, and the
    audio of the second track when there is one; it downloads nothing
    else, whether the run then succeeds or fails on the summary. *)
Theorem process_downloads_in_order w st key task_id k payload tracks :
  accepted_task w (self st) = Some (key, task_id) ->
  (k < 36)%nat ->
  (forall i, (i < k)%nat -> continues (requests_get_status w i) = true) ->
  succeeded (requests_get_status w k) = Some payload ->
  _extract_track_data payload = Ok tracks ->
  downloads (trace (snd (_process w st)))
  = downloads (trace st) ++ urls_to_fetch tracks.
Proof.
  intros Hacc Hk Hcont Hsucc Hextract.
  rewrite (process_accepted w st key task_id Hacc).
  rewrite try_except_process_handler_trace.
  unfold process_generation. do 2 step_pure.
  match goal with
  | |- context [bind (_poll_for_completion w task_id key) _ ?s] =>
      destruct (poll_returns_first_success w task_id key s k payload Hk Hcont Hsucc)
        as (evs & Hrun & _);
      destruct (emits_poll_for_completion w task_id key s) as (evs' & Ht & Hp)
  end.
  rewrite Hrun in Ht. cbn [snd trace] in Ht. apply app_inv_head in Ht. subst evs'.
  erewrite bind_ok by exact Hrun.
  erewrite bind_ok by (unfold lift; rewrite Hextract; reflexivity).
  match goal with
  | |- context [process_tracks w task_id tracks ?s] =>
      destruct (process_tracks_trace w task_id tracks s) as (evs2 & -> & Hd & _)
  end.
  cbn [self trace]. rewrite !downloads_app, Hd.
  destruct (downloads_none evs Hp) as (-> & _). cbn. rewrite !app_nil_r. reflexivity.
Qed.

(** X17. When the completed payload yields no valid track, [_process]
    fails with "No tracks in completed response": the caller gets the
    error prefixed with the node's name, the outputs are at the failure
    baseline, and nothing was downloaded or stored. *)
Theorem process_without_tracks w st key task_id k payload :
  accepted_task w (self st) = Some (key, task_id) ->
  (k < 36)%nat ->
  (forall i, (i < k)%nat -> continues (requests_get_status w i) = true) ->
  succeeded (requests_get_status w k) = Some payload ->
  _extract_track_data payload = Ok [] ->
  exists st',
    _process w st
    = (Raise (Exn RuntimeError
         (name (self st) +:+ ": No tracks in completed response")), st')
    /\ failure_baseline st' "ERROR: No tracks in completed response"
    /\ downloads (trace st') = downloads (trace st)
    /\ stored (trace st') = stored (trace st).
Proof.
  intros Hacc Hk Hcont Hsucc Hextract.
  rewrite (process_accepted w st key task_id Hacc).
  unfold process_generation.
  erewrite try_except_bind_ok by reflexivity.
  erewrite try_except_bind_ok by reflexivity. tidy_state.
  match goal with
  | |- context [bind (_poll_for_completion w task_id key) _] =>
      match goal with
      | |- context [try_except _ _ ?s] =>
          destruct (poll_returns_first_success w task_id key s k payload Hk Hcont Hsucc)
            as (evs & Hrun & _);
          destruct (emits_poll_for_completion w task_id key s) as (evs' & Ht & Hp)
      end
  end.
  rewrite Hrun in Ht. cbn [snd trace] in Ht. apply app_inv_head in Ht. subst evs'.
  erewrite try_except_bind_ok by exact Hrun.
  erewrite try_except_bind_ok by (unfold lift; rewrite Hextract; reflexivity).
  tidy_state. unfold process_tracks, try_except, raise.
  match goal with
  | |- context [process_handler ?e ?s] =>
      destruct (process_handler_run s e) as (st' & -> & Hbase & Htr)
  end.
  exists st'. split; [reflexivity|]. split; [exact Hbase|].
  rewrite Htr. cbn [trace]. rewrite !downloads_app, !stored_app.
  destruct (downloads_none evs Hp) as (-> & ->). cbn. rewrite !app_nil_r. done.
Qed.

(** *** A run that returns *)

(** What the assembly of the outputs leaves when it returns. *)
Lemma process_tracks_ok w task_id tracks s st' :
  process_tracks w task_id tracks s = (Ok tt, st') ->
  exists track1 others,
    tracks = track1 :: others
    /\ output st' "status" = Some (OVal (PStr "complete"))
    /\ (exists a, output st' "audio_track_1" = Some (OAudio a))
    /\ match others with
       | [] => output st' "audio_track_2" = output s "audio_track_2"
       | _ :: _ => exists a, output st' "audio_track_2" = Some (OAudio a)
       end
    /\ (if truthy (tr_image_url track1)
        then exists a, output st' "cover_image" = Some (OImage a)
        else output st' "cover_image" = output s "cover_image")
    /\ output st' "generated_title"
       = Some (OVal (py_or (tr_title track1) (PStr "Untitled")))
    /\ output st' "tags" = Some (OVal (py_or (tr_tags track1) (PStr "")))
    /\ output st' "lyrics" = Some (OVal (py_or (tr_prompt track1) (PStr "")))
    /\ output st' "task_id" = output s "task_id"
    /\ exists lines,
         build_result_lines w task_id track1 tracks = Ok lines
         /\ output st' "result_details" = Some (OVal (PStr (join newline lines))).
Proof.
  destruct tracks as [|track1 others]; [discriminate|].
  unfold process_tracks. intros Hrun. exists track1, others.
  split; [reflexivity|]. revert Hrun.
  step_audio. step_pure.
  destruct (truthy (tr_image_url track1)); [step_image_set|step_pure];
    do 3 step_pure;
    (destruct others as [|track2 others]; [step_pure|step_audio_set]);
    step_pure; step_summary; try discriminate;
    unfold set_output; tidy_state; intros [= <-];
    unfold output; tidy_state;
    repeat split; eauto; try (eexists; by simplify_map_eq); by simplify_map_eq.
Qed.

Lemma validate_api_key_ok w s key s' :
  _validate_api_key w s = (Ok key, s') ->
  get_secret w API_KEY_NAME = Some key /\ str_truthy key = true.
Proof.
  unfold _validate_api_key. run.
  destruct (get_secret w API_KEY_NAME) as [k|]; [|discriminate].
  destruct (str_truthy k) eqn:Hk; [|discriminate]. intros [= <- _]. done.
Qed.

(** X16. A run of [_process] that returns normally went through the
    whole pipeline (a credential, a truthy task id, a payload observed
    with status SUCCESS within the budget, at least one valid track) and
    leaves: status "complete", the task id, an audio artifact for the
    first track, an audio artifact for the second track or None when there
    is none, a cover artifact or None when the first track has no image
    URL, the first track's title (or "Untitled"), tags and lyrics (or ""),
    and the summary built from the tracks. *)
Theorem process_success_outputs w st st' :
  _process w st = (Ok tt, st') ->
  exists key task_id attempt payload track1 others,
    get_secret w API_KEY_NAME = Some key
    /\ truthy task_id = true
    /\ (attempt < 36)%nat
    /\ succeeded (requests_get_status w attempt) = Some payload
    /\ _extract_track_data payload = Ok (track1 :: others)
    /\ output st' "status" = Some (OVal (PStr "complete"))
    /\ output st' "task_id" = Some (OVal task_id)
    /\ (exists a, output st' "audio_track_1" = Some (OAudio a))
    /\ match others with
       | [] => output st' "audio_track_2" = Some (OVal PNone)
       | _ :: _ => exists a, output st' "audio_track_2" = Some (OAudio a)
       end
    /\ (if truthy (tr_image_url track1)
        then exists a, output st' "cover_image" = Some (OImage a)
        else output st' "cover_image" = Some (OVal PNone))
    /\ output st' "generated_title"
       = Some (OVal (py_or (tr_title track1) (PStr "Untitled")))
    /\ output st' "tags" = Some (OVal (py_or (tr_tags track1) (PStr "")))
    /\ output st' "lyrics" = Some (OVal (py_or (tr_prompt track1) (PStr "")))
    /\ exists lines,
         build_result_lines w task_id track1 (track1 :: others) = Ok lines
         /\ output st' "result_details" = Some (OVal (PStr (join newline lines))).
Proof.
  rewrite process_start, set_safe_defaults_run. cbn [snd].
  unfold try_except.
  match goal with
  | |- context [process_body w ?s0] =>
      destruct (process_body w s0) as [[[]|e] s9] eqn:Hbody
  end.
  2:{ destruct (process_handler_run s9 e) as (s10 & -> & _). discriminate. }
  intros [= <-]. unfold process_body in Hbody.
  apply bind_inv_ok in Hbody as (key & s1 & Hv & Hbody).
  match type of Hv with
  | _validate_api_key w ?s0 = _ =>
      pose proof (quiet_validate_api_key w s0) as Hq1; rewrite Hv in Hq1
  end.
  apply validate_api_key_ok in Hv as (Hsecret & _).
  apply bind_inv_ok in Hbody as ([] & s2 & He & Hbody). injection He as <-.
  apply bind_inv_ok in Hbody as (resp & s3 & Hs & Hbody).
  match type of Hs with
  | _submit_task w key ?s0 = _ =>
      pose proof (quiet_submit_task w key s0) as Hq3; rewrite Hs in Hq3
  end.
  clear Hs.
  apply bind_inv_ok in Hbody as (data & s4 & Hd & Hbody).
  unfold lift in Hd. injection Hd as _ <-.
  apply bind_inv_ok in Hbody as (task_id & s5 & Ht & Hbody).
  unfold lift in Ht. injection Ht as _ <-.
  destruct (truthy task_id) eqn:Htruthy; [|discriminate].
  cbn [negb] in Hbody. unfold process_generation in Hbody.
  apply bind_inv_ok in Hbody as ([] & s6 & Ho & Hbody). injection Ho as <-.
  apply bind_inv_ok in Hbody as ([] & s7 & He & Hbody). injection He as <-.
  apply bind_inv_ok in Hbody as (payload & s8 & Hp & Hbody).
  match type of Hp with
  | _poll_for_completion w task_id key ?s0 = _ =>
      pose proof (quiet_poll_for_completion w task_id key s0) as Hq8;
      destruct (poll_loop_shape w task_id key (seq 0 MAX_POLLING_ATTEMPTS) s0)
        as (_ & _ & _ & _ & _ & Hret)
  end.
  unfold _poll_for_completion in Hp. rewrite Hp in Hret.
  destruct (Hret payload eq_refl) as (attempt & Hin & Hsucc).
  apply in_seq in Hin. unfold MAX_POLLING_ATTEMPTS in Hin.
  fold (_poll_for_completion w task_id key) in Hp. rewrite Hp in Hq8. clear Hp Hret.
  apply bind_inv_ok in Hbody as (tracks & s10 & Hx & Hbody).
  unfold lift in Hx. injection Hx as Hx <-.
  apply process_tracks_ok in Hbody
    as (track1 & others & -> & H1 & H2 & H3 & H4 & H5 & H6 & H7 & H8 & H9).
  cbn [snd self trace] in *.
  assert (Hout : forall slot, output s8 slot
            = (<["task_id" := OVal task_id]>
                 (parameter_output_values (self s3))) !! slot).
  { intros slot. unfold output. rewrite Hq8. reflexivity. }
  exists key, task_id, attempt, payload, track1, others.
  split; [exact Hsecret|]. split; [exact Htruthy|]. split; [lia|].
  split; [exact Hsucc|]. split; [exact Hx|]. split; [exact H1|].
  rewrite Hq3, Hq1 in Hout. cbn [self parameter_output_values] in Hout.
  split; [rewrite H8, Hout; by simplify_map_eq|]. split; [exact H2|].
  split.
  { destruct others; [|exact H3]. rewrite H3, Hout. by simplify_map_eq. }
  split.
  { destruct (truthy (tr_image_url track1)); [exact H4|].
    rewrite H4, Hout. by simplify_map_eq. }
  split; [exact H5|]. split; [exact H6|]. split; [exact H7|]. exact H9.
Qed.

Lemma process_success_outputs_witness :
  exists st',
    _process Sample.end_to_end Sample.start = (Ok tt, st')
    /\ output st' "status" = Some (OVal (PStr "complete"))
    /\ exists a, output st' "audio_track_1" = Some (OAudio a).
Proof.
  exists (snd (_process Sample.end_to_end Sample.start)).
  assert (Hrun : _process Sample.end_to_end Sample.start
                 = (Ok tt, snd (_process Sample.end_to_end Sample.start)))
    by (vm_compute; reflexivity).
  split; [exact Hrun|].
  destruct (process_success_outputs _ _ _ Hrun)
    as (key & task_id & attempt & payload & track1 & others
        & _ & _ & _ & _ & _ & Hstatus & _ & Haudio & _).
  split; [exact Hstatus|exact Haudio].
Defined.

Lemma process_without_tracks_witness :
  exists st',
    _process Sample.no_valid_tracks Sample.start
    = (Raise (Exn RuntimeError ("Suno" +:+ ": No tracks in completed response")), st')
    /\ failure_baseline st' "ERROR: No tracks in completed response"
    /\ downloads (trace st') = downloads []
    /\ stored (trace st') = stored [].
Proof.
  apply (process_without_tracks Sample.no_valid_tracks Sample.start
           "key" (PStr "abc123") 0 Sample.silent_payload).
  - reflexivity.
  - lia.
  - intros i Hi. lia.
  - reflexivity.
  - reflexivity.
Defined.

Lemma process_downloads_in_order_witness :
  downloads (trace (snd (_process Sample.end_to_end Sample.start)))
  = [] ++ [PStr "https://cdn.example/a1.mp3"; PStr "https://cdn.example/a1.jpeg";
           PStr "https://cdn.example/a2.mp3"].
Proof.
  apply (process_downloads_in_order Sample.end_to_end Sample.start
           "key" (PStr "abc123") 1 Sample.sung_payload
           [track_of_fields
              [("audioUrl", PStr "https://cdn.example/a1.mp3");
               ("imageUrl", PStr "https://cdn.example/a1.jpeg");
               ("title", PStr "Calm"); ("duration", PInt 198);
               ("tags", PStr "piano"); ("prompt", PStr "la la");
               ("modelName", PStr "chirp-v5")];
            track_of_fields
              [("audioUrl", PStr "https://cdn.example/a2.mp3");
               ("duration", PInt 201)]]).
  - reflexivity.
  - lia.
  - intros i Hi. destruct i; [reflexivity|lia].
  - reflexivity.
  - reflexivity.
Defined.

(** *** Ends of the polling loop *)

(** The loop stops with the error of the first attempt that raises. *)
Lemma poll_loop_raises_at w task_id api_key st k e :
  (k < MAX_POLLING_ATTEMPTS)%nat ->
  (forall i, (i < k)%nat -> continues (requests_get_status w i) = true) ->
  (forall s, exists evs0,
     poll_attempt w task_id api_key k s
     = (Raise e, State (self s) (trace s ++ poll_calls task_id api_key ++ evs0))
     /\ List.filter is_poll_call evs0 = []) ->
  exists evs,
    _poll_for_completion w task_id api_key st
    = (Raise e, State (self st) (trace st ++ evs))
    /\ List.filter is_poll_call evs = poll_calls_n task_id api_key (S k)
    /\ status_queries evs = S k.
Proof.
  intros Hk Hcont Hraise. unfold _poll_for_completion.
  replace MAX_POLLING_ATTEMPTS with (k + S (MAX_POLLING_ATTEMPTS - S k))%nat by lia.
  destruct (poll_loop_skip w task_id api_key k O (S (MAX_POLLING_ATTEMPTS - S k)) st)
    as (evs0 & Hskip & Hf0); [exact Hcont|].
  rewrite Hskip. cbn [Nat.add seq poll_loop].
  destruct (Hraise (State (self st) (trace st ++ evs0))) as (evs1 & Hrun & Hf1).
  rewrite (bind_raise _ _ _ _ _ Hrun). cbn [self trace].
  exists (evs0 ++ poll_calls task_id api_key ++ evs1).
  assert (Hf : List.filter is_poll_call (evs0 ++ poll_calls task_id api_key ++ evs1)
               = poll_calls_n task_id api_key (S k)).
  { rewrite !List.filter_app, Hf0, Hf1, app_nil_r. apply poll_calls_n_snoc. }
  split; [rewrite <- app_assoc; reflexivity|]. split; [exact Hf|].
  rewrite <- status_queries_filter, Hf. apply status_queries_poll_calls_n.
Qed.

(** X8. When the replies before attempt [k < 36] let the loop continue
    and the reply at [k] is observed with one of the four failure statuses
    (CREATE_TASK_FAILED, GENERATE_AUDIO_FAILED, CALLBACK_EXCEPTION,
    SENSITIVE_WORD_ERROR), the loop raises "Generation failed: " followed
    by [data.errorMessage], or by "Task failed with status: " and the
    status when the reply has no such key, after exactly [k + 1] queries. *)
Theorem poll_generation_failure w task_id api_key st k msg :
  (k < 36)%nat ->
  (forall i, (i < k)%nat -> continues (requests_get_status w i) = true) ->
  generation_error w (requests_get_status w k) = Some msg ->
  exists evs,
    _poll_for_completion w task_id api_key st
    = (Raise (Exn RuntimeError ("Generation failed: " +:+ msg)),
       State (self st) (trace st ++ evs))
    /\ List.filter is_poll_call evs = poll_calls_n task_id api_key (S k)
    /\ status_queries evs = S k.
Proof.
  intros Hk Hcont Herr. apply poll_loop_raises_at; [exact Hk|exact Hcont|].
  intros s. unfold generation_error in Herr.
  destruct (observation (requests_get_status w k)) as [[payload status]|] eqn:Hobs;
    [|discriminate].
  rewrite (poll_attempt_observed _ _ _ _ _ _ _ Hobs). cbn zeta.
  destruct payload as [| | | | | |sd]; try discriminate.
  destruct (eq_str status "SUCCESS"); [discriminate|]. cbn [negb andb] in Herr.
  destruct (in_strs status FAILED_STATUSES); [|discriminate].
  destruct (default (PDict []) (dict_lookup "data" sd)) as [| | | | | |d];
    try discriminate.
  injection Herr as <-. eexists [_]. split; reflexivity.
Qed.

Lemma poll_generation_failure_witness :
  fst (_poll_for_completion (Sample.failing Sample.failed_with_reason)
         (PStr "abc123") "key" Sample.start)
  = Raise (Exn RuntimeError
             ("Generation failed: " +:+ "Lyrics contain prohibited words"))
  /\ fst (_poll_for_completion (Sample.failing Sample.failed_without_reason)
            (PStr "abc123") "key" Sample.start)
     = Raise (Exn RuntimeError
                ("Generation failed: " +:+
                 "Task failed with status: GENERATE_AUDIO_FAILED")).
Proof.
  split.
  - destruct (poll_generation_failure (Sample.failing Sample.failed_with_reason)
                (PStr "abc123") "key" Sample.start 1
                "Lyrics contain prohibited words") as (evs & -> & _).
    + lia.
    + intros i Hi. destruct i; [reflexivity|lia].
    + reflexivity.
    + reflexivity.
  - destruct (poll_generation_failure (Sample.failing Sample.failed_without_reason)
                (PStr "abc123") "key" Sample.start 1
                "Task failed with status: GENERATE_AUDIO_FAILED") as (evs & -> & _).
    + lia.
    + intros i Hi. destruct i; [reflexivity|lia].
    + reflexivity.
    + reflexivity.
Defined.

(** X10. A reply with envelope code 200 whose [data] is present but is
    no object (a JSON null, string, number or list) is not retried: the
    [data.get] of the loop raises an [AttributeError], which is no request
    error, and the loop ends with it on that attempt. *)
Theorem poll_malformed_data w task_id api_key st k data :
  (k < 36)%nat ->
  (forall i, (i < k)%nat -> continues (requests_get_status w i) = true) ->
  malformed_data (requests_get_status w k) = Some data ->
  exists evs,
    _poll_for_completion w task_id api_key st
    = (Raise (Exn AttributeError
         ("'" +:+ type_name data +:+ "' object has no attribute 'get'")),
       State (self st) (trace st ++ evs))
    /\ status_queries evs = S k.
Proof.
  intros Hk Hcont Hdata.
  destruct (poll_loop_raises_at w task_id api_key st k
              (Exn AttributeError
                 ("'" +:+ type_name data +:+ "' object has no attribute 'get'"))
              Hk Hcont) as (evs & Hrun & _ & Hq); [|eauto].
  intros s. exists []. split; [|reflexivity].
  unfold malformed_data, http_ok in Hdata. unfold poll_attempt. run.
  destruct (requests_get_status w k) as [resp|e]; [|discriminate].
  destruct ((400 <=? status_code resp) && (status_code resp <? 600)); [discriminate|].
  cbn in *. destruct (json resp) as [[| | | | |l|sd]|e]; try discriminate.
  cbn. destruct (eq_int _ 200); [|discriminate].
  destruct (dict_lookup "data" sd) as [v|]; [|discriminate].
  destruct v; try discriminate; injection Hdata as <-;
    cbn; rewrite ?app_nil_r, <- ?app_assoc; reflexivity.
Qed.

Lemma poll_malformed_data_witness :
  fst (_poll_for_completion (Sample.failing PNone) (PStr "abc123") "key" Sample.start)
  = Raise (Exn AttributeError "'NoneType' object has no attribute 'get'").
Proof.
  destruct (poll_malformed_data (Sample.failing PNone) (PStr "abc123") "key"
              Sample.start 1 PNone) as (evs & -> & _).
  - lia.
  - intros i Hi. destruct i; [reflexivity|lia].
  - reflexivity.
  - reflexivity.
Defined.

Lemma poll_attempt_raises w task_id api_key attempt st e :
  fst (poll_attempt w task_id api_key attempt st) = Raise e ->
  is_RequestException (exc_type e) = false.
Proof.
  unfold poll_attempt. unfold bind at 1. unfold emit at 1. unfold try_except.
  match goal with
  | |- context [let (_, _) := ?body ?s in _] => destruct (body s) as [[a|e0] s1]
  end; [discriminate|].
  destruct (is_RequestException (exc_type e0)) eqn:He0; [discriminate|].
  intros [= <-]. exact He0.
Qed.

(** X9. No request error ever leaves the polling loop: whatever
    [_poll_for_completion] raises (the timeout, a generation failure, an
    envelope error, an error on the shape of the reply) is no
    [RequestException]. *)
Theorem poll_never_raises_request_error w task_id api_key st e :
  fst (_poll_for_completion w task_id api_key st) = Raise e ->
  is_RequestException (exc_type e) = false.
Proof.
  unfold _poll_for_completion. generalize (seq 0 MAX_POLLING_ATTEMPTS). intros l.
  revert st. induction l as [|a l IH]; intros st; cbn [poll_loop].
  - intros [= <-]. reflexivity.
  - unfold bind.
    pose proof (poll_attempt_raises w task_id api_key a st) as Ha.
    destruct (poll_attempt w task_id api_key a st) as [[[payload|]|e0] st1];
      cbn [fst] in *.
    + discriminate.
    + apply IH.
    + intros [= <-]. apply Ha. reflexivity.
Qed.

Lemma poll_never_raises_request_error_witness :
  is_RequestException
    (exc_type (Exn RuntimeError "API returned error: Unauthorized")) = false.
Proof.
  exact (poll_never_raises_request_error Sample.rejecting (PStr "abc123") "key"
           Sample.start _ eq_refl).
Defined.

(** *** More on the extraction of tracks *)

(** X11. When [data], [data.response] and [data.response.sunoData] have
    the expected shapes and every entry of the list is an object,
    [_extract_track_data] returns the records of exactly the entries whose
    [audioUrl] is truthy, in the order of the list; each record holds the
    seven fields of its entry, [None] where the entry lacks one. *)
Theorem extract_keeps_valid_entries_in_order fields d r entries :
  default (PDict []) (dict_lookup "data" fields) = PDict d ->
  default (PDict []) (dict_lookup "response" d) = PDict r ->
  default (PList []) (dict_lookup "sunoData" r) = PList (map PDict entries) ->
  _extract_track_data (PDict fields)
  = Ok (map track_of_fields (List.filter has_audio_url entries)).
Proof. apply extract_track_data_objects. Qed.

Lemma extract_keeps_valid_entries_in_order_witness :
  _extract_track_data Sample.one_of_two_payload
  = Ok [track_of_fields [("audioUrl", PStr "https://cdn.example/a1.mp3");
                         ("title", PStr "Calm")]].
Proof.
  exact (extract_keeps_valid_entries_in_order
           (match Sample.one_of_two_payload with PDict f => f | _ => [] end)
           _ _
           [[("audioUrl", PStr "https://cdn.example/a1.mp3"); ("title", PStr "Calm")];
            [("title", PStr "Calm")]]
           eq_refl eq_refl eq_refl).
Defined.

Lemma extract_items_audio items : forall tracks result,
  extract_items items tracks = Ok result ->
  Forall (fun t => truthy (tr_audio_url t) = true) tracks ->
  Forall (fun t => truthy (tr_audio_url t) = true) result
  /\ (length result <= length tracks + length items)%nat.
Proof.
  induction items as [|item items IH]; intros tracks result; cbn [extract_items].
  - intros [= <-] H. split; [exact H|cbn; lia].
  - destruct (track_of_item item) as [t|e]; [|discriminate].
    destruct (truthy (tr_audio_url t)) eqn:Ht; intros Hrun Hall.
    + destruct (IH _ _ Hrun) as (H1 & H2).
      { apply Forall_app. split; [exact Hall|]. constructor; [exact Ht|constructor]. }
      split; [exact H1|]. rewrite length_app in H2. cbn in *. lia.
    + destruct (IH _ _ Hrun Hall) as (H1 & H2). split; [exact H1|cbn; lia].
Qed.

(** X12. Whatever the payload, every track [_extract_track_data]
    returns has a truthy audio URL: the first track that [_process] hands
    to the download always carries one. *)
Theorem extract_tracks_have_audio payload tracks :
  _extract_track_data payload = Ok tracks ->
  Forall (fun t => truthy (tr_audio_url t) = true) tracks.
Proof.
  unfold _extract_track_data.
  destruct (py_get payload "data" (PDict [])) as [data|e]; [|discriminate].
  destruct (negb (is_dict data)); [intros [= <-]; constructor|].
  destruct (py_get data "response" (PDict [])) as [response|e]; [|discriminate].
  destruct (negb (is_dict response)); [intros [= <-]; constructor|].
  destruct (py_get response "sunoData" (PList [])) as [suno_data|e]; [|discriminate].
  destruct suno_data as [| | | | |items|]; try (intros [= <-]; constructor).
  intros Hrun. apply (extract_items_audio items [] tracks Hrun). constructor.
Qed.

Lemma extract_tracks_have_audio_witness :
  Forall (fun t => truthy (tr_audio_url t) = true)
    [track_of_fields [("audioUrl", PStr "https://cdn.example/a1.mp3");
                      ("title", PStr "Calm")]].
Proof.
  exact (extract_tracks_have_audio Sample.one_of_two_payload _ eq_refl).
Defined.

(** X13. Defensive parsing of the three outer levels: a payload object
    whose [data] is no object, whose [data.response] is no object, or whose
    [data.response.sunoData] is no list gives the empty list of tracks, an
    absent key counting as an empty object or list; a payload that is
    itself no object makes the first [.get] raise. *)
Theorem extract_degrades_on_outer_levels fields :
  let data := default (PDict []) (dict_lookup "data" fields) in
  (is_dict data = false -> _extract_track_data (PDict fields) = Ok [])
  /\ (forall d,
        data = PDict d ->
        is_dict (default (PDict []) (dict_lookup "response" d)) = false ->
        _extract_track_data (PDict fields) = Ok [])
  /\ (forall d r,
        data = PDict d ->
        default (PDict []) (dict_lookup "response" d) = PDict r ->
        is_list (default (PList []) (dict_lookup "sunoData" r)) = false ->
        _extract_track_data (PDict fields) = Ok [])
  /\ (dict_lookup "data" fields = None -> _extract_track_data (PDict fields) = Ok [])
  /\ (forall payload, is_dict payload = false -> raises (_extract_track_data payload)).
Proof.
  pose proof (extract_track_data_levels fields) as H. cbn zeta in *.
  split; [|split; [|split; [|split]]].
  - intros Hd. destruct (default (PDict []) (dict_lookup "data" fields));
      try exact H; discriminate.
  - intros d Hd Hr. rewrite Hd in H.
    destruct (default (PDict []) (dict_lookup "response" d)); try exact H; discriminate.
  - intros d r Hd Hr Hs. rewrite Hd, Hr in H.
    destruct (default (PList []) (dict_lookup "sunoData" r)); try exact H; discriminate.
  - intros Hnone. rewrite Hnone in H. exact H.
  - intros payload Hp. destruct payload; try exact I. discriminate.
Qed.

Lemma extract_degrades_on_outer_levels_witness :
  _extract_track_data (PDict [("code", PInt 200); ("data", PNone)]) = Ok []
  /\ _extract_track_data
       (PDict [("data", PDict [("response", PDict [("sunoData", PStr "none")])])])
     = Ok []
  /\ raises (_extract_track_data (PList [])).
Proof.
  split; [|split].
  - exact (proj1 (extract_degrades_on_outer_levels
                    [("code", PInt 200); ("data", PNone)]) eq_refl).
  - exact (proj1 (proj2 (proj2 (extract_degrades_on_outer_levels
             [("data", PDict [("response", PDict [("sunoData", PStr "none")])])])))
             _ _ eq_refl eq_refl eq_refl).
  - exact (proj2 (proj2 (proj2 (proj2 (extract_degrades_on_outer_levels []))))
             (PList []) eq_refl).
Defined.

(** *** More on materialization *)

(** X14. [_download_bytes_from_url] never raises, whatever the class of
    the exception [requests.get] or [raise_for_status] raises: it makes one
    [GET] of the URL with a timeout of 120 seconds, leaves the node alone,
    and returns [None] when the call raised or the reply has an error
    status (400 to 599) and the body of the reply otherwise. *)
Theorem download_bytes_never_raises w url st :
  exists data,
    _download_bytes_from_url w url st
    = (Ok data, State (self st) (trace st ++ [EDownload url 120]))
    /\ match requests_get w (length (trace st)) url with
       | Raise _ => data = None
       | Ok resp =>
           if (400 <=? status_code resp) && (status_code resp <? 600)
           then data = None
           else data = Some (content resp)
       end.
Proof.
  exists (downloaded w (now st) url). split; [apply download_bytes_run|].
  unfold downloaded, http_ok, now.
  destruct (requests_get w (length (trace st)) url) as [resp|e]; [|reflexivity].
  destruct ((400 <=? status_code resp) && (status_code resp <? 600)); reflexivity.
Qed.

Lemma stored_save_calls w t url filename :
  stored (save_calls w t url filename)
  = match downloaded w t url with
    | Some (b :: data) => [(b :: data, filename)]
    | Some [] | None => []
    end.
Proof. unfold save_calls. destruct (downloaded w t url) as [[|b data]|]; reflexivity. Qed.

(** X15. A materialization leaves the node alone and makes at most three
    calls: one download of the URL, then, only when it gave at least one
    byte, one reading of the clock and one call to the storage with exactly
    these bytes, under "suno_track<index>_<time>.mp3" for audio and
    "suno_cover_<time>.jpeg" for an image; the two kinds of names never
    coincide. *)
Theorem save_from_url_calls w url track_index st :
  let t := length (trace st) in
  let audio_name :=
    "suno_track" +:+ str_of_int track_index +:+ "_"
    +:+ str_of_int (time_time w (t + 1)) +:+ ".mp3" in
  let image_name := "suno_cover_" +:+ str_of_int (time_time w (t + 1)) +:+ ".jpeg" in
  (exists evs,
     snd (_save_audio_from_url w url track_index st)
     = State (self st) (trace st ++ evs)
     /\ downloads evs = [url]
     /\ forallb is_materialization evs = true
     /\ stored evs = match downloaded w t url with
                     | Some (b :: data) => [(b :: data, audio_name)]
                     | Some [] | None => []
                     end)
  /\ (exists evs,
        snd (_save_image_from_url w url st) = State (self st) (trace st ++ evs)
        /\ downloads evs = [url]
        /\ forallb is_materialization evs = true
        /\ stored evs = match downloaded w t url with
                        | Some (b :: data) => [(b :: data, image_name)]
                        | Some [] | None => []
                        end)
  /\ audio_name <> image_name.
Proof.
  cbn zeta. split; [|split].
  - rewrite save_audio_run. eexists. split; [reflexivity|].
    rewrite downloads_save_calls, materialization_save_calls, stored_save_calls. done.
  - rewrite save_image_run. eexists. split; [reflexivity|].
    rewrite downloads_save_calls, materialization_save_calls, stored_save_calls. done.
  - lazy beta iota delta [String.append]. discriminate.
Qed.

(** *** More on validation *)

Lemma violations_nil (c1 c2 c3 c4 c5 c6 : bool) (e1 e2 e3 e4 e5 e6 : exn) :
  violation c1 e1 ++ violation c2 e2 ++ violation c3 e3 ++ violation c4 e4
  ++ violation c5 e5 ++ violation c6 e6 = []
  <-> c1 || c2 || c3 || c4 || c5 || c6 = false.
Proof. destruct c1, c2, c3, c4, c5, c6; cbn; split; congruence. Qed.

(** The length test of the code, [if text and len(text) > limit], fails
    exactly when the text is within the limit. *)
Lemma within_limit text limit :
  0 <= limit ->
  str_truthy text && (limit <? len text) = negb (len text <=? limit).
Proof.
  intros Hl. destruct (str_truthy text) eqn:Ht; cbn [andb].
  - apply Z.ltb_antisym.
  - rewrite (len_not_truthy text Ht). symmetry. apply negb_false_iff, Z.leb_le, Hl.
Qed.

(** The requests that pass the validation. *)
Lemma validation_accepts self :
  let p := params self in
  validate_before_node_run self = None
  <-> (if flag (custom_mode p)
       then custom_rules (str_or_empty (style p)) (str_or_empty (title p))
              (str_or_empty (prompt p)) (flag (instrumental p)) (model p)
       else simple_rules (str_or_empty (prompt p))) = true.
Proof.
  cbn zeta. rewrite validate_none_iff.
  destruct (flag (custom_mode (params self))) eqn:Hmode.
  - rewrite (validate_custom_mode self Hmode). cbn zeta. rewrite violations_nil.
    unfold custom_rules.
    pose proof (prompt_limit_bounds (model (params self))) as Hp.
    pose proof (style_limit_bounds (model (params self))) as Hs.
    rewrite !within_limit by lia.
    destruct (blank (str_or_empty (style (params self))));
      destruct (blank (str_or_empty (title (params self))));
      destruct (flag (instrumental (params self)));
      destruct (blank (str_or_empty (prompt (params self))));
      destruct (len (str_or_empty (prompt (params self))) <=? _);
      destruct (len (str_or_empty (style (params self))) <=? _);
      destruct (len (str_or_empty (title (params self))) <=? 80);
      cbn; split; congruence.
  - rewrite (validate_simple_mode self Hmode). cbn zeta. unfold simple_rules.
    rewrite Z.ltb_antisym.
    destruct (blank (str_or_empty (prompt (params self))));
      destruct (len (str_or_empty (prompt (params self))) <=? 500);
      cbn; split; congruence.
Qed.


(** X1. [validate_before_node_run] returns [None] exactly for the
    requests that satisfy every rule of their mode.  Custom mode: style and
    title not blank after trimming, prompt not blank unless instrumental,
    prompt and style within the limits of the model (the limits of V3_5
    when the model is not in the tables), title within 80 characters.
    Simple mode: prompt not blank and within 500 characters. *)
Theorem validation_accepts_iff self :
  let p := params self in
  validate_before_node_run self = None
  <-> (if flag (custom_mode p)
       then custom_rules (str_or_empty (style p)) (str_or_empty (title p))
              (str_or_empty (prompt p)) (flag (instrumental p)) (model p)
       else simple_rules (str_or_empty (prompt p))) = true.
Proof. apply validation_accepts. Qed.

(** X2. Bounds that hold for every value of the model parameter, known,
    unknown or unset.  In custom mode a request with a style and a title
    that are not blank, a prompt that is not blank (or the instrumental
    flag), at most 3000 characters of prompt, 200 of style and 80 of title
    is always accepted; a request with more than 5000 characters of
    prompt, 1000 of style or 80 of title is always refused. *)
Theorem validation_bounds self :
  let p := params self in
  let style := str_or_empty (style p) in
  let title := str_or_empty (title p) in
  let prompt := str_or_empty (prompt p) in
  flag (custom_mode p) = true ->
  (blank style = false -> blank title = false ->
   flag (instrumental p) || negb (blank prompt) = true ->
   len prompt <= 3000 -> len style <= 200 -> len title <= 80 ->
   validate_before_node_run self = None)
  /\ (5000 < len prompt \/ 1000 < len style \/ 80 < len title ->
      validate_before_node_run self <> None).
Proof.
  cbn zeta. intros Hmode.
  pose proof (validation_accepts self) as Hiff. cbn zeta in Hiff.
  rewrite Hmode in Hiff. unfold custom_rules in Hiff.
  pose proof (prompt_limit_bounds (model (params self))) as Hp.
  pose proof (style_limit_bounds (model (params self))) as Hs.
  split.
  - intros H1 H2 H3 H4 H5 H6. apply Hiff. rewrite H1, H2, H3. cbn [negb andb].
    rewrite !andb_true_iff, !Z.leb_le. lia.
  - intros Hlong Hnone. apply Hiff in Hnone.
    rewrite !andb_true_iff, !Z.leb_le in Hnone. lia.
Qed.

Lemma validation_bounds_witness :
  validate_before_node_run Sample.custom_instrumental = None.
Proof.
  apply (proj1 (validation_bounds Sample.custom_instrumental eq_refl)).
  - reflexivity.
  - reflexivity.
  - reflexivity.
  - vm_compute. discriminate.
  - vm_compute. discriminate.
  - vm_compute. discriminate.
Defined.

Lemma validation_accepts_iff_witness :
  validate_before_node_run Sample.sample_node = None
  /\ simple_rules "a calm piano tune" = true.
Proof.
  split; [|reflexivity].
  exact (proj2 (validation_accepts_iff Sample.sample_node) eq_refl).
Defined.

(** *** Trimming *)

Lemma lstrip_head s :
  lstrip s = EmptyString
  \/ exists c r, lstrip s = String c r /\ isspace c = false.
Proof.
  induction s as [|c s IH]; cbn [lstrip]; [left; reflexivity|].
  destruct (isspace c) eqn:Hc; [exact IH|]. right. exists c, s. done.
Qed.

Lemma lstrip_nonspace c r : isspace c = false -> lstrip (String c r) = String c r.
Proof. intros Hc. cbn [lstrip]. rewrite Hc. reflexivity. Qed.

Lemma rstrip_nonspace c r :
  isspace c = false -> exists r', rstrip (String c r) = String c r'.
Proof.
  intros Hc. cbn [rstrip]. destruct (rstrip r) as [|c' r'].
  - rewrite Hc. eauto.
  - eauto.
Qed.

Lemma rstrip_idempotent s : rstrip (rstrip s) = rstrip s.
Proof.
  induction s as [|c s IH]; [reflexivity|]. cbn [rstrip].
  destruct (rstrip s) as [|c' r'] eqn:Hr.
  - destruct (isspace c) eqn:Hc; [reflexivity|]. cbn [rstrip]. rewrite Hc. reflexivity.
  - change (rstrip (String c (String c' r'))) with
      (match rstrip (String c' r') with
       | EmptyString => if isspace c then EmptyString else String c EmptyString
       | String a b => String c (String a b)
       end).
    rewrite IH. reflexivity.
Qed.

Lemma lstrip_length s : (String.length (lstrip s) <= String.length s)%nat.
Proof.
  induction s as [|c s IH]; cbn [lstrip]; [lia|].
  destruct (isspace c); cbn [String.length]; lia.
Qed.

Lemma rstrip_length s : (String.length (rstrip s) <= String.length s)%nat.
Proof.
  induction s as [|c s IH]; cbn [rstrip]; [lia|].
  destruct (rstrip s) as [|c' r']; [destruct (isspace c)|]; cbn [String.length] in *; lia.
Qed.

(** Nothing is left to trim on either side of a trimmed string, which is
    no longer than the string it comes from. *)
Lemma strip_trimmed s :
  lstrip (strip s) = strip s /\ rstrip (strip s) = strip s
  /\ strip (strip s) = strip s /\ len (strip s) <= len s.
Proof.
  assert (Hl : lstrip (strip s) = strip s).
  { unfold strip. destruct (lstrip_head s) as [->|(c & r & -> & Hc)]; [reflexivity|].
    destruct (rstrip_nonspace c r Hc) as (r' & ->). apply lstrip_nonspace, Hc. }
  assert (Hr : rstrip (strip s) = strip s) by apply rstrip_idempotent.
  split; [exact Hl|]. split; [exact Hr|]. split.
  - unfold strip at 1. rewrite Hl. exact Hr.
  - unfold len, strip. pose proof (rstrip_length (lstrip s)). pose proof (lstrip_length s).
    lia.
Qed.

(** *** More on the request payload *)

(** Resolves the lookup of a literal key in the payload under
    construction, by cases on the tests of [_build_payload]. *)
Ltac payload_lookup :=
  unfold _build_payload, blank; cbn zeta;
  rewrite ?dict_lookup_add_weight;
  cbn [String.eqb Ascii.eqb Bool.eqb andb];
  repeat match goal with
         | |- context [str_truthy ?s] => destruct (str_truthy s)
         | |- context [flag ?b] => destruct (flag b)
         | |- context [String.eqb ?g "auto"] => destruct (String.eqb g "auto")
         | |- context [match ?x with Some _ => _ | None => _ end] => destruct x
         end;
  cbn [negb andb]; rewrite ?dict_lookup_set; reflexivity.

(** The optional text keys, one by one. *)
Lemma build_payload_text_keys w self :
  let p := params self in
  let payload := _build_payload w self in
  dict_lookup "prompt" payload
  = (if blank (str_or_empty (prompt p)) then None
     else Some (PStr (strip (str_or_empty (prompt p)))))
  /\ dict_lookup "style" payload
     = (if flag (custom_mode p) && negb (blank (str_or_empty (style p)))
        then Some (PStr (strip (str_or_empty (style p)))) else None)
  /\ dict_lookup "title" payload
     = (if flag (custom_mode p) && negb (blank (str_or_empty (title p)))
        then Some (PStr (strip (str_or_empty (title p)))) else None)
  /\ dict_lookup "negativeTags" payload
     = (if blank (str_or_empty (negative_tags p)) then None
        else Some (PStr (strip (str_or_empty (negative_tags p)))))
  /\ dict_lookup "vocalGender" payload
     = match vocal_gender p with
       | Some g => if str_truthy g && negb (String.eqb g "auto")
                   then Some (PStr g) else None
       | None => None
       end.
Proof.
  cbn zeta. split; [|split; [|split; [|split]]]; payload_lookup.
Qed.


(** X5. The optional text keys of the request.  [prompt] and
    [negativeTags] are sent, trimmed, exactly when they are not blank;
    [style] and [title] are sent, trimmed, exactly when custom mode is on
    and they are not blank, so that simple mode never carries them;
    [vocalGender] is sent as it is exactly when it is set, not empty and
    not "auto". *)
Theorem build_payload_optional_keys w self :
  let p := params self in
  let payload := _build_payload w self in
  dict_lookup "prompt" payload
  = (if blank (str_or_empty (prompt p)) then None
     else Some (PStr (strip (str_or_empty (prompt p)))))
  /\ dict_lookup "style" payload
     = (if flag (custom_mode p) && negb (blank (str_or_empty (style p)))
        then Some (PStr (strip (str_or_empty (style p)))) else None)
  /\ dict_lookup "title" payload
     = (if flag (custom_mode p) && negb (blank (str_or_empty (title p)))
        then Some (PStr (strip (str_or_empty (title p)))) else None)
  /\ dict_lookup "negativeTags" payload
     = (if blank (str_or_empty (negative_tags p)) then None
        else Some (PStr (strip (str_or_empty (negative_tags p)))))
  /\ dict_lookup "vocalGender" payload
     = match vocal_gender p with
       | Some g => if str_truthy g && negb (String.eqb g "auto")
                   then Some (PStr g) else None
       | None => None
       end.
Proof. apply build_payload_text_keys. Qed.

(** Every value sent under one of the four trimmed keys is a non-empty
    string with nothing left to trim. *)
Lemma trimmed_value (c : bool) text v :
  (if c then Some (PStr (strip text)) else None) = Some v ->
  (c = true -> str_truthy (strip text) = true) ->
  exists s, v = PStr s /\ str_truthy s = true /\ lstrip s = s /\ rstrip s = s.
Proof.
  destruct c; [|discriminate]. intros [= <-] Hc. exists (strip text).
  destruct (strip_trimmed text) as (Hl & Hr & _). auto.
Qed.

(** X6. All string fields are trimmed before inclusion: a value found in
    the payload under [prompt], [style], [title] or [negativeTags] is a
    string that is not empty and has no white space left at either end. *)
Theorem build_payload_strings_trimmed w self key v :
  In key ["prompt"; "style"; "title"; "negativeTags"] ->
  dict_lookup key (_build_payload w self) = Some v ->
  exists s, v = PStr s /\ str_truthy s = true /\ lstrip s = s /\ rstrip s = s.
Proof.
  destruct (build_payload_text_keys w self) as (H1 & H2 & H3 & H4 & _).
  cbn zeta in *. unfold blank in *.
  intros [<-|[<-|[<-|[<-|[]]]]] Hv.
  - rewrite H1 in Hv.
    destruct (str_truthy (strip (str_or_empty (prompt (params self))))) eqn:Ht;
      [|discriminate].
    apply (trimmed_value true _ _ Hv). intros _. exact Ht.
  - rewrite H2 in Hv.
    destruct (str_truthy (strip (str_or_empty (style (params self))))) eqn:Ht;
      [|rewrite andb_false_r in Hv; discriminate].
    apply (trimmed_value _ _ _ Hv). intros _. exact Ht.
  - rewrite H3 in Hv.
    destruct (str_truthy (strip (str_or_empty (title (params self))))) eqn:Ht;
      [|rewrite andb_false_r in Hv; discriminate].
    apply (trimmed_value _ _ _ Hv). intros _. exact Ht.
  - rewrite H4 in Hv.
    destruct (str_truthy (strip (str_or_empty (negative_tags (params self))))) eqn:Ht;
      [|discriminate].
    apply (trimmed_value true _ _ Hv). intros _. exact Ht.
Qed.

Lemma build_payload_strings_trimmed_witness :
  exists s,
    PStr "ambient, slow" = PStr s /\ str_truthy s = true
    /\ lstrip s = s /\ rstrip s = s.
Proof.
  apply (build_payload_strings_trimmed Sample.offline Sample.custom_instrumental
           "style" (PStr "ambient, slow")).
  - right. left. reflexivity.
  - reflexivity.
Defined.

Lemma elem_of_keys_dict_set x k v d :
  x ∈ keys (dict_set k v d) -> x = k \/ x ∈ keys d.
Proof.
  induction d as [|[k0 v0] d IH]; cbn [dict_set keys map fst].
  - intros ->%list_elem_of_singleton. left. reflexivity.
  - destruct (String.eqb k k0); cbn [map fst]; [right; assumption|].
    intros [->|H]%elem_of_cons; [right; left|].
    destruct (IH H) as [->|Hin]; [left; reflexivity|right; right; exact Hin].
Qed.

Lemma NoDup_keys_dict_set k v d : NoDup (keys d) -> NoDup (keys (dict_set k v d)).
Proof.
  induction d as [|[k0 v0] d IH]; cbn [dict_set keys map fst].
  - intros _. apply NoDup_singleton.
  - intros [Hk0 Hd]%NoDup_cons. destruct (String.eqb k k0) eqn:Hk; cbn [map fst].
    + apply NoDup_cons. done.
    + apply NoDup_cons. split; [|apply IH, Hd].
      intros [->|Hin]%elem_of_keys_dict_set; [|exact (Hk0 Hin)].
      rewrite String.eqb_refl in Hk. discriminate.
Qed.

Lemma NoDup_keys_add_weight w k weight d :
  NoDup (keys d) -> NoDup (keys (add_weight w k weight d)).
Proof.
  unfold add_weight. destruct weight as [x|]; [|done].
  destruct (float_truthy x && negb (PrimFloat.eqb x 0.65)); [|done].
  apply NoDup_keys_dict_set.
Qed.

(** The twelve keys a request can carry. *)
Lemma keys_add_weight_subset w k weight d (allowed : list string) :
  k ∈ allowed ->
  (forall x, x ∈ keys d -> x ∈ allowed) ->
  forall x, x ∈ keys (add_weight w k weight d) -> x ∈ allowed.
Proof.
  intros Hk Hd x. unfold add_weight. destruct weight as [y|]; [|apply Hd].
  destruct (float_truthy y && negb (PrimFloat.eqb y 0.65)); [|apply Hd].
  intros [->|H]%elem_of_keys_dict_set; [exact Hk|apply Hd, H].
Qed.

Lemma keys_dict_set_subset k v d (allowed : list string) :
  k ∈ allowed ->
  (forall x, x ∈ keys d -> x ∈ allowed) ->
  forall x, x ∈ keys (dict_set k v d) -> x ∈ allowed.
Proof.
  intros Hk Hd x [->|H]%elem_of_keys_dict_set; [exact Hk|apply Hd, H].
Qed.

(** X4. Every request carries the four required keys: [customMode] and
    [instrumental] with the flags of the node, [model] with its model and
    the callback placeholder under [callBackUrl].  No key occurs twice, and
    every key is one of the twelve of the API. *)
Theorem build_payload_keys w self :
  let p := params self in
  let payload := _build_payload w self in
  dict_lookup "customMode" payload = Some (pyval_of_flag (custom_mode p))
  /\ dict_lookup "instrumental" payload = Some (pyval_of_flag (instrumental p))
  /\ dict_lookup "model" payload = Some (pyval_of_opt_str (model p))
  /\ dict_lookup "callBackUrl" payload = Some (PStr "https://example.com/callback")
  /\ NoDup (keys payload)
  /\ forall k, k ∈ keys payload ->
       k ∈ ["customMode"; "instrumental"; "model"; "callBackUrl"; "prompt";
            "style"; "title"; "negativeTags"; "vocalGender"; "styleWeight";
            "weirdnessConstraint"; "audioWeight"].
Proof.
  cbn zeta. split; [|split; [|split; [|split; [|split]]]];
    [payload_lookup|payload_lookup|payload_lookup|payload_lookup| |].
  - unfold _build_payload. cbn zeta.
    repeat first
      [ apply NoDup_keys_add_weight
      | apply NoDup_keys_dict_set
      | match goal with
        | |- NoDup (keys (match ?x with _ => _ end)) => destruct x
        end ];
      cbn [keys map fst]; apply NoDup_ListNoDup;
      repeat (constructor; [cbn; intuition discriminate|]); constructor.
  - unfold _build_payload. cbn zeta.
    repeat first
      [ apply keys_add_weight_subset; [apply list_elem_of_In; cbn; tauto|]
      | apply keys_dict_set_subset; [apply list_elem_of_In; cbn; tauto|]
      | match goal with
        | |- forall x, x ∈ keys (match ?y with _ => _ end) -> _ => destruct y
        end ];
      cbn [keys map fst]; intros x Hx; apply list_elem_of_In in Hx;
      apply list_elem_of_In; cbn in *; tauto.
Qed.

(** *** Errors of the polling, seen from [_process] *)

(** The outcome of an attempt, and of the loop, depends on the replies
    only, not on the state in which it starts. *)
Lemma poll_attempt_outcome w task_id api_key attempt s1 s2 :
  fst (poll_attempt w task_id api_key attempt s1)
  = fst (poll_attempt w task_id api_key attempt s2).
Proof.
  unfold poll_attempt. run.
  destruct (requests_get_status w attempt) as [resp|e]; cbn.
  2:{ destruct (is_RequestException (exc_type e)); reflexivity. }
  destruct ((400 <=? status_code resp) && (status_code resp <? 600)); cbn; [reflexivity|].
  destruct (json resp) as [sd|e]; cbn.
  2:{ destruct (is_RequestException (exc_type e)); reflexivity. }
  destruct (py_get sd "code" PNone) as [code|e]; cbn.
  2:{ destruct (is_RequestException (exc_type e)); reflexivity. }
  destruct (negb (eq_int code 200)); cbn.
  { destruct (py_get sd "msg" (PStr "Unknown error")) as [m|e]; cbn; [reflexivity|].
    destruct (is_RequestException (exc_type e)); reflexivity. }
  destruct (py_get sd "data" (PDict [])) as [data|e]; cbn.
  2:{ destruct (is_RequestException (exc_type e)); reflexivity. }
  destruct (py_get data "status" (PStr "")) as [status|e]; cbn.
  2:{ destruct (is_RequestException (exc_type e)); reflexivity. }
  destruct (eq_str status "SUCCESS"); cbn; [reflexivity|].
  destruct (in_strs status FAILED_STATUSES); cbn; [|reflexivity].
  destruct (py_get data "errorMessage" _) as [m|e]; cbn; [reflexivity|].
  destruct (is_RequestException (exc_type e)); reflexivity.
Qed.

Lemma poll_outcome w task_id api_key s1 s2 :
  fst (_poll_for_completion w task_id api_key s1)
  = fst (_poll_for_completion w task_id api_key s2).
Proof.
  unfold _poll_for_completion. generalize (seq 0 MAX_POLLING_ATTEMPTS). intros l.
  revert s1 s2. induction l as [|a l IH]; intros s1 s2; cbn [poll_loop]; [reflexivity|].
  unfold bind. pose proof (poll_attempt_outcome w task_id api_key a s1 s2) as Ha.
  destruct (poll_attempt w task_id api_key a s1) as [[[p1|]|e1] t1];
    destruct (poll_attempt w task_id api_key a s2) as [[[p2|]|e2] t2];
    cbn [fst] in Ha; try discriminate; try (injection Ha as <-); try reflexivity.
  apply IH.
Qed.

(** X20. Every error of the polling loop (the timeout, a generation
    failure, an envelope error) ends the run the same way: when the
    submission was accepted and [_poll_for_completion] raises [e],
    [_process] raises [RuntimeError] with the node's name, a colon and the
    message of [e]; the outputs are at the failure baseline, so the
    [task_id] slot is [None] although the job was submitted; nothing was
    downloaded or stored. *)
Theorem process_polling_error w st key task_id e :
  accepted_task w (self st) = Some (key, task_id) ->
  fst (_poll_for_completion w task_id key st) = Raise e ->
  exists st',
    _process w st
    = (Raise (Exn RuntimeError (name (self st) +:+ ": " +:+ exc_str e)), st')
    /\ failure_baseline st' ("ERROR: " +:+ exc_str e)
    /\ output st' "task_id" = Some (OVal PNone)
    /\ downloads (trace st') = downloads (trace st)
    /\ stored (trace st') = stored (trace st).
Proof.
  intros Hacc Hpoll.
  rewrite (process_accepted w st key task_id Hacc).
  unfold process_generation.
  erewrite try_except_bind_ok by reflexivity.
  erewrite try_except_bind_ok by reflexivity. tidy_state.
  match goal with
  | |- context [bind (_poll_for_completion w task_id key) _] =>
      match goal with
      | |- context [try_except _ _ ?s] =>
          destruct (emits_poll_for_completion w task_id key s) as (evs & Ht & Hp);
          pose proof (poll_outcome w task_id key s st) as Hout;
          destruct (_poll_for_completion w task_id key s) as [[p|e0] s1] eqn:Hrun
      end
  end.
  { rewrite Hpoll in Hout. discriminate. }
  rewrite Hpoll in Hout. injection Hout as ->.
  erewrite try_except_bind_raise by exact Hrun.
  destruct (process_handler_run s1 e) as (st' & -> & Hbase & Htr).
  exists st'. split; [f_equal; f_equal; f_equal|].
  { pose proof (quiet_poll_for_completion w task_id key) as Hq.
    match type of Hrun with
    | _ ?s = _ => specialize (Hq s); rewrite Hrun in Hq
    end.
    cbn [snd] in Hq. rewrite Hq. reflexivity. }
  split; [exact Hbase|]. split; [apply Hbase|].
  rewrite Htr. cbn [snd trace] in Ht. rewrite Ht, !downloads_app, !stored_app.
  destruct (downloads_none evs Hp) as (-> & ->). cbn. rewrite !app_nil_r. done.
Qed.

Lemma process_polling_error_witness :
  exists st',
    _process Sample.never_done Sample.start
    = (Raise (Exn RuntimeError
         ("Suno" +:+ ": " +:+
          "Task did not complete within 360 seconds. The task may still be processing - check back with the task_id later.")),
       st')
    /\ output st' "task_id" = Some (OVal PNone).
Proof.
  destruct (process_polling_error Sample.never_done Sample.start "key"
              (PStr "abc123") poll_timeout eq_refl)
    as (st' & Hrun & _ & Hid & _).
  - vm_compute. reflexivity.
  - exists st'. split; [exact Hrun|exact Hid].
Defined.

(** *** The shape of the summary *)

Lemma track_detail_lines_app w tracks : forall i n result_lines,
  exists extra,
    track_detail_lines w i n tracks result_lines = result_lines ++ extra
    /\ (i + Z.of_nat (length tracks) = n + 1 ->
        length extra = (3 * length tracks - 1)%nat).
Proof.
  induction tracks as [|t tracks IH]; intros i n acc; cbn [track_detail_lines].
  - exists []. rewrite app_nil_r. split; [reflexivity|]. cbn. lia.
  - match goal with
    | |- context [track_detail_lines w (i + 1) n tracks ?acc'] =>
        destruct (IH (i + 1) n acc') as (extra & -> & Hlen)
    end.
    destruct (i <? n) eqn:Hi.
    + eexists. rewrite <- !app_assoc. split; [reflexivity|].
      intros Hn. cbn [length app] in *. rewrite ?length_app. cbn [length].
      apply Z.ltb_lt in Hi. rewrite Hlen by lia.
      destruct tracks; cbn [length] in *; lia.
    + eexists. rewrite <- !app_assoc. split; [reflexivity|].
      intros Hn. cbn [length app] in *.
      apply Z.ltb_ge in Hi. destruct tracks; cbn [length] in *; [|lia].
      specialize (Hlen ltac:(lia)). cbn in Hlen.
      destruct extra; [reflexivity|discriminate].
Qed.

Lemma str_prefix_length n s :
  String.length (str_prefix n s) = Nat.min n (String.length s).
Proof.
  unfold str_prefix. revert s. induction n as [|n IH]; intros s.
  - destruct s; reflexivity.
  - destruct s as [|c s]; [reflexivity|]. cbn [substring String.length Nat.min].
    rewrite IH. reflexivity.
Qed.

(** X21. The summary of a run whose first track has lyrics text.  It is
    always built; for [n] tracks it has [7 + 3n] lines: eight header lines,
    two lines per track and an empty line between tracks but not after the
    last; its first line gives the number of tracks and its fourth line
    the lyrics, whole when they have at most 50 characters, cut to their
    first 50 characters and followed by "..." when they have more. *)
Theorem summary_shape w task_id track0 others lyrics :
  tr_prompt track0 = PStr lyrics ->
  exists lines,
    build_result_lines w task_id track0 (track0 :: others) = Ok lines
    /\ length lines = (7 + 3 * length (track0 :: others))%nat
    /\ lines !! 0%nat
       = Some ("✓ Generated " +:+ str_of_int (Z.of_nat (length (track0 :: others)))
               +:+ " track variation(s)")
    /\ lines !! 3%nat
       = Some ("Lyrics: " +:+
               (if 50 <? len lyrics then str_prefix 50 lyrics +:+ "..." else lyrics))
    /\ (50 < len lyrics -> String.length (str_prefix 50 lyrics) = 50%nat).
Proof.
  intros Hprompt. unfold build_result_lines. rewrite Hprompt. cbn [py_len py_prefix].
  assert (Hmin : 50 < len lyrics -> String.length (str_prefix 50 lyrics) = 50%nat).
  { intros Hlong. rewrite str_prefix_length. unfold len in Hlong. lia. }
  destruct (50 <? len lyrics);
    match goal with
    | |- context [track_detail_lines w 1 ?n ?ts ?acc] =>
        destruct (track_detail_lines_app w ts 1 n acc) as (extra & Hlines & Hlen)
    end;
    specialize (Hlen ltac:(lia));
    rewrite Hlines; eexists;
    (split; [reflexivity|]);
    (split; [rewrite length_app, Hlen; cbn [length]; lia|]);
    (split; [reflexivity|]); (split; [reflexivity|exact Hmin]).
Qed.

Lemma summary_shape_witness :
  exists lines,
    build_result_lines Sample.offline (PStr "abc123")
      (track_of_fields [("audioUrl", PStr "u"); ("prompt", PStr "la la")])
      [track_of_fields [("audioUrl", PStr "u"); ("prompt", PStr "la la")]]
    = Ok lines
    /\ length lines = 10%nat
    /\ lines !! 3%nat = Some ("Lyrics: " +:+ "la la").
Proof.
  destruct (summary_shape Sample.offline (PStr "abc123")
              (track_of_fields [("audioUrl", PStr "u"); ("prompt", PStr "la la")])
              [] "la la" eq_refl) as (lines & H1 & H2 & _ & H4 & _).
  exists lines. split; [exact H1|]. split; [exact H2|exact H4].
Defined.

(** *** The shape of the validation errors *)

Lemma in_violation (c : bool) (x e : exn) : In e (violation c x) -> e = x.
Proof. destruct c; cbn; [intros [<-|[]]; reflexivity|intros []]. Qed.

Lemma length_violation (c : bool) (x : exn) : (length (violation c x) <= 1)%nat.
Proof. destruct c; cbn; lia. Qed.

(** X3. Every error [validate_before_node_run] collects is a
    [ValueError] whose message starts with the node's name and a colon, so
    that the host can tell which node refused its inputs; there are at most
    six of them in custom mode and two in simple mode, one per rule. *)
Theorem validation_error_shape self :
  let errors := default [] (validate_before_node_run self) in
  (forall e, In e errors ->
     exc_type e = ValueError
     /\ exists text, exc_str e = name self +:+ ": " +:+ text)
  /\ (length errors <= if flag (custom_mode (params self)) then 6 else 2)%nat.
Proof.
  cbn zeta. destruct (flag (custom_mode (params self))) eqn:Hmode.
  - rewrite (validate_custom_mode self Hmode). cbn zeta. split.
    + intros e He.
      repeat (apply in_app_or in He; destruct He as [He|He]);
        apply in_violation in He; subst e; (split; [reflexivity|]);
        eexists; reflexivity.
    + rewrite !length_app.
      repeat match goal with
             | |- context [length (violation ?c ?x)] =>
                 pose proof (length_violation c x);
                 generalize dependent (length (violation c x)); intros
             end.
      lia.
  - rewrite (validate_simple_mode self Hmode). cbn zeta. split.
    + intros e He.
      repeat (apply in_app_or in He; destruct He as [He|He]);
        apply in_violation in He; subst e; (split; [reflexivity|]);
        eexists; reflexivity.
    + rewrite !length_app.
      repeat match goal with
             | |- context [length (violation ?c ?x)] =>
                 pose proof (length_violation c x);
                 generalize dependent (length (violation c x)); intros
             end.
      lia.
Qed.

Lemma validation_error_shape_witness :
  exc_type (Exn ValueError "Suno: Title is required in Custom Mode") = ValueError
  /\ exists text,
       exc_str (Exn ValueError "Suno: Title is required in Custom Mode")
       = "Suno" +:+ ": " +:+ text.
Proof.
  apply (proj1 (validation_error_shape Sample.custom_blank)).
  right. left. reflexivity.
Defined.

Lemma build_payload_keys_witness :
  "style" ∈ ["customMode"; "instrumental"; "model"; "callBackUrl"; "prompt";
             "style"; "title"; "negativeTags"; "vocalGender"; "styleWeight";
             "weirdnessConstraint"; "audioWeight"].
Proof.
  apply (proj2 (proj2 (proj2 (proj2 (proj2
           (build_payload_keys Sample.offline Sample.custom_instrumental)))))).
  apply list_elem_of_In. vm_compute. tauto.
Defined.
